(** * auto-sleuth: the browser-side UI controller (src/frontend/app.js)

    A shallow embedding of the controller's operations ([checkAgentStatus],
    [handleSearch], [fetchFuelPrice] with [updateDashboardUI], and
    [displayResults]) together with the fragment of the JavaScript run time
    they rely on.

    - A string is its sequence of UTF-16 code units; a number is a binary64
      value; a parsed body is a JSON value, of any shape.
    - Truthiness, property reads, [includes], [replace], the conversions of
      a template literal and of [>] follow the language, TypeErrors
      included.  What the language leaves to the engine (how a number
      prints, how a string reads as a number, how a TypeError is worded) is
      a parameter, [Engine]; the theorems hold for every engine.
    - A handler is a function from the world before (the elements the page
      has under an id, and the events so far: alerts, requests, console
      errors) to a completion and the world after.  An exception leaves the
      writes made before it in place, as in the language.
    - An element is a record of the properties the controller touches, each
      property a slot of its own; [innerHTML] holds the markup last
      assigned.  The page is the flat list of the elements with an id: the
      theorems are about what a handler assigns, not about the tree an
      assigned markup parses to.
    - The network is a function from the request to the answer: a response
      with a status and a body that parses or not, or a rejection.

    The older mock version of the page (the second source file) has the same
    empty-query guard and the same 403 branch; the embedding follows the
    refined version.  The load of the page ([initApp]) and the older page
    itself, in the module [Earlier], come after the sample page. *)

From Stdlib Require Import List NArith ZArith Bool String Ascii Lia.
From Stdlib Require Import DecimalString SpecFloat.
From Stdlib Require QArith Qround.
Import ListNotations.

Set Warnings "-register-all".
Local Open Scope N_scope.

(* ================================================================== *)
(** ** Strings: sequences of UTF-16 code units *)

Definition jsstring := list N.

(** An ASCII literal of the source as code units. *)
Definition js (s : string) : jsstring :=
  map N_of_ascii (list_ascii_of_string s).

Arguments js s%_string.

(** The double quote, U+0022, and an attribute value between two of them. *)
Definition dquote : jsstring := [34].

Definition quoted (s : string) : jsstring := dquote ++ js s ++ dquote.

Arguments quoted s%_string.

(** A line feed followed by [indent] spaces: the line breaks inside the
    template literals of the source. *)
Definition newline (indent : nat) : jsstring := 10 :: repeat 32 indent.

(** U+26A0 U+FE0F, the warning sign of the two agent error messages. *)
Definition warning_sign : jsstring := [9888; 65039].

(** U+20AC, the euro sign in front of every price. *)
Definition euro_sign : jsstring := [8364].

Fixpoint str_eqb (a b : jsstring) : bool :=
  match a, b with
  | [], [] => true
  | x :: a', y :: b' => (x =? y) && str_eqb a' b'
  | _, _ => false
  end.

Definition is_empty (s : jsstring) : bool :=
  match s with [] => true | _ :: _ => false end.

(** [p] is a prefix of [s]. *)
Fixpoint starts_with (p s : jsstring) : bool :=
  match p, s with
  | [], _ => true
  | x :: p', y :: s' => (x =? y) && starts_with p' s'
  | _ :: _, [] => false
  end.

(** [String.prototype.includes]: [needle] occurs somewhere in [hay]. *)
Fixpoint includes (needle hay : jsstring) : bool :=
  starts_with needle hay
  || match hay with
     | [] => false
     | _ :: rest => includes needle rest
     end.

(** WhiteSpace and LineTerminator code points of ECMAScript, the characters
    [String.prototype.trim] removes: TAB, LF, VT, FF, CR, SP, NBSP, the
    Unicode space separators, LS, PS and the byte order mark. *)
Definition is_white_space (c : N) : bool :=
  (9 <=? c) && (c <=? 13)
  || (c =? 32) || (c =? 160) || (c =? 5760)
  || (8192 <=? c) && (c <=? 8202)
  || (c =? 8232) || (c =? 8233) || (c =? 8239) || (c =? 8287)
  || (c =? 12288) || (c =? 65279).

Fixpoint trim_start (s : jsstring) : jsstring :=
  match s with
  | [] => []
  | c :: rest => if is_white_space c then trim_start rest else s
  end.

Definition trim_end (s : jsstring) : jsstring := rev (trim_start (rev s)).

Definition trim (s : jsstring) : jsstring := trim_end (trim_start s).

(** [text.replace(/\n/g, '<br>')]: every line feed becomes a line break
    element. *)
Definition newlines_to_breaks (text : jsstring) : jsstring :=
  flat_map (fun c => if c =? 10 then js "<br>" else [c]) text.

(** [message.replace(/^Error: /, '')]. *)
Definition strip_error_prefix (message : jsstring) : jsstring :=
  if starts_with (js "Error: ") message then skipn 7 message else message.

(** Decimal digits of a non-negative integer, as a template literal prints
    an integral number below 10^21. *)
Definition decimal (n : N) : jsstring :=
  js (NilZero.string_of_uint (N.to_uint n)).

(* ================================================================== *)
(** ** Numbers and JSON values *)

(** A JavaScript number is an IEEE 754 binary64 value. *)
Definition number := spec_float.

Definition number_zero : number := S754_zero false.

(** ToBoolean on a number: everything but +0, -0 and NaN. *)
Definition number_truthy (x : number) : bool :=
  match x with
  | S754_zero _ | S754_nan => false
  | _ => true
  end.

(** [x > 0] on numbers. *)
Definition number_positive (x : number) : bool := SFltb number_zero x.

(** What [JSON.parse] returns.  [JObj] lists the members as the text has
    them; a name that is written twice keeps its last value. *)
Inductive json : Type :=
| JNull
| JBool (b : bool)
| JNum (x : number)
| JStr (s : jsstring)
| JArr (items : list json)
| JObj (members : list (jsstring * json)).

(** A JavaScript value as this program meets it: [None] is [undefined]. *)
Definition jsval := option json.

Definition undefined : jsval := None.

(** ToBoolean. *)
Definition truthy (v : jsval) : bool :=
  match v with
  | None | Some JNull => false
  | Some (JBool b) => b
  | Some (JNum x) => number_truthy x
  | Some (JStr s) => negb (is_empty s)
  | Some (JArr _) | Some (JObj _) => true
  end.

Fixpoint lookup (key : jsstring) (members : list (jsstring * json)) : jsval :=
  match members with
  | [] => None
  | (k, v) :: rest =>
      match lookup key rest with
      | Some later => Some later
      | None => if str_eqb key k then Some v else None
      end
  end.

(** The value of [j.key] for a value that is neither [null] nor
    [undefined].  Every property name this program reads from a response
    ([available], [detail], [car], [source], [location], [city],
    [regionName], [region], [countryCode], [price_data], [regional],
    [national], [prices], [fuel_price] and the four fuel keys) is absent from
    the prototypes of objects, arrays, strings, numbers and booleans, so the
    read yields an own member of an object and [undefined] anywhere else. *)
Definition member (j : json) (key : jsstring) : jsval :=
  match j with
  | JObj members => lookup key members
  | _ => None
  end.

(* ================================================================== *)
(** ** Exceptions and the engine *)

Record exn : Type := mkExn { exn_name : jsstring; message : jsstring }.

(** [new Error(msg)]. *)
Definition Error (msg : jsstring) : exn := mkExn (js "Error") msg.

(** Why the engine itself raises a TypeError in this program. *)
Inductive type_error_cause : Type :=
| ReadOfNullish (base : jsval) (property : jsstring)
| WriteOfNull (property : jsstring)
| NotAFunction (callee : jsstring)
| NoPrimitiveValue.

(** What the language leaves to the engine or what is out of reach of a
    small model: the shortest round-trip printing of a number, the parsing
    of a numeric string, and the wording of an engine-raised TypeError. *)
Class Engine : Type := {
  NumberToString : number -> jsstring;
  StringToNumber : jsstring -> number;
  type_error_message : type_error_cause -> jsstring
}.

(** Completion of an evaluation: a value, or an exception on its way to the
    nearest catch. *)
Inductive completion (A : Type) : Type :=
| Normal (a : A)
| Throw (e : exn).

Arguments Normal {A} a.
Arguments Throw {A} e.

Definition cbind {A B : Type} (c : completion A) (k : A -> completion B)
  : completion B :=
  match c with
  | Normal a => k a
  | Throw e => Throw e
  end.

Notation "x <-- c ;; k" := (cbind c (fun x => k))
  (at level 61, c at next level, right associativity).

Section Conversions.

Context {engine : Engine}.

Definition TypeError (cause : type_error_cause) : exn :=
  mkExn (js "TypeError") (type_error_message cause).

(** ToString, as a template literal applies it to a substitution.  An array
    joins the conversions of its elements with commas, a [null] element
    giving the empty string.  A plain object prints through
    [Object.prototype.toString].  When the parsed text gave the object a
    member called [toString], that member hides the method and cannot be
    called; [valueOf] is then either hidden in the same way or returns the
    object itself, so there is no primitive value and the engine throws. *)
Fixpoint to_string (j : json) : completion jsstring :=
  match j with
  | JNull => Normal (js "null")
  | JBool b => Normal (if b then js "true" else js "false")
  | JNum x => Normal (NumberToString x)
  | JStr s => Normal s
  | JArr items =>
      (fix join (l : list json) : completion jsstring :=
         match l with
         | [] => Normal []
         | x :: rest =>
             s <-- match x with JNull => Normal [] | _ => to_string x end ;;
             match rest with
             | [] => Normal s
             | _ :: _ => r <-- join rest ;; Normal (s ++ js "," ++ r)
             end
         end) items
  | JObj members =>
      match lookup (js "toString") members with
      | Some _ => Throw (TypeError NoPrimitiveValue)
      | None => Normal (js "[object Object]")
      end
  end.

(** A substitution of a template literal. *)
Definition interpolate (v : jsval) : completion jsstring :=
  match v with
  | None => Normal (js "undefined")
  | Some j => to_string j
  end.

(** [v > 0]: a number is compared as it is; [null] counts as 0 and a
    boolean as 0 or 1; a string, and an array or object through its string
    conversion, is read as a number first. *)
Definition greater_than_zero (v : jsval) : completion bool :=
  match v with
  | None | Some JNull => Normal false
  | Some (JBool b) => Normal b
  | Some (JNum x) => Normal (number_positive x)
  | Some (JStr s) => Normal (number_positive (StringToNumber s))
  | Some (JArr items) =>
      s <-- to_string (JArr items) ;;
      Normal (number_positive (StringToNumber s))
  | Some (JObj members) =>
      s <-- to_string (JObj members) ;;
      Normal (number_positive (StringToNumber s))
  end.

(** [base.key], which throws on [null] and [undefined]. *)
Definition get (base : jsval) (key : jsstring) : completion jsval :=
  match base with
  | None | Some JNull => Throw (TypeError (ReadOfNullish base key))
  | Some j => Normal (member j key)
  end.

(** [detail.includes(marker)] on a value already known to be truthy: the
    substring test of a string, the membership test of an array, and no such
    method on a number, a boolean or an object. *)
Definition includes_method (callee : jsstring) (v : jsval) (marker : jsstring)
  : completion bool :=
  match v with
  | Some (JStr s) => Normal (includes marker s)
  | Some (JArr items) =>
      Normal (existsb (fun x => match x with
                                | JStr s => str_eqb s marker
                                | _ => false
                                end) items)
  | None | Some JNull =>
      Throw (TypeError (ReadOfNullish v (js "includes")))
  | Some _ => Throw (TypeError (NotAFunction callee))
  end.

(** [resultText.replace(/\n/g, '<br>')]: only a string has the method. *)
Definition replace_method (callee : jsstring) (v : jsval)
  : completion jsstring :=
  match v with
  | Some (JStr s) => Normal (newlines_to_breaks s)
  | None | Some JNull =>
      Throw (TypeError (ReadOfNullish v (js "replace")))
  | Some _ => Throw (TypeError (NotAFunction callee))
  end.

End Conversions.

(* ================================================================== *)
(** ** The page, the network and the effects of a handler *)

(** The properties of an element the controller reads or writes.
    [innerHTML] holds the markup last assigned to it. *)
Record Element : Type := mkElement {
  disabled : bool;
  textContent : jsstring;
  title : jsstring;
  placeholder : jsstring;
  value : jsstring;
  innerHTML : jsstring;
  classList : list jsstring;
  style_opacity : jsstring;
  style_cursor : jsstring
}.

Definition set_disabled (b : bool) (e : Element) : Element :=
  mkElement b (textContent e) (title e) (placeholder e) (value e)
    (innerHTML e) (classList e) (style_opacity e) (style_cursor e).

Definition set_textContent (s : jsstring) (e : Element) : Element :=
  mkElement (disabled e) s (title e) (placeholder e) (value e)
    (innerHTML e) (classList e) (style_opacity e) (style_cursor e).

Definition set_title (s : jsstring) (e : Element) : Element :=
  mkElement (disabled e) (textContent e) s (placeholder e) (value e)
    (innerHTML e) (classList e) (style_opacity e) (style_cursor e).

Definition set_placeholder (s : jsstring) (e : Element) : Element :=
  mkElement (disabled e) (textContent e) (title e) s (value e)
    (innerHTML e) (classList e) (style_opacity e) (style_cursor e).

Definition set_innerHTML (s : jsstring) (e : Element) : Element :=
  mkElement (disabled e) (textContent e) (title e) (placeholder e) (value e)
    s (classList e) (style_opacity e) (style_cursor e).

Definition set_classList (l : list jsstring) (e : Element) : Element :=
  mkElement (disabled e) (textContent e) (title e) (placeholder e) (value e)
    (innerHTML e) l (style_opacity e) (style_cursor e).

Definition set_style_opacity (s : jsstring) (e : Element) : Element :=
  mkElement (disabled e) (textContent e) (title e) (placeholder e) (value e)
    (innerHTML e) (classList e) s (style_cursor e).

Definition set_style_cursor (s : jsstring) (e : Element) : Element :=
  mkElement (disabled e) (textContent e) (title e) (placeholder e) (value e)
    (innerHTML e) (classList e) (style_opacity e) s.

(** [classList.remove(name)]. *)
Definition remove_class (name : jsstring) (e : Element) : Element :=
  set_classList (filter (fun c => negb (str_eqb c name)) (classList e)) e.

(** The elements of the page that carry an id, in tree order.  The model is
    flat: it records what is assigned to the properties of each of these
    elements and not the tree under it, so the elements an [innerHTML]
    creates or removes are not represented. *)
Definition Document := list (jsstring * Element).

(** [document.getElementById]: the first element with that id. *)
Fixpoint find_element (id : jsstring) (d : Document) : option Element :=
  match d with
  | [] => None
  | (i, e) :: rest => if str_eqb id i then Some e else find_element id rest
  end.

(** A write through the reference [getElementById] returned. *)
Fixpoint update_element (id : jsstring) (f : Element -> Element) (d : Document)
  : Document :=
  match d with
  | [] => []
  | (i, e) :: rest =>
      if str_eqb id i then (i, f e) :: rest
      else (i, e) :: update_element id f rest
  end.

(** A request as [fetch] is given it; [payload] is the value handed to
    [JSON.stringify]. *)
Record Request : Type := mkRequest {
  url : jsstring;
  method : jsstring;
  headers : list (jsstring * jsstring);
  payload : option json
}.

(** A response: its status and what [response.json()] settles to, the
    parsed body or the exception of a body that does not parse. *)
Record Response : Type := mkResponse {
  status : N;
  parsed : completion json
}.

(** [response.ok]. *)
Definition ok (r : Response) : bool := (200 <=? status r) && (status r <=? 299).

(** What the server and the transport answer to a request: a response, or
    the exception [fetch] rejects with. *)
Definition Network := Request -> completion Response.

(** What a handler does besides writing to the page. *)
Inductive Event : Type :=
| Alerted (text : jsstring)
| Requested (request : Request)
| Logged (label : jsstring) (error : exn).

Record World : Type := mkWorld {
  document : Document;
  events : list Event
}.

(** A handler: from the world before to its completion and the world after. *)
Definition M (A : Type) : Type := World -> completion A * World.

Definition ret {A : Type} (a : A) : M A := fun w => (Normal a, w).

Definition throw {A : Type} (e : exn) : M A := fun w => (Throw e, w).

Definition bind {A B : Type} (m : M A) (k : A -> M B) : M B :=
  fun w =>
    match m w with
    | (Normal a, w') => k a w'
    | (Throw e, w') => (Throw e, w')
    end.

Notation "x <- m ;; k" := (bind m (fun x => k))
  (at level 61, m at next level, right associativity).

Notation "m ;; k" := (bind m (fun _ => k))
  (at level 61, right associativity).

(** [try { body } catch (error) { handler error }]. *)
Definition try_catch {A : Type} (body : M A) (handler : exn -> M A) : M A :=
  fun w =>
    match body w with
    | (Normal a, w') => (Normal a, w')
    | (Throw e, w') => handler e w'
    end.

(** An expression that touches neither the page nor the network. *)
Definition lift {A : Type} (c : completion A) : M A := fun w => (c, w).

Definition emit (ev : Event) : M unit :=
  fun w => (Normal tt, mkWorld (document w) (events w ++ [ev])).

Definition alert (text : jsstring) : M unit := emit (Alerted text).

Definition console_error (label : jsstring) (error : exn) : M unit :=
  emit (Logged label error).

(** A reference to an element, or [null]. *)
Definition ElementRef := option jsstring.

Definition getElementById (id : jsstring) : M ElementRef :=
  fun w =>
    (Normal (match find_element id (document w) with
             | Some _ => Some id
             | None => None
             end), w).

Section Handlers.

Context {engine : Engine}.

Variable network : Network.

(** [ref.property = ...], a TypeError on [null]. *)
Definition assign (ref : ElementRef) (property : jsstring)
    (f : Element -> Element) : M unit :=
  match ref with
  | None => throw (TypeError (WriteOfNull property))
  | Some id =>
      fun w => (Normal tt, mkWorld (update_element id f (document w)) (events w))
  end.

(** [ref.value]. *)
Definition read_value (ref : ElementRef) : M jsstring :=
  match ref with
  | None => throw (TypeError (ReadOfNullish (Some JNull) (js "value")))
  | Some id =>
      fun w =>
        match find_element id (document w) with
        | Some e => (Normal (value e), w)
        | None => (Throw (TypeError (ReadOfNullish (Some JNull) (js "value"))), w)
        end
  end.

(** [ref.classList.remove(name)]. *)
Definition classList_remove (ref : ElementRef) (name : jsstring) : M unit :=
  match ref with
  | None => throw (TypeError (ReadOfNullish (Some JNull) (js "classList")))
  | Some _ => assign ref (js "classList") (remove_class name)
  end.

(** [await fetch(...)]: the request leaves, and the network's answer is the
    value or the exception of the await. *)
Definition fetch (request : Request) : M Response :=
  emit (Requested request) ;; lift (network request).

(** [await response.json()]. *)
Definition response_json (r : Response) : M json := lift (parsed r).

(* ------------------------------------------------------------------ *)
(** *** checkAgentStatus *)

Definition status_request : Request :=
  mkRequest (js "/api/v1/agent/status") (js "GET") [] None.

(** The five assignments to the search button, and the three to the search
    input, of an unavailable agent. *)
Definition disable_search_button (searchBtn : ElementRef) : M unit :=
  assign searchBtn (js "disabled") (set_disabled true) ;;
  assign searchBtn (js "textContent") (set_textContent (js "Agent Unavailable")) ;;
  assign searchBtn (js "title") (set_title (js "Agent API Key is missing")) ;;
  assign searchBtn (js "opacity") (set_style_opacity (js "0.6")) ;;
  assign searchBtn (js "cursor") (set_style_cursor (js "not-allowed")).

Definition disable_search_input (searchInput : ElementRef) : M unit :=
  assign searchInput (js "disabled") (set_disabled true) ;;
  assign searchInput (js "placeholder")
    (set_placeholder (js "Agent is offline (API Key missing)")) ;;
  assign searchInput (js "cursor") (set_style_cursor (js "not-allowed")).

Definition checkAgentStatus : M unit :=
  searchBtn <- getElementById (js "search-btn") ;;
  searchInput <- getElementById (js "car-search") ;;
  try_catch
    (response <- fetch status_request ;;
     data <- response_json response ;;
     available <- lift (get (Some data) (js "available")) ;;
     if negb (truthy available) then
       (match searchBtn with
        | Some _ => disable_search_button searchBtn
        | None => ret tt
        end) ;;
       (match searchInput with
        | Some _ => disable_search_input searchInput
        | None => ret tt
        end)
     else ret tt)
    (fun error => console_error (js "Failed to check agent status:") error).

(* ------------------------------------------------------------------ *)
(** *** displayResults and handleSearch *)

Definition results_markup (query formattedText : jsstring) : jsstring :=
  newline 8 ++ js "<h3>Analysis for " ++ dquote ++ query ++ dquote ++ js "</h3>"
  ++ newline 8 ++ js "<div class=" ++ quoted "agent-response" ++ js ">"
  ++ newline 12 ++ js "<p>" ++ formattedText ++ js "</p>"
  ++ newline 8 ++ js "</div>"
  ++ newline 4.

Definition displayResults (resultText query : jsval) : M unit :=
  resultsContent <- getElementById (js "results-content") ;;
  match resultsContent with
  | None => ret tt
  | Some _ =>
      formattedText <- lift (replace_method (js "resultText.replace") resultText) ;;
      heading <- lift (interpolate query) ;;
      assign resultsContent (js "innerHTML")
        (set_innerHTML (results_markup heading formattedText))
  end.

Definition chat_request (query : jsstring) : Request :=
  mkRequest (js "/api/v1/agent/chat") (js "POST")
    [(js "Content-Type", js "application/json")]
    (Some (JObj [(js "query", JStr query)])).

Definition loading_spinner : jsstring :=
  js "<div class=" ++ quoted "loading-spinner" ++ js "></div>".

Definition quota_exceeded_message : jsstring :=
  warning_sign ++ js " Agent usage limit exceeded. Please try again later.".

Definition service_unavailable_message : jsstring :=
  warning_sign ++ js " Agent service is temporarily unavailable. Please try again.".

Definition api_error_message (code : N) : jsstring :=
  js "API Error: " ++ decimal code.

Definition no_data_markup : jsstring :=
  js "<p>No data available for this car.</p>".

Definition error_markup (msg : jsstring) : jsstring :=
  js "<p class=" ++ quoted "error" ++ js ">" ++ msg ++ js "</p>".

(** [errorData.detail && (errorData.detail.includes("RESOURCE_EXHAUSTED")
    || errorData.detail.includes("429"))], as a condition. *)
Definition quota_exhausted (errorData : json) : completion bool :=
  detail <-- get (Some errorData) (js "detail") ;;
  if truthy detail then
    found <-- includes_method (js "errorData.detail.includes") detail
                (js "RESOURCE_EXHAUSTED") ;;
    if found then Normal true
    else includes_method (js "errorData.detail.includes") detail (js "429")
  else Normal false.

(** The [try] block of [handleSearch]. *)
Definition handleSearch_try (resultsContent : ElementRef) (query : jsstring)
  : M unit :=
  response <- fetch (chat_request query) ;;
  if negb (ok response) then
    errorData <- try_catch (response_json response) (fun _ => ret (JObj [])) ;;
    let msg := api_error_message (status response) in
    if (status response =? 502) || (status response =? 429) then
      exhausted <- lift (quota_exhausted errorData) ;;
      if exhausted then throw (Error quota_exceeded_message)
      else throw (Error service_unavailable_message)
    else throw (Error msg)
  else
    data <- response_json response ;;
    car <- (if truthy (Some data) then lift (get (Some data) (js "car"))
            else ret (Some data)) ;;
    if truthy car then
      source <- lift (get (Some data) (js "source")) ;;
      displayResults car source
    else
      assign resultsContent (js "innerHTML") (set_innerHTML no_data_markup).

(** Its [catch] block. *)
Definition handleSearch_catch (resultsContent : ElementRef) (error : exn)
  : M unit :=
  console_error (js "Error fetching data:") error ;;
  let msg := strip_error_prefix (message error) in
  assign resultsContent (js "innerHTML") (set_innerHTML (error_markup msg)).

Definition handleSearch : M unit :=
  searchInput <- getElementById (js "car-search") ;;
  resultsSection <- getElementById (js "results-section") ;;
  resultsContent <- getElementById (js "results-content") ;;
  text <- read_value searchInput ;;
  let query := trim text in
  if is_empty query then alert (js "Please enter a car to analyze.")
  else
    classList_remove resultsSection (js "results-hidden") ;;
    assign resultsContent (js "innerHTML") (set_innerHTML loading_spinner) ;;
    try_catch (handleSearch_try resultsContent query)
      (handleSearch_catch resultsContent).

(* ------------------------------------------------------------------ *)
(** *** updateDashboardUI and fetchFuelPrice *)

(** [Object.entries(fuelMapping)]: the four known fuel keys with their
    labels, in the order the object literal lists them. *)
Definition fuelMapping : list (jsstring * jsstring) :=
  [ (js "gasoline", js "Benzina");
    (js "diesel", js "Gasolio");
    (js "gpl", js "GPL");
    (js "methane", js "Metano") ].

(** One row of a price list; [indent] is the column of the template
    literal's closing back quote (20 in [generatePriceList], 16 in the
    older single list). *)
Definition fuel_item (indent : nat) (label price : jsstring) : jsstring :=
  newline (indent + 4) ++ js "<div class=" ++ quoted "fuel-item" ++ js ">"
  ++ newline (indent + 8) ++ js "<span class=" ++ quoted "fuel-type" ++ js ">"
       ++ label ++ js "</span>"
  ++ newline (indent + 8) ++ js "<span class=" ++ quoted "fuel-price" ++ js ">"
       ++ euro_sign ++ price ++ js "</span>"
  ++ newline (indent + 4) ++ js "</div>"
  ++ newline indent.

(** [prices[key] && prices[key] > 0], as a condition. *)
Definition price_shown (price : jsval) : completion bool :=
  if truthy price then greater_than_zero price else Normal false.

(** The [for ... of] loop over the fuel mapping: [html] grows by one row per
    shown price and [hasPrices] records that there was one. *)
Fixpoint price_rows (indent : nat) (entries : list (jsstring * jsstring))
    (prices : jsval) (html : jsstring) (hasPrices : bool)
  : completion (jsstring * bool) :=
  match entries with
  | [] => Normal (html, hasPrices)
  | (key, label) :: rest =>
      price <-- get prices key ;;
      shown <-- price_shown price ;;
      if shown then
        text <-- interpolate price ;;
        price_rows indent rest prices (html ++ fuel_item indent label text) true
      else price_rows indent rest prices html hasPrices
  end.

Definition price_column_header (title : jsstring) : jsstring :=
  js "<div class=" ++ quoted "price-column" ++ js "><h4>" ++ title ++ js "</h4>".

Definition generatePriceList (prices : jsval) (title : jsstring)
  : completion jsstring :=
  loop <-- price_rows 20 fuelMapping prices (price_column_header title) false ;;
  let html := fst loop ++ js "</div>" in
  Normal (if snd loop then html else []).

Definition prices_container (contentHtml : jsstring) : jsstring :=
  js "<div class=" ++ quoted "prices-container"
  ++ js " style=" ++ quoted "display: flex; gap: 2rem;" ++ js ">"
  ++ contentHtml ++ js "</div>".

Definition price_label : jsstring :=
  js "<div class=" ++ quoted "price-label" ++ js ">Prezzo Medio</div>".

(** The location line: [`${city}, ${region} (${country})`]. *)
Definition location_text (location city : jsval) : completion jsstring :=
  regionName <-- get location (js "regionName") ;;
  named <-- (if truthy regionName then Normal regionName
             else get location (js "region")) ;;
  let region := if truthy named then named else Some (JStr []) in
  countryCode <-- get location (js "countryCode") ;;
  let country := if truthy countryCode then countryCode
                 else Some (JStr (js "IT")) in
  c <-- interpolate city ;;
  r <-- interpolate region ;;
  k <-- interpolate country ;;
  Normal (c ++ js ", " ++ r ++ js " (" ++ k ++ js ")").

(** The two columns of [contentHtml]. *)
Definition price_columns (price_data : jsval) : completion jsstring :=
  regional <-- get price_data (js "regional") ;;
  first <-- (if truthy regional then
               prices <-- get regional (js "prices") ;;
               region <-- get regional (js "region") ;;
               name <-- interpolate region ;;
               generatePriceList prices (js "Media " ++ name)
             else Normal []) ;;
  national <-- get price_data (js "national") ;;
  second <-- (if truthy national then
                prices <-- get national (js "prices") ;;
                generatePriceList prices (js "Media Italia")
              else Normal []) ;;
  Normal (first ++ second).

(** The first half of [updateDashboardUI]: the location line. *)
Definition update_location (userLocation : ElementRef) (data : json) : M unit :=
  location <- lift (get (Some data) (js "location")) ;;
  city <- (if truthy location then lift (get location (js "city"))
           else ret location) ;;
  if truthy city then
    text <- lift (location_text location city) ;;
    assign userLocation (js "textContent") (set_textContent text)
  else
    assign userLocation (js "textContent")
      (set_textContent (js "Unknown Location")).

(** The second half: the prices. *)
Definition update_prices (gasPricesDisplay : ElementRef) (data : json)
  : M unit :=
  price_data <- lift (get (Some data) (js "price_data")) ;;
  if truthy price_data then
    contentHtml <- lift (price_columns price_data) ;;
    if is_empty contentHtml then
      assign gasPricesDisplay (js "innerHTML")
        (set_innerHTML (js "<p>Prezzi non disponibili.</p>"))
    else
      assign gasPricesDisplay (js "innerHTML")
        (set_innerHTML (prices_container contentHtml))
  else
    fuel_price <- lift (get (Some data) (js "fuel_price")) ;;
    if truthy fuel_price then
      loop <- lift (price_rows 16 fuelMapping fuel_price price_label false) ;;
      assign gasPricesDisplay (js "innerHTML") (set_innerHTML (fst loop))
    else
      assign gasPricesDisplay (js "innerHTML")
        (set_innerHTML (js "<p>Prices unavailable</p>")).

Definition updateDashboardUI (data : json) : M unit :=
  userLocation <- getElementById (js "user-location") ;;
  gasPricesDisplay <- getElementById (js "gas-prices") ;;
  update_location userLocation data ;;
  update_prices gasPricesDisplay data.

Definition fuel_price_request : Request :=
  mkRequest (js "/api/v1/fuel-price") (js "GET") [] None.

Definition mini_spinner : jsstring :=
  js "<div class=" ++ quoted "mini-spinner" ++ js "></div>".

Definition error_message_markup (detail : jsstring) : jsstring :=
  js "<p class=" ++ quoted "error-message" ++ js ">" ++ detail ++ js "</p>".

(** The [try] block of [fetchFuelPrice]. *)
Definition fetchFuelPrice_try (userLocation gasPricesDisplay : ElementRef)
  : M unit :=
  response <- fetch fuel_price_request ;;
  if status response =? 403 then
    errorData <- response_json response ;;
    assign userLocation (js "textContent")
      (set_textContent (js "Location Unavailable")) ;;
    detail <- lift (get (Some errorData) (js "detail")) ;;
    text <- lift (interpolate detail) ;;
    assign gasPricesDisplay (js "innerHTML")
      (set_innerHTML (error_message_markup text))
  else if negb (ok response) then
    throw (Error (js "Failed to fetch fuel prices"))
  else
    data <- response_json response ;;
    updateDashboardUI data.

(** Its [catch] block. *)
Definition fetchFuelPrice_catch (userLocation gasPricesDisplay : ElementRef)
    (error : exn) : M unit :=
  console_error (js "Error fetching fuel prices:") error ;;
  assign userLocation (js "textContent")
    (set_textContent (js "Location Unavailable")) ;;
  assign gasPricesDisplay (js "innerHTML")
    (set_innerHTML (js "<p>Could not load prices</p>")).

Definition fetchFuelPrice : M unit :=
  dashboardSection <- getElementById (js "dashboard-section") ;;
  userLocation <- getElementById (js "user-location") ;;
  gasPricesDisplay <- getElementById (js "gas-prices") ;;
  match dashboardSection, userLocation, gasPricesDisplay with
  | Some _, Some _, Some _ =>
      classList_remove dashboardSection (js "dashboard-hidden") ;;
      assign userLocation (js "textContent")
        (set_textContent (js "Info loading...")) ;;
      assign gasPricesDisplay (js "innerHTML") (set_innerHTML mini_spinner) ;;
      try_catch (fetchFuelPrice_try userLocation gasPricesDisplay)
        (fetchFuelPrice_catch userLocation gasPricesDisplay)
  | _, _, _ => ret tt
  end.

(** The rows of a price list, one per shown entry. *)
Definition fuel_rows (indent : nat) (entries : list (jsstring * number))
  : jsstring :=
  flat_map (fun entry : jsstring * number =>
              fuel_item indent (fst entry) (NumberToString (snd entry)))
    entries.

(** A price column: nothing when no entry is shown, else the title, the
    rows and the closing tag. *)
Definition price_list (title : jsstring) (entries : list (jsstring * number))
  : jsstring :=
  match entries with
  | [] => []
  | _ :: _ => price_column_header title ++ fuel_rows 20 entries ++ js "</div>"
  end.

(** The body [handleSearch] works with after a failed response: the parsed
    one, or the empty object [.catch(() => ({}))] puts in its place. *)
Definition error_body (r : Response) : json :=
  match parsed r with
  | Normal body => body
  | Throw _ => JObj []
  end.

(** The exception the [try] block of [handleSearch] ends with on a
    response that is not ok. *)
Definition chat_failure (r : Response) : exn :=
  if (status r =? 502) || (status r =? 429) then
    match quota_exhausted (error_body r) with
    | Normal true => Error quota_exceeded_message
    | Normal false => Error service_unavailable_message
    | Throw e => e
    end
  else Error (api_error_message (status r)).

End Handlers.

(* ================================================================== *)
(** ** Reading the page after a handler has run *)

(** The markup an element shows: its [innerHTML]. *)
Definition rendered (id : string) (w : World) : option jsstring :=
  option_map innerHTML (find_element (js id) (document w)).

Arguments rendered id%_string w.

(** The text an element shows: its [textContent]. *)
Definition shown_text (id : string) (w : World) : option jsstring :=
  option_map textContent (find_element (js id) (document w)).

Arguments shown_text id%_string w.

(** The requests a handler issued. *)
Definition requests (evs : list Event) : list Request :=
  flat_map (fun ev => match ev with Requested r => [r] | _ => [] end) evs.

(** The search button and the search input of an unavailable agent: what the
    assignments of [checkAgentStatus] leave of an element [e]. *)
Definition agent_unavailable_button (e : Element) : Element :=
  mkElement true (js "Agent Unavailable") (js "Agent API Key is missing")
    (placeholder e) (value e) (innerHTML e) (classList e)
    (js "0.6") (js "not-allowed").

Definition agent_unavailable_input (e : Element) : Element :=
  mkElement true (textContent e) (title e)
    (js "Agent is offline (API Key missing)") (value e) (innerHTML e)
    (classList e) (style_opacity e) (js "not-allowed").

(** The page once a non-empty query has been read: the results section is
    no longer hidden and the results show the spinner. *)
Definition searching (w : World) : World :=
  mkWorld
    (update_element (js "results-content") (set_innerHTML loading_spinner)
       (update_element (js "results-section") (remove_class (js "results-hidden"))
          (document w)))
    (events w).

(** The quota-exhaustion marker, as [handleSearch] looks for it in a detail
    string: the text RESOURCE_EXHAUSTED, or the text 429. *)
Definition quota_marker (detail : jsstring) : bool :=
  includes (js "RESOURCE_EXHAUSTED") detail || includes (js "429") detail.

(** The detail of a failed chat response of the documented shape
    [{detail?: string}]: none when the body does not parse or carries no
    (truthy) detail, the string when it carries one. *)
Inductive error_detail (r : Response) : option jsstring -> Prop :=
| detail_unparseable :
    forall e, parsed r = Throw e -> error_detail r None
| detail_missing :
    forall body,
      parsed r = Normal body -> body <> JNull ->
      truthy (member body (js "detail")) = false ->
      error_detail r None
| detail_string :
    forall body d,
      parsed r = Normal body ->
      member body (js "detail") = Some (JStr d) ->
      error_detail r (Some d).

Definition has_quota_marker (detail : option jsstring) : bool :=
  match detail with
  | Some d => quota_marker d
  | None => false
  end.

(** The dashboard once [fetchFuelPrice] has found its three elements: shown,
    with the loading text and the small spinner. *)
Definition loading_dashboard (w : World) : World :=
  mkWorld
    (update_element (js "gas-prices") (set_innerHTML mini_spinner)
       (update_element (js "user-location")
          (set_textContent (js "Info loading..."))
          (update_element (js "dashboard-section")
             (remove_class (js "dashboard-hidden")) (document w))))
    (events w).

(** The city of a fuel-price response, if its location has one. *)
Definition city_of (data : json) : jsval :=
  match member data (js "location") with
  | Some location => member location (js "city")
  | None => None
  end.

(** A text field of the location that is present: a string that is not
    empty. *)
Definition text_field (location : json) (key : jsstring) : option jsstring :=
  match member location key with
  | Some (JStr s) => if is_empty s then None else Some s
  | _ => None
  end.

(** The field is a string, [null] or left out. *)
Definition text_or_absent (location : json) (key : jsstring) : bool :=
  match member location key with
  | None | Some JNull | Some (JStr _) => true
  | _ => false
  end.

(** [regionName] when present, else [region], else the empty string. *)
Definition region_text (location : json) : jsstring :=
  match text_field location (js "regionName") with
  | Some s => s
  | None =>
      match text_field location (js "region") with
      | Some s => s
      | None => []
      end
  end.

(** [countryCode] when present, else IT. *)
Definition country_text (location : json) : jsstring :=
  match text_field location (js "countryCode") with
  | Some s => s
  | None => js "IT"
  end.

(** Every known fuel key of [prices] is a number, [null] or left out. *)
Definition numeric_prices (prices : json) : bool :=
  forallb (fun entry : jsstring * jsstring =>
             match member prices (fst entry) with
             | None | Some JNull | Some (JNum _) => true
             | _ => false
             end) fuelMapping.

(** The entries among [entries] whose price is present and strictly greater
    than zero, each with its label, in the order of the mapping. *)
Definition shown_among (entries : list (jsstring * jsstring)) (prices : json)
  : list (jsstring * number) :=
  flat_map (fun entry : jsstring * jsstring =>
              match member prices (fst entry) with
              | Some (JNum x) =>
                  if number_positive x then [(snd entry, x)] else []
              | _ => []
              end) entries.

Definition shown_prices (prices : json) : list (jsstring * number) :=
  shown_among fuelMapping prices.

(** 1.8 as a binary64 number: 8106479329266893 * 2^-52. *)
Definition one_point_eight : number :=
  S754_finite false 8106479329266893 (-52).

(** The regional prices of the example: [{gasoline: 1.8, diesel: 0}]. *)
Definition example_prices : json :=
  JObj [ (js "gasoline", JNum one_point_eight);
         (js "diesel", JNum number_zero) ].

(** A fuel-price response with these regional prices for [region]. *)
Definition example_fuel_response (region : jsstring) : json :=
  JObj [ (js "price_data",
          JObj [ (js "regional",
                  JObj [ (js "region", JStr region);
                         (js "prices", example_prices) ]) ]) ].



(* ================================================================== *)
(** ** A reference engine

    The theorems below hold for every engine.  To run the handlers on
    concrete pages and responses, this one prints a number with the fewest
    digits that read back as the same number (Number::toString), reads a
    string by the StringNumericLiteral grammar with round-to-nearest-even
    (StringToNumber), and words its TypeErrors as V8 does. *)

Module ReferenceEngine.

Import QArith Qround.

Local Open Scope Z_scope.

(** [b ^ n] for an exponent of either sign. *)
Definition qpow (b n : Z) : Q :=
  if 0 <=? n then inject_Z (b ^ n) else Qmake 1 (Z.to_pos (b ^ (- n))).

(** The mantissa and exponent of a finite number in canonical form: 53 bits,
    or the least exponent -1074. *)
Definition canonical (m : positive) (e : Z) : Z * Z :=
  let shift := Z.min (52 - Z.log2 (Zpos m)) (e + 1074) in
  if 0 <? shift then (Z.shiftl (Zpos m) shift, e - shift) else (Zpos m, e).

(** The real [v] rounds to the number [m * 2^e]: it lies between the
    midpoints to the two neighbours, the midpoints themselves counting when
    [m] is even. *)
Definition rounds_to (m e : Z) (v : Q) : bool :=
  let x := Qmult (inject_Z m) (qpow 2 e) in
  let above := qpow 2 (e - 1) in
  let below :=
    if (m =? 2 ^ 52) && (-1074 <? e) then qpow 2 (e - 2) else above in
  let lo := Qminus x below in
  let hi := Qplus x above in
  if Z.even m then Qle_bool lo v && Qle_bool v hi
  else negb (Qle_bool v lo) && negb (Qle_bool hi v).

(** The least [n], from [n] on, with [x < 10 ^ n]. *)
Fixpoint decimal_exponent (fuel : nat) (n : Z) (x : Q) : Z :=
  match fuel with
  | O => n
  | S fuel' =>
      if Qle_bool (qpow 10 n) x then decimal_exponent fuel' (n + 1) x else n
  end.

(** The [k]-digit decimal [s * 10 ^ (n - k)] nearest to the number, when it
    rounds to it. *)
Definition candidate (m e n k : Z) : option (Z * Z) :=
  let x := Qmult (inject_Z m) (qpow 2 e) in
  let unit := qpow 10 (n - k) in
  let s1 := Qfloor (Qdiv x unit) in
  let s2 := s1 + 1 in
  let v1 := Qmult (inject_Z s1) unit in
  let v2 := Qmult (inject_Z s2) unit in
  let carry s := if s =? 10 ^ k then (10 ^ (k - 1), n + 1) else (s, n) in
  match rounds_to m e v1, rounds_to m e v2 with
  | true, false => Some (s1, n)
  | false, true => Some (carry s2)
  | false, false => None
  | true, true =>
      match Qcompare (Qminus x v1) (Qminus v2 x) with
      | Lt => Some (s1, n)
      | Gt => Some (carry s2)
      | Eq => if Z.even s1 then Some (s1, n) else Some (carry s2)
      end
  end.

(** The digits [s], the decimal exponent [n] and the digit count [k] of
    Number::toString: [k] as small as possible. *)
Fixpoint shortest (fuel : nat) (m e n k : Z) : Z * Z * Z :=
  match fuel with
  | O => (Qfloor (Qdiv (Qmult (inject_Z m) (qpow 2 e)) (qpow 10 (n - k))), n, k)
  | S fuel' =>
      match candidate m e n k with
      | Some (s, n') => (s, n', k)
      | None => shortest fuel' m e n (k + 1)
      end
  end.

Definition zeros (n : Z) : jsstring := repeat 48%N (Z.to_nat n).

Definition digits (s : Z) : jsstring := decimal (Z.to_N s).

Definition print_positive (m : positive) (e : Z) : jsstring :=
  let '(m', e') := canonical m e in
  let x := Qmult (inject_Z m') (qpow 2 e') in
  let n0 := decimal_exponent 700 (-330) x in
  let '(s, n, k) := shortest 17 m' e' n0 1 in
  let d := digits s in
  if (k <=? n) && (n <=? 21) then d ++ zeros (n - k)
  else if (0 <? n) && (n <=? 21) then
    firstn (Z.to_nat n) d ++ js "." ++ skipn (Z.to_nat n) d
  else if (-6 <? n) && (n <=? 0) then js "0." ++ zeros (- n) ++ d
  else
    let exponent :=
      (if 0 <=? n - 1 then js "+" else js "-") ++ digits (Z.abs (n - 1)) in
    if k =? 1 then d ++ js "e" ++ exponent
    else firstn 1 d ++ js "." ++ skipn 1 d ++ js "e" ++ exponent.

Definition number_to_string (x : number) : jsstring :=
  match x with
  | S754_nan => js "NaN"
  | S754_zero _ => js "0"
  | S754_infinity s => if s then js "-Infinity" else js "Infinity"
  | S754_finite s m e => (if s then js "-" else []) ++ print_positive m e
  end.

(** Round to nearest, ties to even, of a non-negative rational. *)
Definition round_half_even (t : Q) : Z :=
  let f := Qfloor t in
  match Qcompare (Qminus t (inject_Z f)) (Qmake 1 2) with
  | Lt => f
  | Gt => f + 1
  | Eq => if Z.even f then f else f + 1
  end.

(** The exponent [e] with [2^52 <= q / 2^e < 2^53], not below -1074. *)
Definition binary_exponent (q : Q) : Z :=
  let e0 := Z.log2 (Qnum q) - Z.log2 (Zpos (Qden q)) - 52 in
  let e1 := if Qle_bool (qpow 2 (e0 + 53)) q then e0 + 1 else e0 in
  let e2 := if Qle_bool (qpow 2 (e1 + 52)) q then e1 else e1 - 1 in
  Z.max e2 (-1074).

(** The number nearest to a non-negative rational. *)
Definition round_to_number (negative : bool) (q : Q) : number :=
  if Qle_bool q 0 then S754_zero negative
  else
    let e := binary_exponent q in
    let m := round_half_even (Qdiv q (qpow 2 e)) in
    let '(m, e) := if m =? 2 ^ 53 then (2 ^ 52, e + 1) else (m, e) in
    if 971 <? e then S754_infinity negative
    else match m with
         | Zpos p => S754_finite negative p e
         | _ => S754_zero negative
         end.

Definition digit_value (base : Z) (c : N) : option Z :=
  let c := Z.of_N c in
  let d := if (48 <=? c) && (c <=? 57) then c - 48
           else if (97 <=? c) && (c <=? 102) then c - 87
           else if (65 <=? c) && (c <=? 70) then c - 55
           else base in
  if d <? base then Some d else None.

Fixpoint read_digits (base : Z) (s : jsstring) (acc : Z) (count : Z)
  : Z * Z * jsstring :=
  match s with
  | c :: rest =>
      match digit_value base c with
      | Some d => read_digits base rest (acc * base + d) (count + 1)
      | None => (acc, count, s)
      end
  | [] => (acc, count, [])
  end.

(** An ExponentPart, or none; nothing when one is begun and not finished. *)
Definition read_exponent (s : jsstring) : option (Z * jsstring) :=
  match s with
  | (101 | 69)%N :: rest =>
      let '(negative, rest) :=
        match rest with
        | 45%N :: r => (true, r)
        | 43%N :: r => (false, r)
        | _ => (false, rest)
        end in
      let '(v, n, rest) := read_digits 10 rest 0 0 in
      if n =? 0 then None else Some (if negative then - v else v, rest)
  | _ => Some (0, s)
  end.

(** The value of a StrUnsignedDecimalLiteral other than Infinity. *)
Definition unsigned_decimal (s : jsstring) : option Q :=
  let '(ip, ni, rest) := read_digits 10 s 0 0 in
  let '(fp, nf, rest) :=
    match rest with
    | 46%N :: r => read_digits 10 r 0 0
    | _ => (0, 0, rest)
    end in
  if ni + nf =? 0 then None
  else match read_exponent rest with
       | Some (e, []) =>
           Some (Qmult (inject_Z (ip * 10 ^ nf + fp)) (qpow 10 (e - nf)))
       | _ => None
       end.

Definition non_decimal (base : Z) (s : jsstring) : number :=
  match read_digits base s 0 0 with
  | (v, n, []) =>
      if n =? 0 then S754_nan else round_to_number false (inject_Z v)
  | _ => S754_nan
  end.

Definition signed_decimal (negative : bool) (s : jsstring) : number :=
  if str_eqb s (js "Infinity") then S754_infinity negative
  else match unsigned_decimal s with
       | Some q => round_to_number negative q
       | None => S754_nan
       end.

Definition string_to_number (s : jsstring) : number :=
  match trim s with
  | [] => S754_zero false
  | 45%N :: rest => signed_decimal true rest
  | 43%N :: rest => signed_decimal false rest
  | 48%N :: (120 | 88)%N :: rest => non_decimal 16 rest
  | 48%N :: (111 | 79)%N :: rest => non_decimal 8 rest
  | 48%N :: (98 | 66)%N :: rest => non_decimal 2 rest
  | text => signed_decimal false text
  end.

Definition describe (cause : type_error_cause) : jsstring :=
  match cause with
  | ReadOfNullish base property =>
      js "Cannot read properties of "
      ++ (match base with None => js "undefined" | Some _ => js "null" end)
      ++ js " (reading '" ++ property ++ js "')"
  | WriteOfNull property =>
      js "Cannot set properties of null (setting '" ++ property ++ js "')"
  | NotAFunction callee => callee ++ js " is not a function"
  | NoPrimitiveValue => js "Cannot convert object to primitive value"
  end.

End ReferenceEngine.

Definition reference_engine : Engine :=
  Build_Engine ReferenceEngine.number_to_string
    ReferenceEngine.string_to_number ReferenceEngine.describe.

(* ================================================================== *)
(** ** A page and some answers to run the handlers on *)

Definition blank_element : Element :=
  mkElement false [] [] [] [] [] [] [] [].

(** The page of the application with [typed] in the search input. *)
Definition sample_page (typed : jsstring) : Document :=
  [ (js "car-search",
     mkElement false [] [] (js "e.g. Fiat Panda 2012") typed [] [] [] []);
    (js "search-btn", set_textContent (js "Analyze") blank_element);
    (js "results-section", set_classList [js "results-hidden"] blank_element);
    (js "results-content", blank_element);
    (js "dashboard-section",
     set_classList [js "dashboard-hidden"] blank_element);
    (js "user-location", blank_element);
    (js "gas-prices", set_innerHTML mini_spinner blank_element) ].

Definition sample_world (typed : jsstring) : World :=
  mkWorld (sample_page typed) [].

(** A network that answers every request with the same response. *)
Definition answering (code : N) (body : json) : Network :=
  fun _ => Normal (mkResponse code (Normal body)).

(** A network whose response carries a body that is not JSON. *)
Definition answering_garbage (code : N) : Network :=
  fun _ =>
    Normal (mkResponse code
              (Throw (mkExn (js "SyntaxError")
                        (js "Unexpected token '<'")))).

(** A network that is down. *)
Definition unreachable : Network :=
  fun _ => Throw (mkExn (js "TypeError") (js "Failed to fetch")).

(** An agent answer whose two fields both hold a line feed. *)
Definition two_line_answer : json :=
  JObj [ (js "car", JStr (js "Reliable." ++ [10] ++ js "Cheap."));
         (js "source", JStr (js "web" ++ [10] ++ js "search")) ].

(* ================================================================== *)
(** ** The rest of the controller: page load, and the older mock page *)

(** A string with nothing but white space in it, the empty one included. *)
Definition blank (s : jsstring) : bool := forallb is_white_space s.

(** A handler assigns to the elements it looked up under [ids] only: in the
    list of the elements that carry an id, the ids stay, the properties
    recorded under every other id are as they were, and the events are only
    added to.  This is a fact about the assignments of the handler; what an
    assignment to [innerHTML] or [textContent] does to the descendants of
    the element is not in the model. *)
Definition confined {A : Type} (ids : list jsstring) (m : M A) : Prop :=
  forall w,
    map fst (document (snd (m w))) = map fst (document w)
    /\ (forall id, existsb (str_eqb id) ids = false ->
          find_element id (document (snd (m w)))
          = find_element id (document w))
    /\ (exists evs, events (snd (m w)) = events w ++ evs).

(** A call that is not awaited: it runs, and its caller never sees how it
    completes. *)
Definition detached {A : Type} (m : M A) : M unit :=
  fun w => (Normal tt, snd (m w)).

(** A listener [addEventListener] has put on an element. *)
Record Listener : Type := mkListener {
  target : jsstring;
  event_type : jsstring;
  listener : M unit
}.

(** A section of [price_data] (regional or national) whose prices, if it
    has any section at all, are numeric: the section is left out or [null],
    or an object with an object of numeric prices. *)
Definition numeric_section (section : jsval) : bool :=
  match section with
  | None | Some JNull => true
  | Some (JObj members) =>
      match lookup (js "prices") members with
      | Some (JObj prices) => numeric_prices (JObj prices)
      | _ => false
      end
  | Some _ => false
  end.

(** The shown entries of such a section. *)
Definition section_prices (section : jsval) : list (jsstring * number) :=
  match section with
  | Some (JObj members) =>
      match lookup (js "prices") members with
      | Some prices => shown_prices prices
      | None => []
      end
  | _ => []
  end.

Section MoreHandlers.

Context {engine : Engine}.

Variable network : Network.

(** [initApp]: the status check is awaited, the click listener goes on the
    search button when there is one, and the first fuel price fetch is
    started and not awaited.  The listeners registered are the result. *)
Definition initApp : M (list Listener) :=
  searchBtn <- getElementById (js "search-btn") ;;
  searchInput <- getElementById (js "car-search") ;;
  checkAgentStatus network ;;
  let listeners :=
    match searchBtn with
    | Some id => [mkListener id (js "click") (handleSearch network)]
    | None => []
    end in
  detached (fetchFuelPrice network) ;;
  ret listeners.

(** The two columns of the price display over numeric sections, the region
    of the first printed as [name]. *)
Definition numeric_columns (name : jsstring) (regional national : jsval)
  : jsstring :=
  price_list (js "Media " ++ name) (section_prices regional)
  ++ price_list (js "Media Italia") (section_prices national).

End MoreHandlers.

(** *** The older page (the mock search and [fetchGasPrice]) *)

Module Earlier.

Section Handlers.

Context {engine : Engine}.

Variable network : Network.

Definition results_markup (car cost score reliability : jsstring) : jsstring :=
  newline 12 ++ js "<h3>Results for " ++ dquote ++ car ++ dquote ++ js "</h3>"
  ++ newline 12 ++ js "<p><strong>Estimated Cost:</strong> " ++ cost ++ js "</p>"
  ++ newline 12 ++ js "<p><strong>Maintenance Score:</strong> " ++ score
       ++ js "</p>"
  ++ newline 12 ++ js "<p><strong>Reliability:</strong> " ++ reliability
       ++ js "</p>"
  ++ newline 8.

(** [displayResults(data)] of the older page; [resultsContent] is the
    element its enclosing function looked up when the page loaded. *)
Definition displayResults (resultsContent : ElementRef) (data : json) : M unit :=
  car <- lift (field <-- get (Some data) (js "car") ;; interpolate field) ;;
  cost <- lift (field <-- get (Some data) (js "estimated_cost") ;;
                interpolate field) ;;
  score <- lift (field <-- get (Some data) (js "maintenance_score") ;;
                 interpolate field) ;;
  reliability <- lift (field <-- get (Some data) (js "reliability") ;;
                       interpolate field) ;;
  assign resultsContent (js "innerHTML")
    (set_innerHTML (results_markup car cost score reliability)).

(** The mock response: the query with fixed estimates. *)
Definition mockData (query : jsstring) : json :=
  JObj [ (js "car", JStr query);
         (js "estimated_cost", JStr (js "$12,500 - $15,000"));
         (js "maintenance_score", JStr (js "High"));
         (js "reliability", JStr (js "Average")) ].

Definition failure_markup : jsstring :=
  js "<p class=" ++ quoted "error"
  ++ js ">An error occurred while analyzing the car. Please try again.</p>".

(** The click listener of the search button.  The three elements are those
    looked up when the page loaded.  The simulated delay of 1500 ms between
    the spinner and the results has no effect on the page or the events. *)
Definition searchClick (searchInput resultsSection resultsContent : ElementRef)
  : M unit :=
  text <- read_value searchInput ;;
  let query := trim text in
  if is_empty query then alert (js "Please enter a car to analyze.")
  else
    classList_remove resultsSection (js "results-hidden") ;;
    assign resultsContent (js "innerHTML") (set_innerHTML loading_spinner) ;;
    try_catch (displayResults resultsContent (mockData query))
      (fun error =>
         console_error (js "Error fetching data:") error ;;
         assign resultsContent (js "innerHTML") (set_innerHTML failure_markup)).

Definition gas_price_request : Request :=
  mkRequest (js "/api/v1/gas-price") (js "GET") [] None.

(** The prices of the older page: the single list under [gas_price]. *)
Definition update_gas_prices (gasPricesDisplay : ElementRef) (data : json)
  : M unit :=
  gas_price <- lift (get (Some data) (js "gas_price")) ;;
  if truthy gas_price then
    loop <- lift (price_rows 24 fuelMapping gas_price price_label false) ;;
    assign gasPricesDisplay (js "innerHTML") (set_innerHTML (fst loop))
  else
    assign gasPricesDisplay (js "innerHTML")
      (set_innerHTML (js "<p>Prices unavailable</p>")).

(** The [try] block of [fetchGasPrice]; its location lines are those of
    [updateDashboardUI]. *)
Definition fetchGasPrice_try
    (dashboardSection userLocation gasPricesDisplay : ElementRef) : M unit :=
  classList_remove dashboardSection (js "dashboard-hidden") ;;
  response <- fetch network gas_price_request ;;
  if status response =? 403 then
    errorData <- response_json response ;;
    assign userLocation (js "textContent")
      (set_textContent (js "Location Unavailable")) ;;
    detail <- lift (get (Some errorData) (js "detail")) ;;
    text <- lift (interpolate detail) ;;
    assign gasPricesDisplay (js "innerHTML")
      (set_innerHTML (error_message_markup text))
  else if negb (ok response) then
    throw (Error (js "Failed to fetch gas prices"))
  else
    data <- response_json response ;;
    update_location userLocation data ;;
    update_gas_prices gasPricesDisplay data.

Definition fetchGasPrice : M unit :=
  dashboardSection <- getElementById (js "dashboard-section") ;;
  userLocation <- getElementById (js "user-location") ;;
  gasPricesDisplay <- getElementById (js "gas-prices") ;;
  try_catch (fetchGasPrice_try dashboardSection userLocation gasPricesDisplay)
    (fun error =>
       console_error (js "Error fetching gas prices:") error ;;
       assign userLocation (js "textContent")
         (set_textContent (js "Location Unavailable")) ;;
       assign gasPricesDisplay (js "innerHTML")
         (set_innerHTML (js "<p>Could not load prices</p>"))).

(** The listener of [DOMContentLoaded]: the four lookups, the first price
    fetch, started and not awaited, and the click listener on the search
    button, a TypeError when there is none.  The listeners registered are
    the result. *)
Definition onLoad : M (list Listener) :=
  searchBtn <- getElementById (js "search-btn") ;;
  searchInput <- getElementById (js "car-search") ;;
  resultsSection <- getElementById (js "results-section") ;;
  resultsContent <- getElementById (js "results-content") ;;
  detached fetchGasPrice ;;
  match searchBtn with
  | Some id =>
      ret [mkListener id (js "click")
             (searchClick searchInput resultsSection resultsContent)]
  | None =>
      throw (TypeError (ReadOfNullish (Some JNull) (js "addEventListener")))
  end.

End Handlers.

End Earlier.

(** A page without the element under [id]. *)
Definition without (id : jsstring) (d : Document) : Document :=
  filter (fun entry : jsstring * Element => negb (str_eqb id (fst entry))) d.

(** A handler that issues exactly the requests [sent], in this order,
    however it completes. *)
Definition sends {A : Type} (sent : list Request) (m : M A) : Prop :=
  forall w, requests (events (snd (m w))) = requests (events w) ++ sent.

(** The page has the three elements of the dashboard. *)
Definition has_dashboard (d : Document) : bool :=
  match find_element (js "dashboard-section") d,
        find_element (js "user-location") d,
        find_element (js "gas-prices") d with
  | Some _, Some _, Some _ => true
  | _, _, _ => false
  end.

(** How the fuel price exchange fails with [error] before any body is
    displayed: [fetch] rejects, the status is neither ok nor 403, or the
    body of an ok response does not parse. *)
Inductive fuel_failure (network : Network) : exn -> Prop :=
| fuel_rejected :
    forall e, network fuel_price_request = Throw e -> fuel_failure network e
| fuel_refused :
    forall r,
      network fuel_price_request = Normal r ->
      status r <> 403 -> ok r = false ->
      fuel_failure network (Error (js "Failed to fetch fuel prices"))
| fuel_garbled :
    forall r e,
      network fuel_price_request = Normal r ->
      ok r = true -> parsed r = Throw e ->
      fuel_failure network e.

(** The section, if it is an object, names its region by a string. *)
Definition named_section (section : jsval) : bool :=
  match section with
  | Some (JObj members) =>
      match lookup (js "region") members with
      | Some (JStr _) => true
      | _ => false
      end
  | _ => true
  end.

Definition region_name (section : jsval) : jsstring :=
  match section with
  | Some (JObj members) =>
      match lookup (js "region") members with
      | Some (JStr name) => name
      | _ => []
      end
  | _ => []
  end.

(* ================================================================== *)
(** ** The texts and the markup, written out

    What the page is expected to show, character by character.  Nothing
    here refers to the definitions of the handlers: the theorems compare
    what the handlers assign with these. *)

(** The message of an exhausted quota and the message of an agent that is
    out of reach, each after the warning sign U+26A0 U+FE0F. *)
Definition usage_limit_text : jsstring :=
  [9888; 65039] ++ js " Agent usage limit exceeded. Please try again later.".

Definition temporarily_unavailable_text : jsstring :=
  [9888; 65039]
  ++ js " Agent service is temporarily unavailable. Please try again.".

(** The paragraph of the results that holds an error text. *)
Definition expected_error_paragraph (text : jsstring) : jsstring :=
  js "<p class=" ++ dquote ++ js "error" ++ dquote ++ js ">"
  ++ text ++ js "</p>".

(** The paragraph of the price display that holds the detail of a refusal. *)
Definition expected_detail_paragraph (detail : jsstring) : jsstring :=
  js "<p class=" ++ dquote ++ js "error-message" ++ dquote ++ js ">"
  ++ detail ++ js "</p>".

(** The four known fuel keys, each with the label its row shows. *)
Definition known_fuels : list (jsstring * jsstring) :=
  [ (js "gasoline", js "Benzina");
    (js "diesel", js "Gasolio");
    (js "gpl", js "GPL");
    (js "methane", js "Metano") ].

(** A number strictly greater than zero: a finite number of positive sign,
    which is not a zero, or positive infinity. *)
Definition strictly_positive (x : number) : bool :=
  match x with
  | S754_finite false _ _ | S754_infinity false => true
  | _ => false
  end.

(** Under every known fuel key [prices] has a number, [null] or nothing. *)
Definition numbers_or_absent (prices : json) : bool :=
  forallb (fun fuel : jsstring * jsstring =>
             match member prices (fst fuel) with
             | None | Some JNull | Some (JNum _) => true
             | _ => false
             end) known_fuels.

(** The known fuels whose price in [prices] is a number strictly greater
    than zero, each as its label and its price, in the order above. *)
Definition positive_prices (prices : json) : list (jsstring * number) :=
  flat_map (fun fuel : jsstring * jsstring =>
              match member prices (fst fuel) with
              | Some (JNum x) =>
                  if strictly_positive x then [(snd fuel, x)] else []
              | _ => []
              end) known_fuels.

(** A row of a price list: the label, and the price after the euro sign
    U+20AC.  The lines of the row are indented by [indent] + 4 and
    [indent] + 8 spaces and the line after it by [indent]. *)
Definition expected_row (indent : nat) (label price : jsstring) : jsstring :=
  [10] ++ repeat 32 (indent + 4)
  ++ js "<div class=" ++ dquote ++ js "fuel-item" ++ dquote ++ js ">"
  ++ [10] ++ repeat 32 (indent + 8)
  ++ js "<span class=" ++ dquote ++ js "fuel-type" ++ dquote ++ js ">"
  ++ label ++ js "</span>"
  ++ [10] ++ repeat 32 (indent + 8)
  ++ js "<span class=" ++ dquote ++ js "fuel-price" ++ dquote ++ js ">"
  ++ [8364] ++ price ++ js "</span>"
  ++ [10] ++ repeat 32 (indent + 4) ++ js "</div>"
  ++ [10] ++ repeat 32 indent.

(** The two columns in their container. *)
Definition expected_container (columns : jsstring) : jsstring :=
  js "<div class=" ++ dquote ++ js "prices-container" ++ dquote
  ++ js " style=" ++ dquote ++ js "display: flex; gap: 2rem;" ++ dquote
  ++ js ">" ++ columns ++ js "</div>".

(** The section of [price_data] is left out, [null], or an object whose
    [prices] is an object with a number, [null] or nothing under every
    known fuel key; and the prices it then shows. *)
Definition priced_section (section : jsval) : bool :=
  match section with
  | None | Some JNull => true
  | Some (JObj members) =>
      match lookup (js "prices") members with
      | Some (JObj prices) => numbers_or_absent (JObj prices)
      | _ => false
      end
  | Some _ => false
  end.

Definition section_positive_prices (section : jsval)
  : list (jsstring * number) :=
  match section with
  | Some (JObj members) =>
      match lookup (js "prices") members with
      | Some prices => positive_prices prices
      | None => []
      end
  | _ => []
  end.

(** The results of the older page for [query]. *)
Definition expected_mock_results (query : jsstring) : jsstring :=
  [10] ++ repeat 32 12
  ++ js "<h3>Results for " ++ dquote ++ query ++ dquote ++ js "</h3>"
  ++ [10] ++ repeat 32 12
  ++ js "<p><strong>Estimated Cost:</strong> $12,500 - $15,000</p>"
  ++ [10] ++ repeat 32 12
  ++ js "<p><strong>Maintenance Score:</strong> High</p>"
  ++ [10] ++ repeat 32 12
  ++ js "<p><strong>Reliability:</strong> Average</p>"
  ++ [10] ++ repeat 32 8.

Section Expected.

Context {engine : Engine}.

(** The rows of the entries, each price printed as the engine prints a
    number. *)
Definition expected_rows (indent : nat) (entries : list (jsstring * number))
  : jsstring :=
  flat_map (fun entry : jsstring * number =>
              expected_row indent (fst entry) (NumberToString (snd entry)))
    entries.

(** A column of prices under [title]; without an entry there is no column. *)
Definition expected_column (title : jsstring)
    (entries : list (jsstring * number)) : jsstring :=
  match entries with
  | [] => []
  | _ :: _ =>
      js "<div class=" ++ dquote ++ js "price-column" ++ dquote
      ++ js "><h4>" ++ title ++ js "</h4>"
      ++ expected_rows 20 entries ++ js "</div>"
  end.

(** The regional column, titled by the name of the region, and the national
    one. *)
Definition expected_columns (name : jsstring) (regional national : jsval)
  : jsstring :=
  expected_column (js "Media " ++ name) (section_positive_prices regional)
  ++ expected_column (js "Media Italia") (section_positive_prices national).

(** The single list of the older format and of the older page: the label
    and the rows, in no container. *)
Definition expected_single_list (indent : nat)
    (entries : list (jsstring * number)) : jsstring :=
  js "<div class=" ++ dquote ++ js "price-label" ++ dquote
  ++ js ">Prezzo Medio</div>" ++ expected_rows indent entries.

End Expected.

(* ================================================================== *)
(** ** Strings and the page: basic facts *)

Arguments js : simpl never.

Lemma str_eqb_refl : forall s, str_eqb s s = true.
Proof.
  induction s as [|c s IH]; simpl; [reflexivity|].
  now rewrite N.eqb_refl, IH.
Qed.

Lemma str_eqb_eq : forall a b, str_eqb a b = true <-> a = b.
Proof.
  induction a as [|x a IH]; destruct b as [|y b]; simpl; split;
    try discriminate; try reflexivity.
  - intros H. apply andb_true_iff in H as [Hx Hr].
    apply N.eqb_eq in Hx. apply IH in Hr. now subst.
  - intros H. injection H as -> ->. now rewrite N.eqb_refl, str_eqb_refl.
Qed.

Lemma trim_start_blank :
  forall s, forallb is_white_space s = true -> trim_start s = [].
Proof.
  induction s as [|c s IH]; simpl; [reflexivity|].
  intros H. apply andb_true_iff in H as [Hc Hs].
  rewrite Hc. now apply IH.
Qed.

Lemma trim_blank :
  forall s, forallb is_white_space s = true -> trim s = [].
Proof.
  intros s H. unfold trim, trim_end.
  now rewrite (trim_start_blank s H).
Qed.

Lemma find_update_same :
  forall id f d,
    find_element id (update_element id f d) = option_map f (find_element id d).
Proof.
  induction d as [|[i e] d IH]; simpl; [reflexivity|].
  destruct (str_eqb id i) eqn:E; simpl; rewrite E; [reflexivity | exact IH].
Qed.

Lemma find_update_other :
  forall id id' f d,
    str_eqb id id' = false ->
    find_element id (update_element id' f d) = find_element id d.
Proof.
  intros id id' f d Hne.
  induction d as [|[i e] d IH]; simpl; [reflexivity|].
  destruct (str_eqb id' i) eqn:E; simpl.
  - apply str_eqb_eq in E. subst i. now rewrite Hne.
  - destruct (str_eqb id i); [reflexivity | exact IH].
Qed.

Lemma update_absent :
  forall id f d, find_element id d = None -> update_element id f d = d.
Proof.
  induction d as [|[i e] d IH]; simpl; [reflexivity|].
  destruct (str_eqb id i); [discriminate|].
  intros H. now rewrite IH.
Qed.

(** Running a handler step by step. *)
Ltac run :=
  cbv beta iota zeta delta
    [bind ret throw lift try_catch emit alert console_error getElementById
     assign read_value classList_remove fetch response_json cbind];
  cbn [fst snd document events].

(** Reading an element back after a series of writes. *)
Ltac find_elements :=
  repeat first [ rewrite find_update_same
               | rewrite find_update_other by reflexivity ].

Section HandlerFacts.

Context {engine : Engine}.

Variable network : Network.

(* ------------------------------------------------------------------ *)
(** *** The texts of the handlers are the texts written out *)

Lemma quota_exceeded_message_written :
  quota_exceeded_message = usage_limit_text.
Proof. reflexivity. Qed.

Lemma service_unavailable_message_written :
  service_unavailable_message = temporarily_unavailable_text.
Proof. reflexivity. Qed.

Lemma error_markup_written :
  forall msg, error_markup msg = expected_error_paragraph msg.
Proof. reflexivity. Qed.

Lemma error_message_markup_written :
  forall detail, error_message_markup detail = expected_detail_paragraph detail.
Proof. reflexivity. Qed.

Lemma fuelMapping_written : fuelMapping = known_fuels.
Proof. reflexivity. Qed.

Lemma number_positive_written :
  forall x, number_positive x = strictly_positive x.
Proof. intros [[|]|[|]| |[|] m e]; reflexivity. Qed.

Lemma numeric_prices_written :
  forall prices, numeric_prices prices = numbers_or_absent prices.
Proof. reflexivity. Qed.

Lemma shown_prices_written :
  forall prices, shown_prices prices = positive_prices prices.
Proof.
  intros prices. unfold shown_prices, shown_among, positive_prices.
  rewrite fuelMapping_written.
  apply flat_map_ext. intros fuel.
  destruct (member prices (fst fuel)) as [[| |x| | |]|]; try reflexivity.
  now rewrite number_positive_written.
Qed.

Lemma fuel_rows_written :
  forall indent entries, fuel_rows indent entries = expected_rows indent entries.
Proof. reflexivity. Qed.

Lemma price_list_written :
  forall title entries, price_list title entries = expected_column title entries.
Proof.
  intros title [|entry entries]; [reflexivity|].
  unfold price_list, expected_column, price_column_header, quoted.
  rewrite <- !app_assoc. reflexivity.
Qed.

Lemma prices_container_written :
  forall columns, prices_container columns = expected_container columns.
Proof. reflexivity. Qed.

Lemma single_list_written :
  forall indent entries,
    price_label ++ fuel_rows indent entries
    = expected_single_list indent entries.
Proof. reflexivity. Qed.

Lemma numeric_section_written :
  forall section, numeric_section section = priced_section section.
Proof. reflexivity. Qed.

Lemma section_prices_written :
  forall section, section_prices section = section_positive_prices section.
Proof.
  intros [[| | | | |members]|]; try reflexivity.
  cbn [section_prices section_positive_prices].
  destruct (lookup (js "prices") members); [|reflexivity].
  apply shown_prices_written.
Qed.

Lemma numeric_columns_written :
  forall name regional national,
    numeric_columns name regional national
    = expected_columns name regional national.
Proof.
  intros name regional national. unfold numeric_columns, expected_columns.
  now rewrite !price_list_written, !section_prices_written.
Qed.

Lemma mock_results_written :
  forall query,
    Earlier.results_markup query (js "$12,500 - $15,000") (js "High")
      (js "Average")
    = expected_mock_results query.
Proof.
  intros query. unfold Earlier.results_markup, expected_mock_results, newline.
  repeat (rewrite <- ?app_assoc; cbn [app]; f_equal).
Qed.

(* ------------------------------------------------------------------ *)
(** *** The empty query *)

(** C4.  When the search input holds the empty string or only white space,
    [handleSearch] alerts the user and returns: the alert is the only thing
    that happens, so no request is issued, and the page, the results section
    with it, is what it was. *)
Theorem handleSearch_blank_query :
  forall (w : World) (input : Element),
    find_element (js "car-search") (document w) = Some input ->
    forallb is_white_space (value input) = true ->
    fst (handleSearch network w) = Normal tt
    /\ events (snd (handleSearch network w))
       = events w ++ [Alerted (js "Please enter a car to analyze.")]
    /\ requests (events (snd (handleSearch network w))) = requests (events w)
    /\ document (snd (handleSearch network w)) = document w.
Proof.
  intros w input Hin Hblank.
  assert (Hrun : handleSearch network w
                 = (Normal tt,
                    mkWorld (document w)
                      (events w ++ [Alerted (js "Please enter a car to analyze.")]))).
  { unfold handleSearch. run. rewrite Hin. run. rewrite Hin. run.
    rewrite (trim_blank _ Hblank). reflexivity. }
  rewrite Hrun. cbn [fst snd document events].
  repeat split.
  unfold requests. rewrite flat_map_app. cbn. apply app_nil_r.
Qed.

(* ------------------------------------------------------------------ *)
(** *** The agent status *)

(** C9.  When the status request fails in transport, because [fetch] rejects
    or because the body does not parse, [checkAgentStatus] logs the error and
    changes nothing on the page: the search button and the search input keep
    their state, text, placeholder and style. *)
Theorem checkAgentStatus_transport_failure :
  forall (w : World) (e : exn),
    (network status_request = Throw e
     \/ exists r, network status_request = Normal r /\ parsed r = Throw e) ->
    fst (checkAgentStatus network w) = Normal tt
    /\ document (snd (checkAgentStatus network w)) = document w
    /\ find_element (js "search-btn") (document (snd (checkAgentStatus network w)))
       = find_element (js "search-btn") (document w)
    /\ find_element (js "car-search") (document (snd (checkAgentStatus network w)))
       = find_element (js "car-search") (document w)
    /\ events (snd (checkAgentStatus network w))
       = events w ++ [Requested status_request]
         ++ [Logged (js "Failed to check agent status:") e].
Proof.
  intros w e H.
  assert (Hrun : checkAgentStatus network w
                 = (Normal tt,
                    mkWorld (document w)
                      ((events w ++ [Requested status_request])
                       ++ [Logged (js "Failed to check agent status:") e]))).
  { unfold checkAgentStatus. run.
    destruct H as [H | (r & H & Hr)]; rewrite H; run;
      [reflexivity | rewrite Hr; reflexivity]. }
  rewrite Hrun. cbn [fst snd document events].
  rewrite <- app_assoc. repeat split.
Qed.

(** C6.  When the status response parses to a body whose [available] is
    [false], [checkAgentStatus] disables the search button and the search
    input, whichever of the two the page has, and sets the explanatory
    texts: the label and the title of the button, the placeholder of the
    input. *)
Theorem checkAgentStatus_unavailable :
  forall (w : World) (r : Response) (body : json),
    network status_request = Normal r ->
    parsed r = Normal body ->
    member body (js "available") = Some (JBool false) ->
    fst (checkAgentStatus network w) = Normal tt
    /\ find_element (js "search-btn") (document (snd (checkAgentStatus network w)))
       = option_map agent_unavailable_button
           (find_element (js "search-btn") (document w))
    /\ find_element (js "car-search") (document (snd (checkAgentStatus network w)))
       = option_map agent_unavailable_input
           (find_element (js "car-search") (document w)).
Proof.
  intros w r body Hnet Hbody Hav.
  destruct body; simpl in Hav; try discriminate.
  unfold checkAgentStatus. run. rewrite Hnet. run. rewrite Hbody. run.
  unfold get. cbn [member]. rewrite Hav. cbn [truthy negb].
  destruct (find_element (js "search-btn") (document w)) as [btn|] eqn:Hb;
    destruct (find_element (js "car-search") (document w)) as [inp|] eqn:Hi;
    unfold disable_search_button, disable_search_input; run;
    repeat split; find_elements;
    try rewrite Hb; try rewrite Hi; reflexivity.
Qed.

(* ------------------------------------------------------------------ *)
(** *** The search: from the click to the answer *)

Lemma handleSearch_started :
  forall (w : World) (input section content : Element),
    find_element (js "car-search") (document w) = Some input ->
    find_element (js "results-section") (document w) = Some section ->
    find_element (js "results-content") (document w) = Some content ->
    is_empty (trim (value input)) = false ->
    handleSearch network w
    = try_catch
        (handleSearch_try network (Some (js "results-content")) (trim (value input)))
        (handleSearch_catch (Some (js "results-content")))
        (searching w).
Proof.
  intros w input section content Hin Hsec Hcon Hq.
  unfold handleSearch. run. rewrite Hin, Hsec, Hcon. run. rewrite Hin. run.
  rewrite Hq. reflexivity.
Qed.

Lemma handleSearch_catch_run :
  forall (error : exn) (w : World),
    handleSearch_catch (Some (js "results-content")) error w
    = (Normal tt,
       mkWorld
         (update_element (js "results-content")
            (set_innerHTML (error_markup (strip_error_prefix (message error))))
            (document w))
         (events w ++ [Logged (js "Error fetching data:") error])).
Proof. reflexivity. Qed.

Lemma rendered_results :
  forall (w : World) (content : Element) (html : jsstring) (evs : list Event),
    find_element (js "results-content") (document w) = Some content ->
    rendered "results-content"
      (mkWorld
         (update_element (js "results-content") (set_innerHTML html)
            (document (searching w)))
         evs)
    = Some html.
Proof.
  intros w content html evs Hcon.
  unfold rendered, searching. cbn [document]. find_elements.
  rewrite Hcon. reflexivity.
Qed.

Lemma handleSearch_try_failure :
  forall (w : World) (ref : ElementRef) (query : jsstring) (r : Response),
    network (chat_request query) = Normal r ->
    ok r = false ->
    handleSearch_try network ref query w
    = (Throw (chat_failure r),
       mkWorld (document w) (events w ++ [Requested (chat_request query)])).
Proof.
  intros w ref query r Hnet Hok.
  unfold handleSearch_try, chat_failure, error_body. run.
  rewrite Hnet. run. rewrite Hok. cbn [negb].
  destruct (parsed r) as [body|e]; run;
    destruct ((status r =? 502) || (status r =? 429)); try reflexivity.
  destruct (quota_exhausted body) as [[|]|e]; reflexivity.
Qed.

(** What [handleSearch] leaves behind after a response that is not ok. *)
Lemma handleSearch_failure :
  forall (w : World) (input section content : Element) (r : Response),
    find_element (js "car-search") (document w) = Some input ->
    find_element (js "results-section") (document w) = Some section ->
    find_element (js "results-content") (document w) = Some content ->
    is_empty (trim (value input)) = false ->
    network (chat_request (trim (value input))) = Normal r ->
    ok r = false ->
    fst (handleSearch network w) = Normal tt
    /\ rendered "results-content" (snd (handleSearch network w))
       = Some (error_markup (strip_error_prefix (message (chat_failure r))))
    /\ events (snd (handleSearch network w))
       = events w ++ [Requested (chat_request (trim (value input)))]
         ++ [Logged (js "Error fetching data:") (chat_failure r)].
Proof.
  intros w input section content r Hin Hsec Hcon Hq Hnet Hok.
  rewrite (handleSearch_started w input section content Hin Hsec Hcon Hq).
  unfold try_catch.
  rewrite (handleSearch_try_failure _ _ _ r Hnet Hok).
  rewrite handleSearch_catch_run. cbn [fst snd document events].
  split; [reflexivity|]. split.
  - apply (rendered_results w content). exact Hcon.
  - unfold searching. cbn [events]. now rewrite <- app_assoc.
Qed.

Lemma quota_exhausted_detail :
  forall (r : Response) (d : option jsstring),
    error_detail r d ->
    quota_exhausted (error_body r) = Normal (has_quota_marker d).
Proof.
  intros r d H. unfold error_body.
  destruct H as [e Hp | body Hp Hnull Hfalsy | body d Hp Hd]; rewrite Hp.
  - reflexivity.
  - unfold quota_exhausted.
    destruct body; try contradiction; cbn [get cbind]; now rewrite Hfalsy.
  - unfold quota_exhausted.
    destruct body; simpl in Hd; try discriminate.
    cbn [get cbind member]. rewrite Hd.
    destruct d as [|c d]; [reflexivity|].
    cbn [truthy is_empty negb includes_method cbind has_quota_marker].
    unfold quota_marker.
    now destruct (includes (js "RESOURCE_EXHAUSTED") (c :: d)).
Qed.

Lemma error_markup_inj :
  forall a b, error_markup a = error_markup b -> a = b.
Proof.
  unfold error_markup. intros a b H.
  apply app_inv_head in H. apply app_inv_head in H. apply app_inv_head in H.
  now apply app_inv_tail in H.
Qed.

Lemma unavailable_is_not_quota :
  service_unavailable_message <> quota_exceeded_message.
Proof. intros H. vm_compute in H. discriminate H. Qed.

Lemma api_error_is_not_quota :
  forall code, api_error_message code <> quota_exceeded_message.
Proof. intros code H. discriminate H. Qed.

(** C1, amended.  A chat response that is not ok and whose body is of the
    documented shape: it does not parse, or it is not [null] and carries no
    truthy detail, or it carries a detail string.  Under status 429 or 502, a
    detail string with the quota-exhaustion marker (the text
    RESOURCE_EXHAUSTED or, as the code also accepts, the text 429) renders
    the paragraph "Agent usage limit exceeded. Please try again later."
    after the warning sign; under 429 or 502 without the marker the results
    show "Agent service is temporarily unavailable. Please try again."
    after the warning sign; under any other status they show "API Error: "
    followed by the status in decimal. *)
Theorem handleSearch_http_failure :
  forall (w : World) (input section content : Element) (r : Response),
    find_element (js "car-search") (document w) = Some input ->
    find_element (js "results-section") (document w) = Some section ->
    find_element (js "results-content") (document w) = Some content ->
    is_empty (trim (value input)) = false ->
    network (chat_request (trim (value input))) = Normal r ->
    ok r = false ->
    (forall d,
        status r = 429 \/ status r = 502 ->
        error_detail r (Some d) -> quota_marker d = true ->
        rendered "results-content" (snd (handleSearch network w))
        = Some (expected_error_paragraph usage_limit_text))
    /\ (forall d,
          status r = 429 \/ status r = 502 ->
          error_detail r d -> has_quota_marker d = false ->
          rendered "results-content" (snd (handleSearch network w))
          = Some (expected_error_paragraph temporarily_unavailable_text))
    /\ (status r <> 429 -> status r <> 502 ->
        rendered "results-content" (snd (handleSearch network w))
        = Some (expected_error_paragraph
                  (js "API Error: " ++ decimal (status r)))).
Proof.
  intros w input section content r Hin Hsec Hcon Hq Hnet Hok.
  destruct (handleSearch_failure w input section content r
              Hin Hsec Hcon Hq Hnet Hok) as (_ & Hshown & _).
  rewrite Hshown. unfold chat_failure.
  assert (Hgate : forall d, status r = 429 \/ status r = 502 ->
                    error_detail r d ->
                    (if (status r =? 502) || (status r =? 429)
                     then match quota_exhausted (error_body r) with
                          | Normal true => Error quota_exceeded_message
                          | Normal false => Error service_unavailable_message
                          | Throw e => e
                          end
                     else Error (api_error_message (status r)))
                    = Error (if has_quota_marker d
                             then quota_exceeded_message
                             else service_unavailable_message)).
  { intros d Hs Hd. rewrite (quota_exhausted_detail r d Hd).
    destruct Hs as [-> | ->]; cbn [N.eqb Pos.eqb orb];
      now destruct (has_quota_marker d). }
  split; [|split].
  - intros d Hs Hd Hm. rewrite (Hgate (Some d) Hs Hd).
    cbn [has_quota_marker]. rewrite Hm. reflexivity.
  - intros d Hs Hd Hm. rewrite (Hgate d Hs Hd). rewrite Hm. reflexivity.
  - intros H429 H502.
    apply N.eqb_neq in H429, H502. rewrite H429, H502. reflexivity.
Qed.

(** X28.  Outside that shape the markers are looked for in vain: under
    status 429 or 502, a detail that is truthy and neither a string nor an
    array (a number, [true], an object) makes the test itself throw, and
    what the results show is the engine's TypeError message for the missing
    [includes], neither of the two messages of the agent. *)
Lemma handleSearch_detail_without_includes :
  forall (w : World) (input section content : Element) (r : Response)
         (members : list (jsstring * json)) (detail : json),
    find_element (js "car-search") (document w) = Some input ->
    find_element (js "results-section") (document w) = Some section ->
    find_element (js "results-content") (document w) = Some content ->
    is_empty (trim (value input)) = false ->
    network (chat_request (trim (value input))) = Normal r ->
    status r = 429 \/ status r = 502 ->
    parsed r = Normal (JObj members) ->
    lookup (js "detail") members = Some detail ->
    truthy (Some detail) = true ->
    (forall s, detail <> JStr s) ->
    (forall items, detail <> JArr items) ->
    rendered "results-content" (snd (handleSearch network w))
    = Some (error_markup
              (strip_error_prefix
                 (type_error_message
                    (NotAFunction (js "errorData.detail.includes"))))).
Proof.
  intros w input section content r members detail
         Hin Hsec Hcon Hq Hnet Hst Hp Hd Ht Hs Ha.
  assert (Hok : ok r = false) by (unfold ok; now destruct Hst as [-> | ->]).
  destruct (handleSearch_failure w input section content r
              Hin Hsec Hcon Hq Hnet Hok) as (_ & Hshown & _).
  rewrite Hshown. unfold chat_failure, error_body. rewrite Hp.
  assert (Hgate : (status r =? 502) || (status r =? 429) = true)
    by now destruct Hst as [-> | ->].
  rewrite Hgate. unfold quota_exhausted. cbn [get member cbind].
  rewrite Hd, Ht.
  destruct detail as [|b|x|s|items|ms]; try discriminate Ht;
    try (now elim (Hs s)); try (now elim (Ha items)); reflexivity.
Qed.

Lemma handleSearch_failure_run :
  forall (w : World) (input section content : Element) (r : Response),
    find_element (js "car-search") (document w) = Some input ->
    find_element (js "results-section") (document w) = Some section ->
    find_element (js "results-content") (document w) = Some content ->
    is_empty (trim (value input)) = false ->
    network (chat_request (trim (value input))) = Normal r ->
    ok r = false ->
    handleSearch network w
    = (Normal tt,
       mkWorld
         (update_element (js "results-content")
            (set_innerHTML
               (error_markup (strip_error_prefix (message (chat_failure r)))))
            (document (searching w)))
         ((events (searching w)
           ++ [Requested (chat_request (trim (value input)))])
          ++ [Logged (js "Error fetching data:") (chat_failure r)])).
Proof.
  intros w input section content r Hin Hsec Hcon Hq Hnet Hok.
  rewrite (handleSearch_started w input section content Hin Hsec Hcon Hq).
  unfold try_catch.
  rewrite (handleSearch_try_failure _ _ _ r Hnet Hok).
  now rewrite handleSearch_catch_run.
Qed.

Lemma searching_results_content :
  forall (w : World) (content : Element),
    find_element (js "results-content") (document w) = Some content ->
    find_element (js "results-content") (document (searching w))
    = Some (set_innerHTML loading_spinner content).
Proof.
  intros w content Hcon. unfold searching. cbn [document].
  rewrite find_update_same.
  rewrite find_update_other by reflexivity.
  now rewrite Hcon.
Qed.

(** C8.  A chat response that is ok (status 200 among them) and whose
    parsed body has no truthy [car] renders the no-data message;
    [displayResults] is not called and nothing is logged. *)
Theorem handleSearch_no_data :
  forall (w : World) (input section content : Element) (r : Response)
         (body : json),
    find_element (js "car-search") (document w) = Some input ->
    find_element (js "results-section") (document w) = Some section ->
    find_element (js "results-content") (document w) = Some content ->
    is_empty (trim (value input)) = false ->
    network (chat_request (trim (value input))) = Normal r ->
    ok r = true ->
    parsed r = Normal body ->
    truthy (member body (js "car")) = false ->
    fst (handleSearch network w) = Normal tt
    /\ rendered "results-content" (snd (handleSearch network w))
       = Some no_data_markup
    /\ events (snd (handleSearch network w))
       = events w ++ [Requested (chat_request (trim (value input)))].
Proof.
  intros w input section content r body Hin Hsec Hcon Hq Hnet Hok Hp Hcar.
  rewrite (handleSearch_started w input section content Hin Hsec Hcon Hq).
  unfold try_catch, handleSearch_try. run. rewrite Hnet. run.
  rewrite Hok. cbn [negb]. rewrite Hp. run.
  assert (Hfalsy :
            forall w0,
              (if truthy (Some body)
               then fun w1 : World => (get (Some body) (js "car"), w1)
               else fun w1 : World => (Normal (Some body), w1)) w0
              = (Normal (if truthy (Some body)
                         then member body (js "car") else Some body), w0)).
  { intros w0. destruct body; cbn [truthy get]; try reflexivity;
      match goal with |- context [if ?c then _ else _] => destruct c end;
      reflexivity. }
  rewrite Hfalsy.
  assert (Hno : truthy (if truthy (Some body)
                        then member body (js "car") else Some body) = false).
  { destruct (truthy (Some body)) eqn:E; [exact Hcar | exact E]. }
  rewrite Hno. cbn [fst snd document events].
  split; [reflexivity|]. split; [|reflexivity].
  apply (rendered_results w content). exact Hcon.
Qed.

(* ------------------------------------------------------------------ *)
(** *** The fuel prices *)

Lemma fetchFuelPrice_started :
  forall (w : World) (dashboard location prices : Element),
    find_element (js "dashboard-section") (document w) = Some dashboard ->
    find_element (js "user-location") (document w) = Some location ->
    find_element (js "gas-prices") (document w) = Some prices ->
    fetchFuelPrice network w
    = try_catch
        (fetchFuelPrice_try network (Some (js "user-location"))
           (Some (js "gas-prices")))
        (fetchFuelPrice_catch (Some (js "user-location"))
           (Some (js "gas-prices")))
        (loading_dashboard w).
Proof.
  intros w dashboard location prices Hd Hl Hp.
  unfold fetchFuelPrice. run. rewrite Hd, Hl, Hp. reflexivity.
Qed.

(** C5, amended.  A fuel-price response with status 403 whose body parses
    and carries a detail string: the location text becomes
    "Location Unavailable", the price display holds the paragraph of class
    error-message with the detail in it as it is, and [fetchFuelPrice]
    returns there, past neither the generic failure (nothing is logged, the
    price display is not the could-not-load message) nor the success
    path. *)
Theorem fetchFuelPrice_forbidden :
  forall (w : World) (dashboard location prices : Element) (r : Response)
         (body : json) (detail : jsstring),
    find_element (js "dashboard-section") (document w) = Some dashboard ->
    find_element (js "user-location") (document w) = Some location ->
    find_element (js "gas-prices") (document w) = Some prices ->
    network fuel_price_request = Normal r ->
    status r = 403 ->
    parsed r = Normal body ->
    member body (js "detail") = Some (JStr detail) ->
    fst (fetchFuelPrice network w) = Normal tt
    /\ shown_text "user-location" (snd (fetchFuelPrice network w))
       = Some (js "Location Unavailable")
    /\ rendered "gas-prices" (snd (fetchFuelPrice network w))
       = Some (expected_detail_paragraph detail)
    /\ rendered "gas-prices" (snd (fetchFuelPrice network w))
       <> Some (js "<p>Could not load prices</p>")
    /\ events (snd (fetchFuelPrice network w))
       = events w ++ [Requested fuel_price_request].
Proof.
  intros w dashboard location prices r body detail
         Hd Hl Hp Hnet Hst Hbody Hdetail.
  rewrite <- (error_message_markup_written detail).
  rewrite (fetchFuelPrice_started w dashboard location prices Hd Hl Hp).
  unfold try_catch, fetchFuelPrice_try. run. rewrite Hnet. run.
  rewrite Hst. cbn [N.eqb Pos.eqb]. rewrite Hbody. run.
  destruct body; cbn [member] in Hdetail; try discriminate.
  cbn [get member]. rewrite Hdetail.
  cbn [interpolate to_string fst snd document events].
  assert (Hshown :
     rendered "gas-prices"
       (mkWorld
          (update_element (js "gas-prices")
             (set_innerHTML (error_message_markup detail))
             (update_element (js "user-location")
                (set_textContent (js "Location Unavailable"))
                (document (loading_dashboard w))))
          (events (loading_dashboard w) ++ [Requested fuel_price_request]))
     = Some (error_message_markup detail)).
  { unfold rendered, loading_dashboard. cbn [document].
    find_elements. now rewrite Hp. }
  split; [reflexivity|]. split; [|split; [exact Hshown|split]].
  - unfold shown_text, loading_dashboard. cbn [document].
    find_elements. now rewrite Hl.
  - rewrite Hshown. intros H. discriminate H.
  - reflexivity.
Qed.

(** X29.  Status 403 with a body that does not parse is another matter:
    the rejection of [response.json()] is caught like any failure, so the
    price display shows the could-not-load message and the exception is
    logged after the one request. *)
Lemma fetchFuelPrice_forbidden_unparseable :
  forall (w : World) (dashboard location prices : Element) (r : Response)
         (e : exn),
    find_element (js "dashboard-section") (document w) = Some dashboard ->
    find_element (js "user-location") (document w) = Some location ->
    find_element (js "gas-prices") (document w) = Some prices ->
    network fuel_price_request = Normal r ->
    status r = 403 ->
    parsed r = Throw e ->
    rendered "gas-prices" (snd (fetchFuelPrice network w))
    = Some (js "<p>Could not load prices</p>")
    /\ events (snd (fetchFuelPrice network w))
       = events w ++ [Requested fuel_price_request]
         ++ [Logged (js "Error fetching fuel prices:") e].
Proof.
  intros w dashboard location prices r e Hd Hl Hp Hnet Hst Hbody.
  rewrite (fetchFuelPrice_started w dashboard location prices Hd Hl Hp).
  unfold try_catch, fetchFuelPrice_try, fetchFuelPrice_catch. run.
  rewrite Hnet. run. rewrite Hst. cbn [N.eqb Pos.eqb]. rewrite Hbody. run.
  split.
  - unfold rendered, loading_dashboard. cbn [document].
    find_elements. now rewrite Hp.
  - unfold loading_dashboard. cbn [events]. now rewrite <- app_assoc.
Qed.

Lemma location_text_typed :
  forall (location : json) (city : jsstring),
    member location (js "city") = Some (JStr city) ->
    text_or_absent location (js "regionName") = true ->
    text_or_absent location (js "region") = true ->
    text_or_absent location (js "countryCode") = true ->
    location_text (Some location) (Some (JStr city))
    = Normal (city ++ js ", " ++ region_text location
              ++ js " (" ++ country_text location ++ js ")").
Proof.
  intros location city Hcity Hname Hregion Hcountry.
  destruct location; cbn [member] in Hcity; try discriminate.
  unfold location_text, region_text, country_text, text_field, text_or_absent
    in *.
  cbn [get cbind member] in *.
  destruct (lookup (js "regionName") members) as [[| | |[|? ?]| |]|];
    try discriminate Hname;
    destruct (lookup (js "region") members) as [[| | |[|? ?]| |]|];
    try discriminate Hregion;
    destruct (lookup (js "countryCode") members) as [[| | |[|? ?]| |]|];
    try discriminate Hcountry;
    reflexivity.
Qed.

Lemma update_location_city :
  forall (w : World) (data location : json) (city : jsstring),
    member data (js "location") = Some location ->
    member location (js "city") = Some (JStr city) ->
    is_empty city = false ->
    text_or_absent location (js "regionName") = true ->
    text_or_absent location (js "region") = true ->
    text_or_absent location (js "countryCode") = true ->
    update_location (Some (js "user-location")) data w
    = (Normal tt,
       mkWorld
         (update_element (js "user-location")
            (set_textContent
               (city ++ js ", " ++ region_text location
                ++ js " (" ++ country_text location ++ js ")"))
            (document w))
         (events w)).
Proof.
  intros w data location city Hloc Hcity Hne Hname Hregion Hcountry.
  unfold update_location. run.
  destruct data; cbn [member] in Hloc; try discriminate.
  cbn [get member]. rewrite Hloc.
  assert (Hobj : truthy (Some location) = true).
  { destruct location; cbn [member] in Hcity; try discriminate. reflexivity. }
  rewrite Hobj.
  assert (Hget : get (Some location) (js "city") = Normal (Some (JStr city))).
  { destruct location; cbn [member] in Hcity; try discriminate.
    cbn [get member]. now rewrite Hcity. }
  rewrite Hget. cbn [truthy]. rewrite Hne. cbn [negb].
  rewrite (location_text_typed location city Hcity Hname Hregion Hcountry).
  reflexivity.
Qed.

Lemma update_location_unknown :
  forall (w : World) (data : json),
    data <> JNull ->
    truthy (city_of data) = false ->
    update_location (Some (js "user-location")) data w
    = (Normal tt,
       mkWorld
         (update_element (js "user-location")
            (set_textContent (js "Unknown Location")) (document w))
         (events w)).
Proof.
  intros w data Hnull Hcity.
  unfold update_location. run.
  assert (Hget : get (Some data) (js "location")
                 = Normal (member data (js "location"))).
  { destruct data; try contradiction; reflexivity. }
  rewrite Hget. unfold city_of in Hcity.
  destruct (member data (js "location")) as [location|]; [|reflexivity].
  destruct (truthy (Some location)) eqn:Hloc.
  - assert (Hc : get (Some location) (js "city")
                 = Normal (member location (js "city"))).
    { destruct location; try discriminate Hloc; reflexivity. }
    rewrite Hc, Hcity. reflexivity.
  - rewrite Hloc. reflexivity.
Qed.

(** [update_prices] writes to the price display and to nothing else. *)
Lemma update_prices_frame :
  forall (ref : ElementRef) (data : json) (w : World) (id : jsstring),
    ref = None \/ ref = Some (js "gas-prices") ->
    str_eqb id (js "gas-prices") = false ->
    find_element id (document (snd (update_prices ref data w)))
    = find_element id (document w).
Proof.
  intros ref data w id Href Hid.
  unfold update_prices. run.
  repeat match goal with
         | |- context [match ?c with _ => _ end] =>
             match c with
             | ref => fail 1
             | _ => destruct c
             end
         end;
    destruct Href as [-> | ->]; cbn [fst snd document events assign throw];
    try reflexivity;
    now rewrite find_update_other.
Qed.

(** C7.  A fuel-price response whose location has a city (a string that is
    not empty) shows the location as "city, region (country)": the region is
    [regionName] when present, else [region], else empty, the country
    [countryCode] when present, else IT, a text field being present when it
    is a string that is not empty.  A response without a city shows
    "Unknown Location". *)
Theorem updateDashboardUI_location_text :
  (forall (w : World) (shown : Element) (data location : json)
          (city : jsstring),
      find_element (js "user-location") (document w) = Some shown ->
      member data (js "location") = Some location ->
      member location (js "city") = Some (JStr city) ->
      is_empty city = false ->
      text_or_absent location (js "regionName") = true ->
      text_or_absent location (js "region") = true ->
      text_or_absent location (js "countryCode") = true ->
      shown_text "user-location" (snd (updateDashboardUI data w))
      = Some (city ++ js ", " ++ region_text location
              ++ js " (" ++ country_text location ++ js ")"))
  /\ (forall (w : World) (shown : Element) (data : json),
        find_element (js "user-location") (document w) = Some shown ->
        data <> JNull ->
        truthy (city_of data) = false ->
        shown_text "user-location" (snd (updateDashboardUI data w))
        = Some (js "Unknown Location")).
Proof.
  split.
  - intros w shown data location city Hul Hloc Hcity Hne Hname Hregion Hcountry.
    unfold updateDashboardUI. run. rewrite Hul.
    rewrite (update_location_city w data location city
               Hloc Hcity Hne Hname Hregion Hcountry).
    unfold shown_text.
    rewrite update_prices_frame; [| | reflexivity].
    + cbn [document]. rewrite find_update_same, Hul. reflexivity.
    + destruct (find_element (js "gas-prices") (document w)); auto.
  - intros w shown data Hul Hnull Hcity.
    unfold updateDashboardUI. run. rewrite Hul.
    rewrite (update_location_unknown w data Hnull Hcity).
    unfold shown_text.
    rewrite update_prices_frame; [| | reflexivity].
    + cbn [document]. rewrite find_update_same, Hul. reflexivity.
    + destruct (find_element (js "gas-prices") (document w)); auto.
Qed.

Lemma number_positive_truthy :
  forall x, number_positive x = true -> number_truthy x = true.
Proof. intros [s|s| |s m e]; try reflexivity; discriminate. Qed.

(** The loop over the fuel mapping on numeric prices: a row for every entry
    whose price is a number above zero, and the flag raised when there is
    one. *)
Lemma price_rows_numeric :
  forall (indent : nat) (entries : list (jsstring * jsstring)) (prices : json)
         (html : jsstring) (hasPrices : bool),
    prices <> JNull ->
    forallb (fun entry : jsstring * jsstring =>
               match member prices (fst entry) with
               | None | Some JNull | Some (JNum _) => true
               | _ => false
               end) entries = true ->
    price_rows indent entries (Some prices) html hasPrices
    = Normal (html ++ fuel_rows indent (shown_among entries prices),
              match shown_among entries prices with
              | [] => hasPrices
              | _ :: _ => true
              end).
Proof.
  intros indent.
  induction entries as [|[key label] rest IH];
    intros prices html hasPrices Hnull Htyped.
  - cbn. now rewrite app_nil_r.
  - cbn [forallb fst] in Htyped. apply andb_true_iff in Htyped as [Hk Hrest].
    cbn [price_rows].
    assert (Hget : get (Some prices) key = Normal (member prices key)).
    { destruct prices; try contradiction; reflexivity. }
    rewrite Hget. cbn [cbind].
    unfold shown_among. cbn [flat_map fst snd].
    fold (shown_among rest prices).
    destruct (member prices key) as [[| |x| | |]|]; try discriminate Hk.
    + cbn [price_shown truthy cbind app]. now apply IH.
    + unfold price_shown. cbn [truthy greater_than_zero].
      destruct (number_positive x) eqn:Hpos.
      * rewrite (number_positive_truthy x Hpos).
        cbn [cbind interpolate to_string app].
        rewrite (IH prices _ true Hnull Hrest).
        unfold fuel_rows. cbn [flat_map fst snd].
        rewrite <- app_assoc.
        now destruct (shown_among rest prices).
      * assert (Hno : (if number_truthy x then Normal false
                       else Normal false) = @Normal bool false)
          by now destruct (number_truthy x).
        rewrite Hno. cbn [cbind app]. now apply IH.
    + cbn [price_shown truthy cbind app]. now apply IH.
Qed.

Lemma generatePriceList_numeric :
  forall (prices : json) (title : jsstring),
    prices <> JNull ->
    numeric_prices prices = true ->
    generatePriceList (Some prices) title
    = Normal (price_list title (shown_prices prices)).
Proof.
  intros prices title Hnull Htyped.
  unfold generatePriceList.
  rewrite (price_rows_numeric 20 fuelMapping prices _ false Hnull Htyped).
  cbn [cbind fst snd]. unfold price_list, shown_prices.
  destruct (shown_among fuelMapping prices); [reflexivity|].
  now rewrite <- app_assoc.
Qed.

(** X30.  The older single list, shown when the response has no truthy
    [price_data] and a [fuel_price] with a number, [null] or nothing under
    each of the four known fuel keys: the label "Prezzo Medio", then one
    row, label and price after the euro sign, for every known fuel whose
    price is strictly greater than zero, in no container. *)
Lemma update_prices_single_list :
  forall (w : World) (shown : Element) (data prices : json),
    find_element (js "gas-prices") (document w) = Some shown ->
    truthy (member data (js "price_data")) = false ->
    member data (js "fuel_price") = Some prices ->
    truthy (Some prices) = true ->
    numbers_or_absent prices = true ->
    rendered "gas-prices"
      (snd (update_prices (Some (js "gas-prices")) data w))
    = Some (expected_single_list 16 (positive_prices prices)).
Proof.
  intros w shown data prices Hgp Hpd Hfp Htruthy Htyped.
  rewrite <- numeric_prices_written in Htyped.
  rewrite <- shown_prices_written, <- single_list_written.
  destruct data; cbn [member] in Hfp; try discriminate.
  unfold update_prices. run. cbn [get member] in *.
  rewrite Hpd, Hfp, Htruthy.
  rewrite (price_rows_numeric 16 fuelMapping prices _ false);
    [| now destruct prices | exact Htyped].
  unfold rendered. cbn [fst snd document]. find_elements.
  now rewrite Hgp.
Qed.




End HandlerFacts.

(* ------------------------------------------------------------------ *)
(** *** An error body that does not parse *)

Section UnparseableErrorBody.

Context {engine : Engine}.

Lemma chat_failure_unparseable :
  forall (r : Response) (e : exn),
    parsed r = Throw e ->
    chat_failure r = chat_failure (mkResponse (status r) (Normal (JObj []))).
Proof.
  intros r e Hp. unfold chat_failure, error_body. now rewrite Hp.
Qed.

(** C10.  When the body of a response that is not ok does not parse,
    [handleSearch] goes on with the empty object in its place: it does what
    it does on the response of the same status whose body is the empty
    object.  It returns normally, the exception it logs is its own and not
    the parse failure, and the results show "Agent service is temporarily
    unavailable. Please try again." after the warning sign (status 429 or
    502) or "API Error: " with the status (any other), never the message of
    the exceeded usage limit. *)
Theorem handleSearch_unparseable_error_body :
  forall (network : Network) (w : World) (input section content : Element)
         (r : Response) (e : exn),
    find_element (js "car-search") (document w) = Some input ->
    find_element (js "results-section") (document w) = Some section ->
    find_element (js "results-content") (document w) = Some content ->
    is_empty (trim (value input)) = false ->
    network (chat_request (trim (value input))) = Normal r ->
    ok r = false ->
    parsed r = Throw e ->
    let message_shown :=
      if (status r =? 502) || (status r =? 429)
      then temporarily_unavailable_text
      else js "API Error: " ++ decimal (status r) in
    handleSearch network w
    = handleSearch
        (fun _ => Normal (mkResponse (status r) (Normal (JObj [])))) w
    /\ fst (handleSearch network w) = Normal tt
    /\ rendered "results-content" (snd (handleSearch network w))
       = Some (expected_error_paragraph message_shown)
    /\ rendered "results-content" (snd (handleSearch network w))
       <> Some (expected_error_paragraph usage_limit_text)
    /\ events (snd (handleSearch network w))
       = events w ++ [Requested (chat_request (trim (value input)))]
         ++ [Logged (js "Error fetching data:") (Error message_shown)].
Proof.
  intros network w input section content r e
         Hin Hsec Hcon Hq Hnet Hok Hp shown.
  destruct (handleSearch_failure network w input section content r
              Hin Hsec Hcon Hq Hnet Hok) as (Hret & Hshown & Hev).
  assert (Hfail : chat_failure r = Error shown).
  { unfold chat_failure, shown.
    rewrite (quota_exhausted_detail r None (detail_unparseable r e Hp)).
    now destruct ((status r =? 502) || (status r =? 429)). }
  assert (Hstrip : strip_error_prefix shown = shown).
  { unfold shown.
    now destruct ((status r =? 502) || (status r =? 429)). }
  rewrite Hfail in Hshown, Hev. cbn [message Error] in Hshown.
  rewrite Hstrip in Hshown.
  split; [|split; [exact Hret|split; [exact Hshown|split; [|exact Hev]]]].
  - rewrite (handleSearch_failure_run network w input section content r
               Hin Hsec Hcon Hq Hnet Hok).
    rewrite (handleSearch_failure_run
               (fun _ => Normal (mkResponse (status r) (Normal (JObj []))))
               w input section content
               (mkResponse (status r) (Normal (JObj [])))
               Hin Hsec Hcon Hq eq_refl Hok).
    now rewrite (chat_failure_unparseable r e Hp).
  - rewrite Hshown. intros H.
    change (Some (error_markup shown)
            = Some (error_markup quota_exceeded_message)) in H.
    assert (H' : error_markup shown = error_markup quota_exceeded_message)
      by congruence.
    apply error_markup_inj in H'. clear H. unfold shown in H'.
    destruct ((status r =? 502) || (status r =? 429)).
    + now apply unavailable_is_not_quota.
    + now apply (api_error_is_not_quota (status r)).
Qed.

End UnparseableErrorBody.

(* ================================================================== *)
(** ** The theorems at work on the sample page *)


Lemma reference_reads_one_point_eight :
  @StringToNumber reference_engine (js "1.8") = one_point_eight.
Proof. vm_compute. reflexivity. Qed.

(** Tabs, spaces and a no-break space in the search input: an alert, no
    request. *)
Lemma handleSearch_blank_query_witness :
  forallb is_white_space [9; 32; 160; 32] = true
  /\ events (snd (@handleSearch reference_engine unreachable
                    (sample_world [9; 32; 160; 32])))
     = [Alerted (js "Please enter a car to analyze.")]
  /\ document (snd (@handleSearch reference_engine unreachable
                      (sample_world [9; 32; 160; 32])))
     = sample_page [9; 32; 160; 32].
Proof.
  split; [reflexivity|].
  destruct (@handleSearch_blank_query reference_engine unreachable
              (sample_world [9; 32; 160; 32])
              (mkElement false [] [] (js "e.g. Fiat Panda 2012")
                 [9; 32; 160; 32] [] [] [] [])
              eq_refl eq_refl) as (_ & Hevents & _ & Hpage).
  split; [exact Hevents | exact Hpage].
Defined.

(** The status check on a network that is down leaves the page alone. *)
Lemma checkAgentStatus_transport_failure_witness :
  document (snd (@checkAgentStatus reference_engine unreachable
                   (sample_world [])))
  = sample_page [].
Proof.
  exact (proj1 (proj2
           (@checkAgentStatus_transport_failure reference_engine unreachable
              (sample_world [])
              (mkExn (js "TypeError") (js "Failed to fetch"))
              (or_introl eq_refl)))).
Defined.

(** [{available: false}] disables both search elements of the sample page. *)
Lemma checkAgentStatus_unavailable_witness :
  let after :=
    snd (@checkAgentStatus reference_engine
           (answering 200 (JObj [(js "available", JBool false)]))
           (sample_world [])) in
  option_map disabled (find_element (js "search-btn") (document after))
  = Some true
  /\ option_map placeholder (find_element (js "car-search") (document after))
     = Some (js "Agent is offline (API Key missing)").
Proof.
  destruct (@checkAgentStatus_unavailable reference_engine
              (answering 200 (JObj [(js "available", JBool false)]))
              (sample_world [])
              (mkResponse 200 (Normal (JObj [(js "available", JBool false)])))
              (JObj [(js "available", JBool false)])
              eq_refl eq_refl eq_refl) as (_ & Hbutton & Hinput).
  cbv zeta. rewrite Hbutton, Hinput. split; reflexivity.
Defined.

(** A 429 with RESOURCE_EXHAUSTED in its detail, a 502 without a detail and
    a 500. *)
Lemma handleSearch_http_failure_witness :
  rendered "results-content"
    (snd (@handleSearch reference_engine
            (answering 429
               (JObj [(js "detail", JStr (js "429 RESOURCE_EXHAUSTED: quota"))]))
            (sample_world (js "Fiat Panda"))))
  = Some (js "<p class=" ++ dquote ++ js "error" ++ dquote ++ js ">"
          ++ [9888; 65039]
          ++ js " Agent usage limit exceeded. Please try again later.</p>")
  /\ rendered "results-content"
       (snd (@handleSearch reference_engine (answering 502 (JObj []))
               (sample_world (js "Fiat Panda"))))
     = Some (js "<p class=" ++ dquote ++ js "error" ++ dquote ++ js ">"
             ++ [9888; 65039]
             ++ js " Agent service is temporarily unavailable."
             ++ js " Please try again.</p>")
  /\ rendered "results-content"
       (snd (@handleSearch reference_engine (answering 500 (JObj []))
               (sample_world (js "Fiat Panda"))))
     = Some (js "<p class=" ++ dquote ++ js "error" ++ dquote
             ++ js ">API Error: 500</p>").
Proof.
  split; [|split].
  - refine (proj1
              (@handleSearch_http_failure reference_engine
                 (answering 429
                    (JObj [(js "detail",
                            JStr (js "429 RESOURCE_EXHAUSTED: quota"))]))
                 (sample_world (js "Fiat Panda"))
                 (mkElement false [] [] (js "e.g. Fiat Panda 2012")
                    (js "Fiat Panda") [] [] [] [])
                 (set_classList [js "results-hidden"] blank_element)
                 blank_element
                 (mkResponse 429
                    (Normal (JObj [(js "detail",
                                    JStr (js "429 RESOURCE_EXHAUSTED: quota"))])))
                 eq_refl eq_refl eq_refl eq_refl eq_refl eq_refl)
              (js "429 RESOURCE_EXHAUSTED: quota") (or_introl eq_refl) _ eq_refl).
    now apply detail_string with
      (body := JObj [(js "detail", JStr (js "429 RESOURCE_EXHAUSTED: quota"))]).
  - refine (proj1 (proj2
              (@handleSearch_http_failure reference_engine
                 (answering 502 (JObj []))
                 (sample_world (js "Fiat Panda"))
                 (mkElement false [] [] (js "e.g. Fiat Panda 2012")
                    (js "Fiat Panda") [] [] [] [])
                 (set_classList [js "results-hidden"] blank_element)
                 blank_element
                 (mkResponse 502 (Normal (JObj [])))
                 eq_refl eq_refl eq_refl eq_refl eq_refl eq_refl))
              None (or_intror eq_refl) _ eq_refl).
    apply detail_missing with (body := JObj []);
      [reflexivity | discriminate | reflexivity].
  - exact (proj2 (proj2
              (@handleSearch_http_failure reference_engine
                 (answering 500 (JObj []))
                 (sample_world (js "Fiat Panda"))
                 (mkElement false [] [] (js "e.g. Fiat Panda 2012")
                    (js "Fiat Panda") [] [] [] [])
                 (set_classList [js "results-hidden"] blank_element)
                 blank_element
                 (mkResponse 500 (Normal (JObj [])))
                 eq_refl eq_refl eq_refl eq_refl eq_refl eq_refl))
              ltac:(discriminate) ltac:(discriminate)).
Defined.

(** C1 as stated fails on a 429 whose body is [null]: it has no marker, and
    the results show neither the message of the agent out of reach nor that
    of the exceeded limit, but the TypeError of reading [detail] from
    [null]. *)
Lemma null_error_body_shows_type_error :
  rendered "results-content"
    (snd (@handleSearch reference_engine (answering 429 JNull)
            (sample_world (js "Fiat Panda"))))
  = Some (js "<p class=" ++ dquote ++ js "error" ++ dquote
          ++ js ">Cannot read properties of null (reading 'detail')</p>")
  /\ rendered "results-content"
       (snd (@handleSearch reference_engine (answering 429 JNull)
               (sample_world (js "Fiat Panda"))))
     <> Some (expected_error_paragraph temporarily_unavailable_text)
  /\ rendered "results-content"
       (snd (@handleSearch reference_engine (answering 429 JNull)
               (sample_world (js "Fiat Panda"))))
     <> Some (expected_error_paragraph usage_limit_text).
Proof.
  split; [vm_compute; reflexivity|].
  split; intros H; vm_compute in H; discriminate H.
Qed.

(** A 502 whose body is an HTML page, and a 500 with such a body. *)
Lemma handleSearch_unparseable_error_body_witness :
  fst (@handleSearch reference_engine (answering_garbage 502)
         (sample_world (js "Fiat Panda")))
  = Normal tt
  /\ rendered "results-content"
       (snd (@handleSearch reference_engine (answering_garbage 502)
               (sample_world (js "Fiat Panda"))))
     = Some (js "<p class=" ++ dquote ++ js "error" ++ dquote ++ js ">"
             ++ [9888; 65039]
             ++ js " Agent service is temporarily unavailable."
             ++ js " Please try again.</p>")
  /\ rendered "results-content"
       (snd (@handleSearch reference_engine (answering_garbage 500)
               (sample_world (js "Fiat Panda"))))
     = Some (js "<p class=" ++ dquote ++ js "error" ++ dquote
             ++ js ">API Error: 500</p>").
Proof.
  destruct (@handleSearch_unparseable_error_body reference_engine
              (answering_garbage 502)
              (sample_world (js "Fiat Panda"))
              (mkElement false [] [] (js "e.g. Fiat Panda 2012")
                 (js "Fiat Panda") [] [] [] [])
              (set_classList [js "results-hidden"] blank_element)
              blank_element
              (mkResponse 502
                 (Throw (mkExn (js "SyntaxError") (js "Unexpected token '<'"))))
              (mkExn (js "SyntaxError") (js "Unexpected token '<'"))
              eq_refl eq_refl eq_refl eq_refl eq_refl eq_refl eq_refl)
    as (_ & Hret & Hshown & _).
  destruct (@handleSearch_unparseable_error_body reference_engine
              (answering_garbage 500)
              (sample_world (js "Fiat Panda"))
              (mkElement false [] [] (js "e.g. Fiat Panda 2012")
                 (js "Fiat Panda") [] [] [] [])
              (set_classList [js "results-hidden"] blank_element)
              blank_element
              (mkResponse 500
                 (Throw (mkExn (js "SyntaxError") (js "Unexpected token '<'"))))
              (mkExn (js "SyntaxError") (js "Unexpected token '<'"))
              eq_refl eq_refl eq_refl eq_refl eq_refl eq_refl eq_refl)
    as (_ & _ & Hother & _).
  split; [exact Hret|]. split; [exact Hshown | exact Hother].
Defined.

(** A 200 with an empty object. *)
Lemma handleSearch_no_data_witness :
  rendered "results-content"
    (snd (@handleSearch reference_engine (answering 200 (JObj []))
            (sample_world (js "Fiat Panda"))))
  = Some (js "<p>No data available for this car.</p>").
Proof.
  exact (proj1 (proj2
           (@handleSearch_no_data reference_engine (answering 200 (JObj []))
              (sample_world (js "Fiat Panda"))
              (mkElement false [] [] (js "e.g. Fiat Panda 2012")
                 (js "Fiat Panda") [] [] [] [])
              (set_classList [js "results-hidden"] blank_element)
              blank_element
              (mkResponse 200 (Normal (JObj [])))
              (JObj [])
              eq_refl eq_refl eq_refl eq_refl eq_refl eq_refl eq_refl
              eq_refl))).
Defined.

(** C2.  The query Panda answered by the two-line answer: the heading of
    the results quotes the [source] of the answer, line feed included, where
    [displayResults] documents its second parameter as the search query.
    The query the user typed occurs nowhere in the rendered results, and the
    source text does not occur with its line feed turned into a line
    break; the line break is in the [car] text of the paragraph. *)
Lemma heading_quotes_source_not_query :
  exists html : jsstring,
    rendered "results-content"
      (snd (@handleSearch reference_engine (answering 200 two_line_answer)
              (sample_world (js "Panda"))))
    = Some html
    /\ includes (js "Panda") html = false
    /\ includes (js "web<br>search") html = false
    /\ includes (js "<h3>Analysis for " ++ dquote
                 ++ js "web" ++ [10] ++ js "search" ++ dquote ++ js "</h3>")
         html = true
    /\ includes (js "<p>Reliable.<br>Cheap.</p>") html = true.
Proof.
  exists (results_markup (js "web" ++ [10] ++ js "search")
            (js "Reliable.<br>Cheap.")).
  repeat split; vm_compute; reflexivity.
Qed.

(** A 403 with a detail string. *)
Lemma fetchFuelPrice_forbidden_witness :
  shown_text "user-location"
    (snd (@fetchFuelPrice reference_engine
            (answering 403
               (JObj [(js "detail", JStr (js "Location access denied"))]))
            (sample_world [])))
  = Some (js "Location Unavailable")
  /\ rendered "gas-prices"
       (snd (@fetchFuelPrice reference_engine
               (answering 403
                  (JObj [(js "detail", JStr (js "Location access denied"))]))
               (sample_world [])))
     = Some (js "<p class=" ++ dquote ++ js "error-message" ++ dquote
             ++ js ">Location access denied</p>").
Proof.
  destruct (@fetchFuelPrice_forbidden reference_engine
              (answering 403
                 (JObj [(js "detail", JStr (js "Location access denied"))]))
              (sample_world [])
              (set_classList [js "dashboard-hidden"] blank_element)
              blank_element
              (set_innerHTML mini_spinner blank_element)
              (mkResponse 403
                 (Normal (JObj [(js "detail",
                                 JStr (js "Location access denied"))])))
              (JObj [(js "detail", JStr (js "Location access denied"))])
              (js "Location access denied")
              eq_refl eq_refl eq_refl eq_refl eq_refl eq_refl eq_refl)
    as (_ & Htext & Hshown & _).
  split; [exact Htext | exact Hshown].
Defined.

(** C5 as stated fails on a 403 whose body does not parse: there is no
    detail to show, and [fetchFuelPrice] falls through to the generic
    failure, which logs the rejection and shows the could-not-load
    message. *)
Lemma forbidden_unparseable_takes_failure_path :
  rendered "gas-prices"
    (snd (@fetchFuelPrice reference_engine (answering_garbage 403)
            (sample_world [])))
  = Some (js "<p>Could not load prices</p>")
  /\ events
       (snd (@fetchFuelPrice reference_engine (answering_garbage 403)
               (sample_world [])))
     = [ Requested (mkRequest (js "/api/v1/fuel-price") (js "GET") [] None);
         Logged (js "Error fetching fuel prices:")
           (mkExn (js "SyntaxError") (js "Unexpected token '<'")) ].
Proof. split; vm_compute; reflexivity. Qed.

(** Rome with a region and no country code; and a response with no
    location. *)
Lemma updateDashboardUI_location_text_witness :
  shown_text "user-location"
    (snd (@updateDashboardUI reference_engine
            (JObj [(js "location",
                    JObj [ (js "city", JStr (js "Rome"));
                           (js "region", JStr (js "Lazio")) ])])
            (sample_world [])))
  = Some (js "Rome, Lazio (IT)")
  /\ shown_text "user-location"
       (snd (@updateDashboardUI reference_engine (JObj []) (sample_world [])))
     = Some (js "Unknown Location").
Proof.
  split.
  - exact (proj1 (@updateDashboardUI_location_text reference_engine)
             (sample_world []) blank_element
             (JObj [(js "location",
                     JObj [ (js "city", JStr (js "Rome"));
                            (js "region", JStr (js "Lazio")) ])])
             (JObj [ (js "city", JStr (js "Rome"));
                     (js "region", JStr (js "Lazio")) ])
             (js "Rome")
             eq_refl eq_refl eq_refl eq_refl eq_refl eq_refl eq_refl).
  - exact (proj2 (@updateDashboardUI_location_text reference_engine)
             (sample_world []) blank_element (JObj [])
             eq_refl ltac:(discriminate) eq_refl).
Defined.


(* ================================================================== *)
(** ** Beyond the single answers: what holds of every run of a handler *)

Lemma trim_start_keeps :
  forall s c, In c s -> is_white_space c = false -> In c (trim_start s).
Proof.
  induction s as [|a s IH]; intros c Hin Hc; [contradiction|].
  simpl. destruct (is_white_space a) eqn:Ha.
  - destruct Hin as [-> | Hin]; [congruence | now apply IH].
  - exact Hin.
Qed.

Lemma trim_keeps :
  forall s c, In c s -> is_white_space c = false -> In c (trim s).
Proof.
  intros s c Hin Hc. unfold trim, trim_end.
  apply in_rev. rewrite rev_involutive.
  apply trim_start_keeps; [|exact Hc].
  apply -> in_rev. now apply trim_start_keeps.
Qed.

Lemma trim_not_blank :
  forall s, blank s = false -> is_empty (trim s) = false.
Proof.
  intros s H. unfold blank in H.
  assert (Hex : exists c, In c s /\ is_white_space c = false).
  { induction s as [|a s IH]; [discriminate|].
    simpl in H. destruct (is_white_space a) eqn:Ha.
    - destruct (IH H) as (c & Hin & Hc). exists c. split; [now right | exact Hc].
    - exists a. split; [now left | exact Ha]. }
  destruct Hex as (c & Hin & Hc).
  pose proof (trim_keeps s c Hin Hc) as Hk.
  destruct (trim s); [contradiction | reflexivity].
Qed.

Lemma update_keeps_ids :
  forall id f d, map fst (update_element id f d) = map fst d.
Proof.
  induction d as [|[i e] d IH]; simpl; [reflexivity|].
  destruct (str_eqb id i); simpl; [reflexivity | now rewrite IH].
Qed.

(** Whether the page has an element under an id is a matter of its ids. *)
Lemma same_ids_same_lookup :
  forall id d d',
    map fst d = map fst d' ->
    (find_element id d = None <-> find_element id d' = None).
Proof.
  induction d as [|[i e] d IH]; destruct d' as [|[i' e'] d']; simpl;
    intros H; try discriminate; [tauto|].
  injection H as <- H.
  destruct (str_eqb id i); [split; discriminate | now apply IH].
Qed.

Lemma confined_still :
  forall A ids (c : completion A), confined ids (fun w => (c, w)).
Proof.
  intros A ids c w. cbn. repeat split. exists []. now rewrite app_nil_r.
Qed.

Lemma confined_ret : forall A ids (a : A), confined ids (ret a).
Proof. intros. apply confined_still. Qed.

Lemma confined_throw : forall A ids e, confined ids (@throw A e).
Proof. intros. apply confined_still. Qed.

Lemma confined_lift : forall A ids (c : completion A), confined ids (lift c).
Proof. intros. apply confined_still. Qed.

Lemma confined_emit : forall ids ev, confined ids (emit ev).
Proof. intros ids ev w. cbn. repeat split. now exists [ev]. Qed.

Lemma confined_bind :
  forall A B ids (m : M A) (k : A -> M B),
    confined ids m -> (forall a, confined ids (k a)) -> confined ids (bind m k).
Proof.
  intros A B ids m k Hm Hk w. unfold bind.
  destruct (Hm w) as (Hi & Hf & evs & He).
  destruct (m w) as [[a|e] w1]; cbn [snd] in *.
  - destruct (Hk a w1) as (Hi' & Hf' & evs' & He').
    split; [congruence|]. split.
    + intros id Hid. rewrite (Hf' id Hid). now apply Hf.
    + exists (evs ++ evs'). rewrite He', He. now rewrite app_assoc.
  - split; [exact Hi|]. split; [exact Hf | now exists evs].
Qed.

Lemma confined_try_catch :
  forall A ids (m : M A) (h : exn -> M A),
    confined ids m -> (forall e, confined ids (h e)) ->
    confined ids (try_catch m h).
Proof.
  intros A ids m h Hm Hh w. unfold try_catch.
  destruct (Hm w) as (Hi & Hf & evs & He).
  destruct (m w) as [[a|e] w1]; cbn [snd] in *.
  - split; [exact Hi|]. split; [exact Hf | now exists evs].
  - destruct (Hh e w1) as (Hi' & Hf' & evs' & He').
    split; [congruence|]. split.
    + intros id Hid. rewrite (Hf' id Hid). now apply Hf.
    + exists (evs ++ evs'). rewrite He', He. now rewrite app_assoc.
Qed.

Lemma confined_detached :
  forall A ids (m : M A), confined ids m -> confined ids (detached m).
Proof. intros A ids m Hm w. exact (Hm w). Qed.

Lemma confined_lookup :
  forall A ids id (k : ElementRef -> M A),
    (forall ref, ref = None \/ ref = Some id -> confined ids (k ref)) ->
    confined ids (bind (getElementById id) k).
Proof.
  intros A ids id k Hk w. unfold bind, getElementById. cbn [fst snd].
  apply Hk. destruct (find_element id (document w)); auto.
Qed.

Lemma confined_more :
  forall A ids ids' (m : M A),
    (forall id, existsb (str_eqb id) ids' = false ->
                existsb (str_eqb id) ids = false) ->
    confined ids m -> confined ids' m.
Proof.
  intros A ids ids' m Hsub Hm w.
  destruct (Hm w) as (Hi & Hf & He).
  split; [exact Hi|]. split; [|exact He].
  intros id Hid. apply Hf. now apply Hsub.
Qed.

Section Confinement.

Context {engine : Engine}.

Variable network : Network.

Lemma confined_assign :
  forall ids (ref : ElementRef) property f,
    match ref with
    | Some id => existsb (str_eqb id) ids = true
    | None => True
    end ->
    confined ids (assign ref property f).
Proof.
  intros ids [id|] property f Href; [|apply confined_throw].
  intros w. cbn. split; [apply update_keeps_ids|]. split.
  - intros id' Hid. apply find_update_other.
    destruct (str_eqb id' id) eqn:E; [|reflexivity].
    apply str_eqb_eq in E. subst. congruence.
  - exists []. now rewrite app_nil_r.
Qed.

Lemma confined_read_value : forall ids ref, confined ids (read_value ref).
Proof.
  intros ids [id|]; [|apply confined_throw].
  intros w. unfold read_value.
  destruct (find_element id (document w)); cbn; repeat split;
    exists []; now rewrite app_nil_r.
Qed.

Lemma confined_classList_remove :
  forall ids (ref : ElementRef) name,
    match ref with
    | Some id => existsb (str_eqb id) ids = true
    | None => True
    end ->
    confined ids (classList_remove ref name).
Proof.
  intros ids [id|] name Href; [|apply confined_throw].
  now apply confined_assign.
Qed.

Lemma confined_fetch :
  forall ids request, confined ids (fetch network request).
Proof.
  intros. unfold fetch. apply confined_bind; [apply confined_emit|].
  intros. apply confined_lift.
Qed.

End Confinement.

(** Confinement of a handler from the confinement of its steps. *)
Ltac confine :=
  repeat first
    [ apply confined_ret | apply confined_throw | apply confined_lift
    | apply confined_emit | apply confined_fetch | apply confined_read_value
    | apply confined_lookup; intros ? [-> | ->]
    | apply confined_bind; [|intros]
    | apply confined_try_catch; [|intros]
    | match goal with
      | |- confined _ (detached _) => apply confined_detached
      end
    | apply confined_assign; (exact I || reflexivity)
    | apply confined_classList_remove; (exact I || reflexivity)
    | match goal with
      | |- confined _ (if ?c then _ else _) => destruct c
      | |- confined _ (match ?c with _ => _ end) => destruct c
      end ].

Section Footprints.

Context {engine : Engine}.

Variable network : Network.

Lemma confined_checkAgentStatus :
  forall ids,
    existsb (str_eqb (js "search-btn")) ids = true ->
    existsb (str_eqb (js "car-search")) ids = true ->
    confined ids (checkAgentStatus network).
Proof.
  intros ids Hb Hi.
  unfold checkAgentStatus, disable_search_button, disable_search_input,
    response_json, console_error.
  repeat first
    [ apply confined_assign; assumption
    | progress confine ].
Qed.

End Footprints.

(* ------------------------------------------------------------------ *)
(** *** Requests and completions *)

Lemma requests_app :
  forall a b, requests (a ++ b) = requests a ++ requests b.
Proof. intros. unfold requests. apply flat_map_app. Qed.

Lemma sends_still :
  forall A (c : completion A), sends [] (fun w => (c, w)).
Proof. intros A c w. cbn. now rewrite app_nil_r. Qed.

Lemma sends_ret : forall A (a : A), sends [] (ret a).
Proof. intros. apply sends_still. Qed.

Lemma sends_throw : forall A e, sends [] (@throw A e).
Proof. intros. apply sends_still. Qed.

Lemma sends_lift : forall A (c : completion A), sends [] (lift c).
Proof. intros. apply sends_still. Qed.

Lemma sends_alert : forall text, sends [] (alert text).
Proof. intros text w. cbn. rewrite requests_app. reflexivity. Qed.

Lemma sends_console_error :
  forall label error, sends [] (console_error label error).
Proof. intros label error w. cbn. rewrite requests_app. reflexivity. Qed.

Lemma sends_bind :
  forall A B sent (m : M A) (k : A -> M B),
    sends sent m -> (forall a, sends [] (k a)) -> sends sent (bind m k).
Proof.
  intros A B sent m k Hm Hk w. unfold bind.
  specialize (Hm w). destruct (m w) as [[a|e] w1]; cbn [snd] in *.
  - rewrite (Hk a w1), Hm. now rewrite app_nil_r.
  - exact Hm.
Qed.

Lemma sends_try_catch :
  forall A sent (m : M A) (h : exn -> M A),
    sends sent m -> (forall e, sends [] (h e)) -> sends sent (try_catch m h).
Proof.
  intros A sent m h Hm Hh w. unfold try_catch.
  specialize (Hm w). destruct (m w) as [[a|e] w1]; cbn [snd] in *.
  - exact Hm.
  - rewrite (Hh e w1), Hm. now rewrite app_nil_r.
Qed.

Lemma sends_lookup :
  forall A sent id (k : ElementRef -> M A),
    (forall ref, sends sent (k ref)) ->
    sends sent (bind (getElementById id) k).
Proof.
  intros A sent id k Hk w. unfold bind, getElementById. cbn [fst snd].
  apply Hk.
Qed.

Lemma try_catch_returns :
  forall (m : M unit) (h : exn -> M unit) (w : World),
    (forall e w', fst (h e w') = Normal tt) ->
    fst (try_catch m h w) = Normal tt.
Proof.
  intros m h w Hh. unfold try_catch.
  destruct (m w) as [[[]|e] w']; [reflexivity | apply Hh].
Qed.

Section Requests.

Context {engine : Engine}.

Variable network : Network.

Lemma sends_assign :
  forall ref property f, sends [] (assign ref property f).
Proof.
  intros [id|] property f; [|apply sends_throw].
  intros w. cbn. now rewrite app_nil_r.
Qed.

Lemma sends_read_value : forall ref, sends [] (read_value ref).
Proof.
  intros [id|]; [|apply sends_throw].
  intros w. unfold read_value.
  destruct (find_element id (document w)); cbn; now rewrite app_nil_r.
Qed.

Lemma sends_classList_remove :
  forall ref name, sends [] (classList_remove ref name).
Proof.
  intros [id|] name; [apply sends_assign | apply sends_throw].
Qed.

Lemma sends_fetch :
  forall request, sends [request] (fetch network request).
Proof.
  intros request w. unfold fetch, bind, emit, lift. cbn.
  rewrite requests_app. reflexivity.
Qed.

End Requests.

(** A handler that issues no request, from its steps. *)
Ltac quiet :=
  repeat first
    [ apply sends_ret | apply sends_throw | apply sends_lift
    | apply sends_alert | apply sends_console_error
    | apply sends_assign | apply sends_read_value
    | apply sends_classList_remove
    | apply sends_lookup; intros
    | apply sends_bind; [|intros]
    | apply sends_try_catch; [|intros]
    | match goal with
      | |- sends _ (if ?c then _ else _) => destruct c
      | |- sends _ (match ?c with _ => _ end) => destruct c
      end ].

(** Every branch of a computation that has been run. *)
Ltac branches :=
  repeat match goal with
         | |- context [match ?c with _ => _ end] => destruct c
         end.

Section Completions.

Context {engine : Engine}.

Variable network : Network.

Lemma sends_updateDashboardUI :
  forall data, sends [] (updateDashboardUI data).
Proof.
  intros. unfold updateDashboardUI, update_location, update_prices. quiet.
Qed.

Lemma checkAgentStatus_returns :
  forall w, fst (checkAgentStatus network w) = Normal tt.
Proof.
  intros w. unfold checkAgentStatus.
  unfold bind at 1 2. unfold getElementById. cbn [fst snd].
  apply try_catch_returns. reflexivity.
Qed.

Lemma sends_checkAgentStatus :
  sends [status_request] (checkAgentStatus network).
Proof.
  unfold checkAgentStatus, disable_search_button, disable_search_input,
    response_json.
  apply sends_lookup; intros. apply sends_lookup; intros.
  apply sends_try_catch; [|intros; apply sends_console_error].
  apply sends_bind; [apply sends_fetch|]. intros. quiet.
Qed.

(** X4.  Whatever the page and whatever the network answers,
    [checkAgentStatus] returns normally, every failure being caught, and it
    has sent the status request once and nothing else. *)
Theorem checkAgentStatus_always_returns :
  (forall w, fst (checkAgentStatus network w) = Normal tt)
  /\ sends [status_request] (checkAgentStatus network).
Proof. split; [exact checkAgentStatus_returns | exact sends_checkAgentStatus]. Qed.

Lemma sends_fetchFuelPrice_try :
  forall location prices,
    sends [fuel_price_request] (fetchFuelPrice_try network location prices).
Proof.
  intros. unfold fetchFuelPrice_try, response_json.
  apply sends_bind; [apply sends_fetch|]. intros.
  pose proof sends_updateDashboardUI. quiet.
Qed.

Lemma sends_fetchFuelPrice_catch :
  forall location prices e,
    sends [] (fetchFuelPrice_catch location prices e).
Proof. intros. unfold fetchFuelPrice_catch. quiet. Qed.

Lemma fetchFuelPrice_requests :
  forall w,
    fst (fetchFuelPrice network w) = Normal tt
    /\ requests (events (snd (fetchFuelPrice network w)))
       = requests (events w)
         ++ (if has_dashboard (document w) then [fuel_price_request] else []).
Proof.
  intros w. unfold has_dashboard.
  destruct (find_element (js "dashboard-section") (document w))
    as [dashboard|] eqn:Hd;
    [destruct (find_element (js "user-location") (document w))
       as [location|] eqn:Hl;
     [destruct (find_element (js "gas-prices") (document w))
        as [prices|] eqn:Hp|]|].
  - rewrite (fetchFuelPrice_started network w dashboard location prices
               Hd Hl Hp).
    split.
    + apply try_catch_returns. reflexivity.
    + apply (sends_try_catch unit [fuel_price_request]
               _ _ (sends_fetchFuelPrice_try _ _)
               (sends_fetchFuelPrice_catch _ _) (loading_dashboard w)).
  - unfold fetchFuelPrice. run. rewrite Hd, Hl, Hp. cbn.
    now rewrite app_nil_r.
  - unfold fetchFuelPrice. run. rewrite Hd, Hl. cbn.
    destruct (find_element (js "gas-prices") (document w));
      now rewrite app_nil_r.
  - unfold fetchFuelPrice. run. rewrite Hd. cbn.
    destruct (find_element (js "user-location") (document w));
      destruct (find_element (js "gas-prices") (document w));
      now rewrite app_nil_r.
Qed.

(** X5.  Whatever the page and whatever the network answers,
    [fetchFuelPrice] returns normally.  On a page with the three elements of
    the dashboard it has sent the fuel price request once; on a page without
    one of them it has sent nothing. *)
Theorem fetchFuelPrice_always_returns :
  forall w,
    fst (fetchFuelPrice network w) = Normal tt
    /\ requests (events (snd (fetchFuelPrice network w)))
       = requests (events w)
         ++ (if has_dashboard (document w) then [fuel_price_request] else []).
Proof. exact fetchFuelPrice_requests. Qed.

End Completions.

(* ------------------------------------------------------------------ *)
(** *** The search, whatever the answer *)

Lemma remove_class_removes :
  forall name e, ~ In name (classList (remove_class name e)).
Proof.
  intros name e H. unfold remove_class in H. cbn in H.
  apply filter_In in H as [_ H]. now rewrite str_eqb_refl in H.
Qed.

Lemma strip_error_prefix_removes :
  forall m, strip_error_prefix (js "Error: " ++ m) = m.
Proof. reflexivity. Qed.

Section SearchFacts.

Context {engine : Engine}.

Variable network : Network.

Lemma sends_handleSearch_try :
  forall ref query,
    sends [chat_request query] (handleSearch_try network ref query).
Proof.
  intros. unfold handleSearch_try, displayResults, response_json.
  apply sends_bind; [apply sends_fetch|]. intros. quiet.
Qed.

Lemma sends_handleSearch_catch :
  forall ref e, sends [] (handleSearch_catch ref e).
Proof. intros. unfold handleSearch_catch. quiet. Qed.

(** X6.  On a page with its three elements and a search input that holds
    more than white space, [handleSearch] returns normally, whatever the
    network answers, and it has sent one request and no more: the POST for
    the trimmed query. *)
Theorem handleSearch_sends_one_request :
  forall (w : World) (input section content : Element),
    find_element (js "car-search") (document w) = Some input ->
    find_element (js "results-section") (document w) = Some section ->
    find_element (js "results-content") (document w) = Some content ->
    blank (value input) = false ->
    fst (handleSearch network w) = Normal tt
    /\ requests (events (snd (handleSearch network w)))
       = requests (events w) ++ [chat_request (trim (value input))]
    /\ payload (chat_request (trim (value input)))
       = Some (JObj [(js "query", JStr (trim (value input)))]).
Proof.
  intros w input section content Hin Hsec Hcon Hq.
  rewrite (handleSearch_started network w input section content
             Hin Hsec Hcon (trim_not_blank _ Hq)).
  split; [apply try_catch_returns; reflexivity|].
  split; [|reflexivity].
  apply (sends_try_catch unit [chat_request (trim (value input))]
           _ _ (sends_handleSearch_try _ _) (sends_handleSearch_catch _)
           (searching w)).
Qed.

(** X7.  On a page that lacks the search input, the results section or the
    results content, [handleSearch] sends no request and leaves the results
    content, if there is one, as it was. *)
Theorem handleSearch_missing_element :
  forall (w : World),
    find_element (js "car-search") (document w) = None
    \/ find_element (js "results-section") (document w) = None
    \/ find_element (js "results-content") (document w) = None ->
    requests (events (snd (handleSearch network w))) = requests (events w)
    /\ find_element (js "results-content")
         (document (snd (handleSearch network w)))
       = find_element (js "results-content") (document w).
Proof.
  intros w H. unfold handleSearch. run.
  destruct (find_element (js "car-search") (document w)) as [input|] eqn:Hin.
  - run. rewrite Hin. run.
    destruct (is_empty (trim (value input))).
    + cbn. rewrite requests_app. cbn. now rewrite app_nil_r.
    + destruct (find_element (js "results-section") (document w)) eqn:Hsec.
      * destruct (find_element (js "results-content") (document w)) eqn:Hcon.
        -- destruct H as [H | [H | H]]; discriminate H.
        -- run. split; [reflexivity|].
           rewrite find_update_other by reflexivity. exact Hcon.
      * run. split; reflexivity.
  - run. split; reflexivity.
Qed.

(** What the [try] block of [handleSearch] leaves on the page: on an
    exception nothing, otherwise the results markup or the no-data message
    in the results content. *)
Lemma handleSearch_try_outcome :
  forall (w : World) (query : jsstring) (content : Element),
    find_element (js "results-content") (document w) = Some content ->
    match handleSearch_try network (Some (js "results-content")) query w with
    | (Normal _, w') =>
        exists html,
          document w'
          = update_element (js "results-content") (set_innerHTML html)
              (document w)
          /\ (html = no_data_markup
              \/ exists heading text, html = results_markup heading text)
    | (Throw _, w') => document w' = document w
    end.
Proof.
  intros w query content Hcon.
  unfold handleSearch_try, displayResults. run.
  destruct (network (chat_request query)) as [r|e]; run; [|reflexivity].
  destruct (ok r); cbn [negb].
  - destruct (parsed r) as [data|e]; run; [|reflexivity].
    destruct (truthy (Some data)) eqn:Hdata; run.
    + destruct (get (Some data) (js "car")) as [car|e]; run; [|reflexivity].
      destruct (truthy car).
      * destruct (get (Some data) (js "source")) as [source|e]; run;
          [|reflexivity].
        rewrite Hcon. run.
        destruct (replace_method (js "resultText.replace") car) as [text|e];
          run; [|reflexivity].
        destruct (interpolate source) as [heading|e]; run; [|reflexivity].
        exists (results_markup heading text). split; [reflexivity|].
        right. now exists heading, text.
      * run. exists no_data_markup. split; [reflexivity | now left].
    + rewrite Hdata. run.
      exists no_data_markup. split; [reflexivity | now left].
  - destruct (parsed r) as [data|e]; run;
      destruct ((status r =? 502) || (status r =? 429)); try reflexivity.
    destruct (quota_exhausted data) as [[|]|e]; reflexivity.
Qed.

(** X8.  On a page with its three elements and a search input that holds
    more than white space, whatever the network answers, [handleSearch]
    leaves the results section shown (no longer of class results-hidden)
    and the results content with the results markup, the no-data message or
    an error paragraph: never with the loading spinner. *)
Theorem handleSearch_always_answers :
  forall (w : World) (input section content : Element),
    find_element (js "car-search") (document w) = Some input ->
    find_element (js "results-section") (document w) = Some section ->
    find_element (js "results-content") (document w) = Some content ->
    blank (value input) = false ->
    (exists shown,
        find_element (js "results-section")
          (document (snd (handleSearch network w))) = Some shown
        /\ ~ In (js "results-hidden") (classList shown))
    /\ (exists html,
          rendered "results-content" (snd (handleSearch network w))
          = Some html
          /\ html <> loading_spinner
          /\ (html = no_data_markup
              \/ (exists heading text, html = results_markup heading text)
              \/ exists msg, html = error_markup msg)).
Proof.
  intros w input section content Hin Hsec Hcon Hq.
  rewrite (handleSearch_started network w input section content
             Hin Hsec Hcon (trim_not_blank _ Hq)).
  pose proof (handleSearch_try_outcome (searching w) (trim (value input))
                _ (searching_results_content w content Hcon)) as Hout.
  unfold try_catch.
  destruct (handleSearch_try network (Some (js "results-content"))
              (trim (value input)) (searching w)) as [[[]|e] w'].
  - cbn [snd]. destruct Hout as (html & Hdoc & Hshape). split.
    + exists (remove_class (js "results-hidden") section). split.
      * rewrite Hdoc. unfold searching. cbn [document]. find_elements.
        now rewrite Hsec.
      * apply remove_class_removes.
    + exists html. split; [|split].
      * unfold rendered. rewrite Hdoc. unfold searching. cbn [document].
        find_elements. now rewrite Hcon.
      * destruct Hshape as [-> | (heading & text & ->)]; discriminate.
      * destruct Hshape as [-> | Hshape]; [now left | right; now left].
  - rewrite handleSearch_catch_run. cbn [snd document]. rewrite Hout. split.
    + exists (remove_class (js "results-hidden") section). split.
      * unfold searching. cbn [document]. find_elements. now rewrite Hsec.
      * apply remove_class_removes.
    + exists (error_markup (strip_error_prefix (message e))). split; [|split].
      * apply (rendered_results w content). exact Hcon.
      * discriminate.
      * right. right. now eexists.
Qed.

(** X9.  When [fetch] rejects, or the body of an ok response does not
    parse, [handleSearch] logs the exception and shows its message in the
    error paragraph, without a leading "Error: ". *)
Theorem handleSearch_shows_caught_error :
  forall (w : World) (input section content : Element) (e : exn),
    find_element (js "car-search") (document w) = Some input ->
    find_element (js "results-section") (document w) = Some section ->
    find_element (js "results-content") (document w) = Some content ->
    blank (value input) = false ->
    (network (chat_request (trim (value input))) = Throw e
     \/ exists r, network (chat_request (trim (value input))) = Normal r
                  /\ ok r = true /\ parsed r = Throw e) ->
    rendered "results-content" (snd (handleSearch network w))
    = Some (error_markup (strip_error_prefix (message e)))
    /\ (forall text, message e = js "Error: " ++ text ->
          rendered "results-content" (snd (handleSearch network w))
          = Some (error_markup text))
    /\ events (snd (handleSearch network w))
       = events w ++ [Requested (chat_request (trim (value input)))]
         ++ [Logged (js "Error fetching data:") e].
Proof.
  intros w input section content e Hin Hsec Hcon Hq Hfail.
  rewrite (handleSearch_started network w input section content
             Hin Hsec Hcon (trim_not_blank _ Hq)).
  assert (Htry : handleSearch_try network (Some (js "results-content"))
                   (trim (value input)) (searching w)
                 = (Throw e,
                    mkWorld (document (searching w))
                      (events w
                       ++ [Requested (chat_request (trim (value input)))]))).
  { unfold handleSearch_try. run.
    destruct Hfail as [Hnet | (r & Hnet & Hok & Hp)]; rewrite Hnet; run;
      [reflexivity|].
    rewrite Hok. cbn [negb]. rewrite Hp. reflexivity. }
  unfold try_catch. rewrite Htry, handleSearch_catch_run.
  cbn [snd document events].
  assert (Hshown :
            rendered "results-content"
              (mkWorld
                 (update_element (js "results-content")
                    (set_innerHTML
                       (error_markup (strip_error_prefix (message e))))
                    (document (searching w)))
                 ((events w
                   ++ [Requested (chat_request (trim (value input)))])
                  ++ [Logged (js "Error fetching data:") e]))
            = Some (error_markup (strip_error_prefix (message e))))
    by (apply (rendered_results w content); exact Hcon).
  split; [exact Hshown|]. split.
  - intros text Hm. rewrite Hshown, Hm.
    now rewrite strip_error_prefix_removes.
  - now rewrite <- app_assoc.
Qed.

(** X10.  An ok response whose [car] is truthy and not a string (a number,
    [true], an array, an object) is not displayed: [replace] is no method
    of it, and the results show the engine's TypeError message. *)
Theorem handleSearch_car_without_replace :
  forall (w : World) (input section content : Element) (r : Response)
         (body car : json),
    find_element (js "car-search") (document w) = Some input ->
    find_element (js "results-section") (document w) = Some section ->
    find_element (js "results-content") (document w) = Some content ->
    blank (value input) = false ->
    network (chat_request (trim (value input))) = Normal r ->
    ok r = true ->
    parsed r = Normal body ->
    member body (js "car") = Some car ->
    truthy (Some car) = true ->
    (forall s, car <> JStr s) ->
    rendered "results-content" (snd (handleSearch network w))
    = Some (error_markup
              (strip_error_prefix
                 (type_error_message
                    (NotAFunction (js "resultText.replace"))))).
Proof.
  intros w input section content r body car
         Hin Hsec Hcon Hq Hnet Hok Hp Hcar Htruthy Hnot.
  rewrite (handleSearch_started network w input section content
             Hin Hsec Hcon (trim_not_blank _ Hq)).
  unfold try_catch, handleSearch_try. run. rewrite Hnet. run.
  rewrite Hok. cbn [negb]. rewrite Hp. run.
  destruct body; cbn [member] in Hcar; try discriminate.
  cbn [truthy get member]. rewrite Hcar, Htruthy.
  unfold displayResults. run.
  rewrite (searching_results_content w content Hcon). run.
  destruct car as [|b|x|s|items|ms]; try discriminate Htruthy;
    try (now elim (Hnot s));
    cbn [replace_method fst snd document events];
    apply (rendered_results w content); exact Hcon.
Qed.

End SearchFacts.

(* ------------------------------------------------------------------ *)
(** *** The agent status and the dashboard, whatever the answer *)

Section DashboardFacts.

Context {engine : Engine}.

Variable network : Network.

(** X11.  An agent that is available changes nothing on the page: with a
    truthy [available] in the status body, the request is all that
    happened. *)
Theorem checkAgentStatus_available :
  forall (w : World) (r : Response) (body : json),
    network status_request = Normal r ->
    parsed r = Normal body ->
    truthy (member body (js "available")) = true ->
    checkAgentStatus network w
    = (Normal tt,
       mkWorld (document w) (events w ++ [Requested status_request])).
Proof.
  intros w r body Hnet Hbody Hav.
  unfold checkAgentStatus. run. rewrite Hnet. run.
  rewrite Hbody. run.
  destruct body; cbn [member] in Hav; try discriminate.
  cbn [get member]. rewrite Hav. reflexivity.
Qed.

(** X12.  A status body that is [null] leaves the search enabled: the
    TypeError of reading [available] from it is caught and logged, and the
    page is what it was. *)
Theorem checkAgentStatus_null_body :
  forall (w : World) (r : Response),
    network status_request = Normal r ->
    parsed r = Normal JNull ->
    checkAgentStatus network w
    = (Normal tt,
       mkWorld (document w)
         ((events w ++ [Requested status_request])
          ++ [Logged (js "Failed to check agent status:")
                (TypeError (ReadOfNullish (Some JNull) (js "available")))])).
Proof.
  intros w r Hnet Hbody.
  unfold checkAgentStatus. run. rewrite Hnet. run.
  rewrite Hbody. reflexivity.
Qed.

(** X13.  On a page that lacks one of the three elements of the dashboard,
    [fetchFuelPrice] does nothing at all. *)
Theorem fetchFuelPrice_missing_element :
  forall (w : World),
    has_dashboard (document w) = false ->
    fetchFuelPrice network w = (Normal tt, w).
Proof.
  intros w H. unfold has_dashboard in H. unfold fetchFuelPrice. run.
  destruct (find_element (js "dashboard-section") (document w));
    destruct (find_element (js "user-location") (document w));
    destruct (find_element (js "gas-prices") (document w));
    try discriminate H; reflexivity.
Qed.

Lemma confined_updateDashboardUI :
  forall data,
    confined [js "dashboard-section"; js "user-location"; js "gas-prices"]
      (updateDashboardUI data).
Proof.
  intros. unfold updateDashboardUI, update_location, update_prices. confine.
Qed.

Lemma confined_fetchFuelPrice_try :
  confined [js "dashboard-section"; js "user-location"; js "gas-prices"]
    (fetchFuelPrice_try network (Some (js "user-location"))
       (Some (js "gas-prices"))).
Proof.
  unfold fetchFuelPrice_try, updateDashboardUI, update_location,
    update_prices, response_json.
  confine.
Qed.

(** The [catch] block of [fetchFuelPrice] on a page with the location and
    the price display. *)
Lemma fetchFuelPrice_catch_run :
  forall (w : World) (e : exn) (location prices : Element),
    find_element (js "user-location") (document w) = Some location ->
    find_element (js "gas-prices") (document w) = Some prices ->
    let after := fetchFuelPrice_catch (Some (js "user-location"))
                   (Some (js "gas-prices")) e w in
    fst after = Normal tt
    /\ shown_text "user-location" (snd after)
       = Some (js "Location Unavailable")
    /\ rendered "gas-prices" (snd after)
       = Some (js "<p>Could not load prices</p>")
    /\ events (snd after)
       = events w ++ [Logged (js "Error fetching fuel prices:") e].
Proof.
  intros w e location prices Hl Hp. cbv zeta.
  unfold fetchFuelPrice_catch. run.
  split; [reflexivity|]. unfold shown_text, rendered. cbn [document].
  find_elements. rewrite Hl, Hp. repeat split.
Qed.

Lemma loading_dashboard_elements :
  forall (w : World) (location prices : Element),
    find_element (js "user-location") (document w) = Some location ->
    find_element (js "gas-prices") (document w) = Some prices ->
    find_element (js "user-location") (document (loading_dashboard w))
    = Some (set_textContent (js "Info loading...") location)
    /\ find_element (js "gas-prices") (document (loading_dashboard w))
       = Some (set_innerHTML mini_spinner prices).
Proof.
  intros w location prices Hl Hp. unfold loading_dashboard. cbn [document].
  find_elements. now rewrite Hl, Hp.
Qed.

(** A throw of the [try] block leaves the location and the price display
    on the page, so the [catch] block finds them. *)
Lemma fetchFuelPrice_caught :
  forall (w w' : World) (e : exn) (dashboard location prices : Element),
    find_element (js "dashboard-section") (document w) = Some dashboard ->
    find_element (js "user-location") (document w) = Some location ->
    find_element (js "gas-prices") (document w) = Some prices ->
    fetchFuelPrice_try network (Some (js "user-location"))
      (Some (js "gas-prices")) (loading_dashboard w) = (Throw e, w') ->
    fst (fetchFuelPrice network w) = Normal tt
    /\ shown_text "user-location" (snd (fetchFuelPrice network w))
       = Some (js "Location Unavailable")
    /\ rendered "gas-prices" (snd (fetchFuelPrice network w))
       = Some (js "<p>Could not load prices</p>")
    /\ events (snd (fetchFuelPrice network w))
       = events w' ++ [Logged (js "Error fetching fuel prices:") e].
Proof.
  intros w w' e dashboard location prices Hd Hl Hp Htry.
  rewrite (fetchFuelPrice_started network w dashboard location prices
             Hd Hl Hp).
  unfold try_catch. rewrite Htry.
  destruct (loading_dashboard_elements w location prices Hl Hp) as [Hl0 Hp0].
  destruct (confined_fetchFuelPrice_try (loading_dashboard w)) as (Hids & _).
  rewrite Htry in Hids. cbn [snd] in Hids.
  destruct (find_element (js "user-location") (document w')) as [l'|] eqn:Hl';
    [|apply (same_ids_same_lookup _ _ _ Hids) in Hl'; congruence].
  destruct (find_element (js "gas-prices") (document w')) as [p'|] eqn:Hp';
    [|apply (same_ids_same_lookup _ _ _ Hids) in Hp'; congruence].
  exact (fetchFuelPrice_catch_run w' e l' p' Hl' Hp').
Qed.

(** X14.  When [fetch] rejects, when the status is neither ok nor 403, or
    when the body of an ok response does not parse, [fetchFuelPrice] logs
    the failure and shows "Location Unavailable" and the could-not-load
    message. *)
Theorem fetchFuelPrice_generic_failure :
  forall (w : World) (dashboard location prices : Element) (error : exn),
    find_element (js "dashboard-section") (document w) = Some dashboard ->
    find_element (js "user-location") (document w) = Some location ->
    find_element (js "gas-prices") (document w) = Some prices ->
    fuel_failure network error ->
    fst (fetchFuelPrice network w) = Normal tt
    /\ shown_text "user-location" (snd (fetchFuelPrice network w))
       = Some (js "Location Unavailable")
    /\ rendered "gas-prices" (snd (fetchFuelPrice network w))
       = Some (js "<p>Could not load prices</p>")
    /\ events (snd (fetchFuelPrice network w))
       = (events w ++ [Requested fuel_price_request])
         ++ [Logged (js "Error fetching fuel prices:") error].
Proof.
  intros w dashboard location prices error Hd Hl Hp Hfail.
  apply (fetchFuelPrice_caught w
           (mkWorld (document (loading_dashboard w))
              (events w ++ [Requested fuel_price_request]))
           error dashboard location prices Hd Hl Hp).
  unfold fetchFuelPrice_try. run.
  destruct Hfail as [e Hnet | r Hnet Hst Hok | r e Hnet Hok Hbody];
    rewrite Hnet; run; [reflexivity | |].
  - apply N.eqb_neq in Hst. rewrite Hst, Hok. reflexivity.
  - assert (Hst : (status r =? 403) = false).
    { apply N.eqb_neq. intros H. unfold ok in Hok. rewrite H in Hok.
      discriminate Hok. }
    rewrite Hst, Hok. cbn [negb]. rewrite Hbody. reflexivity.
Qed.

Lemma price_columns_without_prices :
  forall (price_data section : json),
    member price_data (js "regional") = Some section ->
    truthy (Some section) = true ->
    member section (js "prices") = None
    \/ member section (js "prices") = Some JNull ->
    exists e, price_columns (Some price_data) = Throw e.
Proof.
  intros price_data section Hreg Htruthy Hprices.
  unfold price_columns.
  destruct price_data; cbn [member] in Hreg; try discriminate.
  cbn [get member cbind]. rewrite Hreg, Htruthy.
  assert (Hget : forall key, get (Some section) key
                             = Normal (member section key)).
  { intros key. destruct section; try discriminate Htruthy; reflexivity. }
  rewrite !Hget. cbn [cbind].
  destruct (interpolate (member section (js "region"))) as [name|e];
    cbn [cbind]; [|now exists e].
  destruct Hprices as [-> | ->]; eexists; reflexivity.
Qed.

(** X15.  A response that is ok and whose regional section has no prices
    ([prices] left out or [null]) makes the price list throw, and the
    failure is the generic one: the price display shows the could-not-load
    message and the location reads "Location Unavailable", the city the
    response may carry being overwritten. *)
Theorem fetchFuelPrice_prices_missing :
  forall (w : World) (dashboard location prices : Element) (r : Response)
         (body price_data section : json),
    find_element (js "dashboard-section") (document w) = Some dashboard ->
    find_element (js "user-location") (document w) = Some location ->
    find_element (js "gas-prices") (document w) = Some prices ->
    network fuel_price_request = Normal r ->
    ok r = true ->
    parsed r = Normal body ->
    member body (js "price_data") = Some price_data ->
    member price_data (js "regional") = Some section ->
    truthy (Some section) = true ->
    member section (js "prices") = None
    \/ member section (js "prices") = Some JNull ->
    fst (fetchFuelPrice network w) = Normal tt
    /\ shown_text "user-location" (snd (fetchFuelPrice network w))
       = Some (js "Location Unavailable")
    /\ rendered "gas-prices" (snd (fetchFuelPrice network w))
       = Some (js "<p>Could not load prices</p>").
Proof.
  intros w dashboard location prices r body price_data section
         Hd Hl Hp Hnet Hok Hbody Hpd Hreg Htruthy Hprices.
  assert (Hthrow : exists e w',
             fetchFuelPrice_try network (Some (js "user-location"))
               (Some (js "gas-prices")) (loading_dashboard w)
             = (Throw e, w')).
  { assert (Hst : (status r =? 403) = false).
    { apply N.eqb_neq. intros H. unfold ok in Hok. rewrite H in Hok.
      discriminate Hok. }
    unfold fetchFuelPrice_try. run. rewrite Hnet. run.
    rewrite Hst, Hok. cbn [negb]. rewrite Hbody. run.
    unfold updateDashboardUI. run.
    destruct (loading_dashboard_elements w location prices Hl Hp)
      as [Hl0 Hp0].
    rewrite Hl0, Hp0.
    destruct (update_location (Some (js "user-location")) body _)
      as [[[]|e1] w1]; [|now exists e1, w1].
    unfold update_prices. run.
    destruct body; cbn [member] in Hpd; try discriminate.
    cbn [get member]. rewrite Hpd.
    assert (Hobj : truthy (Some price_data) = true).
    { destruct price_data; cbn [member] in Hreg; try discriminate.
      reflexivity. }
    rewrite Hobj.
    destruct (price_columns_without_prices price_data section
                Hreg Htruthy Hprices) as [e He].
    rewrite He. now exists e, w1. }
  destruct Hthrow as (e & w' & Htry).
  destruct (fetchFuelPrice_caught w w' e dashboard location prices
              Hd Hl Hp Htry) as (Hret & Htext & Hshown & _).
  repeat split; assumption.
Qed.

End DashboardFacts.

(* ------------------------------------------------------------------ *)
(** *** What the dashboard ends up showing *)

Lemma not_loading_text :
  forall x, x ++ js ")" <> js "Info loading...".
Proof.
  intros x H. apply (f_equal (@rev N)) in H.
  rewrite rev_app_distr in H. vm_compute in H. discriminate H.
Qed.

Section DashboardOutcomes.

Context {engine : Engine}.

Variable network : Network.

Lemma location_text_shape :
  forall location city text,
    location_text location city = Normal text ->
    exists x, text = x ++ js ")".
Proof.
  intros location city text. unfold location_text.
  destruct (get location (js "regionName")) as [regionName|]; cbn [cbind];
    [|discriminate].
  destruct (if truthy regionName then Normal regionName
            else get location (js "region")) as [named|]; cbn [cbind];
    [|discriminate].
  destruct (get location (js "countryCode")) as [countryCode|]; cbn [cbind];
    [|discriminate].
  destruct (interpolate city) as [c|]; cbn [cbind]; [|discriminate].
  destruct (interpolate _) as [r|]; cbn [cbind]; [|discriminate].
  destruct (interpolate _) as [k|]; cbn [cbind]; [|discriminate].
  intros H. injection H as <-.
  exists (c ++ js ", " ++ r ++ js " (" ++ k).
  now rewrite <- !app_assoc.
Qed.

(** The rows of a price list are added after what is there. *)
Lemma price_rows_extends :
  forall indent entries prices html hasPrices out,
    price_rows indent entries prices html hasPrices = Normal out ->
    exists rest, fst out = html ++ rest.
Proof.
  intros indent.
  induction entries as [|[key label] entries IH];
    intros prices html hasPrices out; cbn [price_rows].
  - intros H. injection H as <-. exists []. cbn. now rewrite app_nil_r.
  - destruct (get prices key) as [price|]; cbn [cbind]; [|discriminate].
    destruct (price_shown price) as [[|]|]; cbn [cbind]; [| |discriminate].
    + destruct (interpolate price) as [text|]; cbn [cbind]; [|discriminate].
      intros H. destruct (IH _ _ _ _ H) as [rest ->].
      exists (fuel_item indent label text ++ rest). now rewrite app_assoc.
    + apply IH.
Qed.

Lemma update_location_outcome :
  forall (data : json) (w : World),
    match update_location (Some (js "user-location")) data w with
    | (Normal _, w') =>
        exists text,
          w' = mkWorld
                 (update_element (js "user-location") (set_textContent text)
                    (document w))
                 (events w)
          /\ text <> js "Info loading..."
    | (Throw _, w') => w' = w
    end.
Proof.
  intros data w. unfold update_location. run.
  destruct (get (Some data) (js "location")) as [location|]; run;
    [|reflexivity].
  destruct (truthy location); run.
  - destruct (get location (js "city")) as [city|]; run; [|reflexivity].
    destruct (truthy city).
    + destruct (location_text location city) as [text|] eqn:Htext; run;
        [|reflexivity].
      exists text. split; [reflexivity|].
      destruct (location_text_shape _ _ _ Htext) as [x ->].
      apply not_loading_text.
    + exists (js "Unknown Location"). split; [reflexivity | discriminate].
  - destruct (truthy location);
      [ destruct (location_text location location) as [text|] eqn:Htext; run;
        [ exists text; split; [reflexivity|];
          destruct (location_text_shape _ _ _ Htext) as [x ->];
          apply not_loading_text
        | reflexivity ]
      | exists (js "Unknown Location"); split; [reflexivity | discriminate] ].
Qed.

Lemma update_prices_outcome :
  forall (data : json) (w : World),
    match update_prices (Some (js "gas-prices")) data w with
    | (Normal _, w') =>
        exists html,
          w' = mkWorld
                 (update_element (js "gas-prices") (set_innerHTML html)
                    (document w))
                 (events w)
          /\ html <> mini_spinner
    | (Throw _, w') => w' = w
    end.
Proof.
  intros data w. unfold update_prices. run.
  destruct (get (Some data) (js "price_data")) as [price_data|]; run;
    [|reflexivity].
  destruct (truthy price_data).
  - destruct (price_columns price_data) as [contentHtml|]; run;
      [|reflexivity].
    destruct (is_empty contentHtml); eexists; (split; [reflexivity|]);
      discriminate.
  - destruct (get (Some data) (js "fuel_price")) as [fuel_price|]; run;
      [|reflexivity].
    destruct (truthy fuel_price).
    + destruct (price_rows 16 fuelMapping fuel_price price_label false)
        as [loop|] eqn:Hloop; run; [|reflexivity].
      exists (fst loop). split; [reflexivity|].
      destruct (price_rows_extends _ _ _ _ _ _ Hloop) as [rest ->].
      discriminate.
    + eexists. split; [reflexivity | discriminate].
Qed.

(** What a normal completion of the [try] block of [fetchFuelPrice] has
    written: a location and a price display that are no longer loading. *)
Lemma fetchFuelPrice_try_outcome :
  forall (w : World) (location prices : Element),
    find_element (js "user-location") (document w) = Some location ->
    find_element (js "gas-prices") (document w) = Some prices ->
    match fetchFuelPrice_try network (Some (js "user-location"))
            (Some (js "gas-prices")) w with
    | (Normal _, w') =>
        shown_text "user-location" w' <> Some (js "Info loading...")
        /\ rendered "gas-prices" w' <> Some mini_spinner
    | (Throw _, _) => True
    end.
Proof.
  intros w location prices Hl Hp.
  unfold fetchFuelPrice_try. run.
  destruct (network fuel_price_request) as [r|]; run; [|exact I].
  destruct (status r =? 403).
  - destruct (parsed r) as [errorData|]; run; [|exact I].
    destruct (get (Some errorData) (js "detail")) as [detail|]; run;
      [|exact I].
    destruct (interpolate detail) as [text|]; run; [|exact I].
    unfold shown_text, rendered. cbn [document]. find_elements.
    rewrite Hl, Hp. split; discriminate.
  - destruct (ok r); cbn [negb]; [|exact I].
    destruct (parsed r) as [data|]; run; [|exact I].
    unfold updateDashboardUI. run. rewrite Hl, Hp.
    pose proof (update_location_outcome data
                  (mkWorld (document w)
                     (events w ++ [Requested fuel_price_request]))) as Hloc.
    destruct (update_location (Some (js "user-location")) data _)
      as [[[]|] w1]; [|exact I].
    destruct Hloc as (text & -> & Htext).
    match goal with
    | |- context [update_prices _ data ?w1] =>
        pose proof (update_prices_outcome data w1) as Hprices;
        destruct (update_prices (Some (js "gas-prices")) data w1)
          as [[[]|] w2]; [|exact I]
    end.
    destruct Hprices as (html & -> & Hhtml).
    unfold shown_text, rendered. cbn [document]. find_elements.
    rewrite Hl, Hp. cbn. split; congruence.
Qed.

(** X16.  On a page with the three elements of the dashboard, whatever the
    network answers, [fetchFuelPrice] leaves neither the loading text in
    the location nor the small spinner in the price display. *)
Theorem fetchFuelPrice_leaves_loading_state :
  forall (w : World) (dashboard location prices : Element),
    find_element (js "dashboard-section") (document w) = Some dashboard ->
    find_element (js "user-location") (document w) = Some location ->
    find_element (js "gas-prices") (document w) = Some prices ->
    shown_text "user-location" (snd (fetchFuelPrice network w))
    <> Some (js "Info loading...")
    /\ rendered "gas-prices" (snd (fetchFuelPrice network w))
       <> Some mini_spinner.
Proof.
  intros w dashboard location prices Hd Hl Hp.
  destruct (loading_dashboard_elements w location prices Hl Hp) as [Hl0 Hp0].
  pose proof (fetchFuelPrice_try_outcome (loading_dashboard w) _ _ Hl0 Hp0)
    as Hout.
  destruct (fetchFuelPrice_try network (Some (js "user-location"))
              (Some (js "gas-prices")) (loading_dashboard w))
    as [[[]|e] w'] eqn:Htry.
  - rewrite (fetchFuelPrice_started network w dashboard location prices
               Hd Hl Hp).
    unfold try_catch. rewrite Htry. exact Hout.
  - destruct (fetchFuelPrice_caught network w w' e dashboard location prices
                Hd Hl Hp Htry) as (_ & -> & -> & _).
    split; discriminate.
Qed.

Lemma price_columns_numeric :
  forall (price_data : list (jsstring * json)),
    numeric_section (lookup (js "regional") price_data) = true ->
    named_section (lookup (js "regional") price_data) = true ->
    numeric_section (lookup (js "national") price_data) = true ->
    price_columns (Some (JObj price_data))
    = Normal (numeric_columns
                (region_name (lookup (js "regional") price_data))
                (lookup (js "regional") price_data)
                (lookup (js "national") price_data)).
Proof.
  intros price_data Hreg Hname Hnat.
  unfold price_columns, numeric_columns. cbn [get member cbind].
  assert (Hfirst :
            (if truthy (lookup (js "regional") price_data)
             then
               prices <-- get (lookup (js "regional") price_data)
                            (js "prices") ;;
               region <-- get (lookup (js "regional") price_data)
                            (js "region") ;;
               name <-- interpolate region ;;
               generatePriceList prices (js "Media " ++ name)
             else Normal [])
            = Normal (price_list
                        (js "Media "
                         ++ region_name (lookup (js "regional") price_data))
                        (section_prices (lookup (js "regional") price_data)))).
  { destruct (lookup (js "regional") price_data) as [[| | | | |ms]|];
      try discriminate Hreg; try reflexivity.
    cbn [numeric_section named_section region_name section_prices
         truthy get member cbind] in *.
    destruct (lookup (js "prices") ms) as [[| | | | |ps]|];
      try discriminate Hreg.
    destruct (lookup (js "region") ms) as [[| | |name| |]|];
      try discriminate Hname.
    cbn [cbind interpolate to_string].
    now apply generatePriceList_numeric. }
  assert (Hsecond :
            (if truthy (lookup (js "national") price_data)
             then
               prices <-- get (lookup (js "national") price_data)
                            (js "prices") ;;
               generatePriceList prices (js "Media Italia")
             else Normal [])
            = Normal (price_list (js "Media Italia")
                        (section_prices (lookup (js "national") price_data)))).
  { destruct (lookup (js "national") price_data) as [[| | | | |ms]|];
      try discriminate Hnat; try reflexivity.
    cbn [numeric_section section_prices truthy get member cbind] in *.
    destruct (lookup (js "prices") ms) as [[| | | | |ps]|];
      try discriminate Hnat.
    now apply generatePriceList_numeric. }
  rewrite Hfirst. cbn [cbind]. rewrite Hsecond. reflexivity.
Qed.

(** X17.  With a [price_data] object whose regional and national sections
    carry a number, [null] or nothing under each known fuel key, the price
    display holds the two columns, the regional one first under
    "Media " and the name of its region, the national one under
    "Media Italia", each with one row per known fuel whose price is strictly
    greater than zero, in one flex container; when neither column has a row
    it says that no prices are available.  A [fuel_price] beside
    [price_data] plays no part. *)
Theorem update_prices_two_columns :
  forall (w : World) (shown : Element) (data : json)
         (price_data : list (jsstring * json)),
    find_element (js "gas-prices") (document w) = Some shown ->
    member data (js "price_data") = Some (JObj price_data) ->
    priced_section (lookup (js "regional") price_data) = true ->
    named_section (lookup (js "regional") price_data) = true ->
    priced_section (lookup (js "national") price_data) = true ->
    let columns :=
      expected_columns (region_name (lookup (js "regional") price_data))
        (lookup (js "regional") price_data)
        (lookup (js "national") price_data) in
    rendered "gas-prices"
      (snd (update_prices (Some (js "gas-prices")) data w))
    = Some (if is_empty columns
            then js "<p>Prezzi non disponibili.</p>"
            else expected_container columns).
Proof.
  intros w shown data price_data Hgp Hpd Hreg Hname Hnat columns.
  unfold columns. clear columns.
  rewrite <- numeric_columns_written, <- prices_container_written.
  rewrite <- numeric_section_written in Hreg, Hnat.
  set (columns :=
         numeric_columns (region_name (lookup (js "regional") price_data))
           (lookup (js "regional") price_data)
           (lookup (js "national") price_data)).
  destruct data; cbn [member] in Hpd; try discriminate.
  unfold update_prices. run. cbn [get member]. rewrite Hpd.
  cbn [truthy]. rewrite (price_columns_numeric price_data Hreg Hname Hnat).
  fold columns.
  destruct (is_empty columns); unfold rendered; cbn [fst snd document];
    find_elements; now rewrite Hgp.
Qed.

(** X18.  A response with neither [price_data] nor [fuel_price] (each left
    out or falsy) shows that prices are unavailable. *)
Theorem update_prices_unavailable :
  forall (w : World) (shown : Element) (data : json),
    find_element (js "gas-prices") (document w) = Some shown ->
    data <> JNull ->
    truthy (member data (js "price_data")) = false ->
    truthy (member data (js "fuel_price")) = false ->
    rendered "gas-prices"
      (snd (update_prices (Some (js "gas-prices")) data w))
    = Some (js "<p>Prices unavailable</p>").
Proof.
  intros w shown data Hgp Hnull Hpd Hfp.
  assert (Hget : forall key, get (Some data) key = Normal (member data key)).
  { intros key. destruct data; try contradiction; reflexivity. }
  unfold update_prices. run. rewrite !Hget, Hpd. run.
  rewrite ?Hget, Hfp. unfold rendered. cbn [fst snd document].
  find_elements. now rewrite Hgp.
Qed.

End DashboardOutcomes.

(* ------------------------------------------------------------------ *)
(** *** The page load, and a source of any kind *)

Lemma has_dashboard_same_ids :
  forall d d', map fst d = map fst d' -> has_dashboard d = has_dashboard d'.
Proof.
  intros d d' H. unfold has_dashboard.
  pose proof (same_ids_same_lookup (js "dashboard-section") d d' H) as H1.
  pose proof (same_ids_same_lookup (js "user-location") d d' H) as H2.
  pose proof (same_ids_same_lookup (js "gas-prices") d d' H) as H3.
  destruct (find_element (js "dashboard-section") d),
           (find_element (js "dashboard-section") d'),
           (find_element (js "user-location") d),
           (find_element (js "user-location") d'),
           (find_element (js "gas-prices") d),
           (find_element (js "gas-prices") d');
    try reflexivity;
    repeat match goal with
           | H : _ <-> _ |- _ => destruct H
           end;
    repeat match goal with
           | H : None = None -> Some _ = None |- _ =>
               discriminate (H eq_refl)
           end.
Qed.

Section LoadFacts.

Context {engine : Engine}.

Variable network : Network.

Lemma initApp_run :
  forall w,
    initApp network w
    = (Normal (match find_element (js "search-btn") (document w) with
               | Some _ =>
                   [mkListener (js "search-btn") (js "click")
                      (handleSearch network)]
               | None => []
               end),
       snd (fetchFuelPrice network (snd (checkAgentStatus network w)))).
Proof.
  intros w. unfold initApp, bind, getElementById, detached, ret.
  pose proof (checkAgentStatus_returns network w) as Hret.
  destruct (checkAgentStatus network w) as [c w1]. cbn [fst snd] in *.
  subst c.
  now destruct (find_element (js "search-btn") (document w)).
Qed.

(** X19.  Whatever the page and whatever the network answers, [initApp]
    returns normally.  The status request is sent first and, on a page with
    the three elements of the dashboard, the fuel price request second; the
    click listener is [handleSearch] on the search button when the page has
    one, available agent or not, and there is no listener otherwise. *)
Theorem initApp_loads :
  forall w,
    fst (initApp network w)
    = Normal (match find_element (js "search-btn") (document w) with
              | Some _ =>
                  [mkListener (js "search-btn") (js "click")
                     (handleSearch network)]
              | None => []
              end)
    /\ requests (events (snd (initApp network w)))
       = requests (events w)
         ++ status_request
            :: (if has_dashboard (document w) then [fuel_price_request]
                else []).
Proof.
  intros w. rewrite initApp_run. cbn [fst snd]. split; [reflexivity|].
  destruct (fetchFuelPrice_requests network
              (snd (checkAgentStatus network w))) as (_ & Hfuel).
  destruct (confined_checkAgentStatus network
              [js "search-btn"; js "car-search"] eq_refl eq_refl w)
    as (Hids & _).
  rewrite Hfuel, (sends_checkAgentStatus network w),
    (has_dashboard_same_ids _ _ Hids).
  now rewrite <- app_assoc.
Qed.

(** X20.  The heading of the results is whatever the [source] of the
    response converts to, the [car] being a string that is not empty: a
    response without a [source] is headed "undefined", one whose source is
    [null] is headed "null". *)
Theorem handleSearch_heading_of_any_source :
  forall (w : World) (input section content : Element) (r : Response)
         (body : json) (car heading : jsstring),
    find_element (js "car-search") (document w) = Some input ->
    find_element (js "results-section") (document w) = Some section ->
    find_element (js "results-content") (document w) = Some content ->
    blank (value input) = false ->
    network (chat_request (trim (value input))) = Normal r ->
    ok r = true ->
    parsed r = Normal body ->
    member body (js "car") = Some (JStr car) ->
    is_empty car = false ->
    interpolate (member body (js "source")) = Normal heading ->
    rendered "results-content" (snd (handleSearch network w))
    = Some (results_markup heading (newlines_to_breaks car))
    /\ (member body (js "source") = None -> heading = js "undefined")
    /\ (member body (js "source") = Some JNull -> heading = js "null").
Proof.
  intros w input section content r body car heading
         Hin Hsec Hcon Hq Hnet Hok Hp Hcar Hne Hsrc.
  split.
  - rewrite (handleSearch_started network w input section content
               Hin Hsec Hcon (trim_not_blank _ Hq)).
    unfold try_catch, handleSearch_try. run. rewrite Hnet. run.
    rewrite Hok. cbn [negb]. rewrite Hp. run.
    destruct body; cbn [member] in Hcar, Hsrc; try discriminate.
    cbn [truthy get member]. rewrite Hcar. cbn [truthy]. rewrite Hne.
    cbn [negb].
    unfold displayResults. run.
    rewrite (searching_results_content w content Hcon). run.
    cbn [replace_method]. rewrite Hsrc.
    cbn [fst snd document events].
    apply (rendered_results w content). exact Hcon.
  - split; intros H; rewrite H in Hsrc; cbn in Hsrc; congruence.
Qed.

End LoadFacts.

(* ------------------------------------------------------------------ *)
(** *** The older page *)

Ltac compare_names :=
  repeat match goal with
         | |- context [str_eqb (js ?a) (js ?b)] =>
             let v := eval vm_compute in (str_eqb (js a) (js b)) in
             change (str_eqb (js a) (js b)) with v
         end.

Section EarlierFacts.

Context {engine : Engine}.

Variable network : Network.

(** X21.  The click listener of the older page, the search input holding
    the empty string or only white space: the alert is the only thing that
    happens, and the page is what it was. *)
Theorem searchClick_blank_query :
  forall (w : World) (input : Element) (resultsSection resultsContent : ElementRef),
    find_element (js "car-search") (document w) = Some input ->
    blank (value input) = true ->
    Earlier.searchClick (Some (js "car-search")) resultsSection resultsContent w
    = (Normal tt,
       mkWorld (document w)
         (events w ++ [Alerted (js "Please enter a car to analyze.")])).
Proof.
  intros w input resultsSection resultsContent Hin Hblank.
  unfold Earlier.searchClick. run. rewrite Hin. run.
  rewrite (trim_blank _ Hblank). reflexivity.
Qed.

(** X22.  The click listener of the older page, the search input holding a
    query: the results are the mock ones, headed "Results for" and the
    trimmed query between quotes, with the cost $12,500 - $15,000, the score
    High and the reliability Average; the results section has lost its
    hiding class, and no event happened: no request is sent, nothing is
    logged. *)
Theorem searchClick_mock_results :
  forall (w : World) (input section content : Element),
    find_element (js "car-search") (document w) = Some input ->
    find_element (js "results-section") (document w) = Some section ->
    find_element (js "results-content") (document w) = Some content ->
    blank (value input) = false ->
    let after :=
      Earlier.searchClick (Some (js "car-search"))
        (Some (js "results-section")) (Some (js "results-content")) w in
    fst after = Normal tt
    /\ rendered "results-content" (snd after)
       = Some (expected_mock_results (trim (value input)))
    /\ option_map classList
         (find_element (js "results-section") (document (snd after)))
       = Some (remove_class (js "results-hidden") section).(classList)
    /\ events (snd after) = events w.
Proof.
  intros w input section content Hin Hsec Hcon Hq after. subst after.
  rewrite <- mock_results_written.
  unfold Earlier.searchClick. run. rewrite Hin. run.
  rewrite (trim_not_blank _ Hq).
  unfold try_catch, Earlier.displayResults, Earlier.mockData. run.
  cbn [get member lookup]. compare_names.
  cbn [interpolate to_string]. run.
  unfold rendered. cbn [document]. find_elements.
  rewrite Hcon, Hsec. repeat split.
Qed.

(** X23.  [fetchGasPrice] of the older page on a response with status 403
    whose body carries a detail string: the location text becomes
    "Location Unavailable", the price display shows the detail inside the
    error paragraph, and nothing is logged. *)
Theorem fetchGasPrice_forbidden :
  forall (w : World) (dashboard location prices : Element) (r : Response)
         (body : json) (detail : jsstring),
    find_element (js "dashboard-section") (document w) = Some dashboard ->
    find_element (js "user-location") (document w) = Some location ->
    find_element (js "gas-prices") (document w) = Some prices ->
    network Earlier.gas_price_request = Normal r ->
    status r = 403 ->
    parsed r = Normal body ->
    member body (js "detail") = Some (JStr detail) ->
    fst (Earlier.fetchGasPrice network w) = Normal tt
    /\ shown_text "user-location" (snd (Earlier.fetchGasPrice network w))
       = Some (js "Location Unavailable")
    /\ rendered "gas-prices" (snd (Earlier.fetchGasPrice network w))
       = Some (expected_detail_paragraph detail)
    /\ events (snd (Earlier.fetchGasPrice network w))
       = events w ++ [Requested Earlier.gas_price_request].
Proof.
  intros w dashboard location prices r body detail
         Hd Hl Hp Hnet Hst Hbody Hdetail.
  rewrite <- (error_message_markup_written detail).
  unfold Earlier.fetchGasPrice. run. rewrite Hd, Hl, Hp.
  unfold try_catch, Earlier.fetchGasPrice_try. run. rewrite Hnet. run.
  rewrite Hst. cbn [N.eqb Pos.eqb]. rewrite Hbody. run.
  destruct body; cbn [member] in Hdetail; try discriminate.
  cbn [get member]. rewrite Hdetail.
  cbn [interpolate to_string fst snd document events].
  unfold shown_text, rendered. cbn [document]. find_elements.
  rewrite Hl, Hp. repeat split.
Qed.

(** X24.  [fetchGasPrice] of the older page has no guard on its elements: on
    a page without the dashboard section the removal of the hiding class
    fails inside the [try], so no request is sent, the TypeError is logged,
    and the location and the price display show the failure texts. *)
Theorem fetchGasPrice_without_dashboard :
  forall (w : World) (location prices : Element),
    find_element (js "dashboard-section") (document w) = None ->
    find_element (js "user-location") (document w) = Some location ->
    find_element (js "gas-prices") (document w) = Some prices ->
    fst (Earlier.fetchGasPrice network w) = Normal tt
    /\ events (snd (Earlier.fetchGasPrice network w))
       = events w
         ++ [Logged (js "Error fetching gas prices:")
               (TypeError (ReadOfNullish (Some JNull) (js "classList")))]
    /\ shown_text "user-location" (snd (Earlier.fetchGasPrice network w))
       = Some (js "Location Unavailable")
    /\ rendered "gas-prices" (snd (Earlier.fetchGasPrice network w))
       = Some (js "<p>Could not load prices</p>").
Proof.
  intros w location prices Hd Hl Hp.
  unfold Earlier.fetchGasPrice. run. rewrite Hd, Hl, Hp.
  unfold try_catch, Earlier.fetchGasPrice_try. run.
  unfold shown_text, rendered. cbn [document]. find_elements.
  rewrite Hl, Hp. repeat split.
Qed.

(** X25.  The load of the older page does not guard the search button: on
    a page without one it fails with a TypeError where it registers the click
    listener, after it has started the price fetch, so the page ends as
    [fetchGasPrice] leaves it. *)
Theorem onLoad_without_button :
  forall w,
    find_element (js "search-btn") (document w) = None ->
    fst (Earlier.onLoad network w)
    = Throw (TypeError (ReadOfNullish (Some JNull) (js "addEventListener")))
    /\ snd (Earlier.onLoad network w) = snd (Earlier.fetchGasPrice network w).
Proof.
  intros w Hb.
  unfold Earlier.onLoad, bind, getElementById, detached, throw.
  rewrite Hb. split; reflexivity.
Qed.

End EarlierFacts.

(* ------------------------------------------------------------------ *)
(** *** The dashboard from the request to the page *)

Lemma ok_is_not_forbidden :
  forall r, ok r = true -> (status r =? 403) = false.
Proof.
  intros r Hok. unfold ok in Hok.
  apply andb_true_iff in Hok. destruct Hok as (_ & Hhigh).
  apply N.leb_le in Hhigh. apply N.eqb_neq. lia.
Qed.

Section DashboardSuccess.

Context {engine : Engine}.

Variable network : Network.

Lemma update_prices_columns_run :
  forall (w : World) (data : json) (price_data : list (jsstring * json)),
    member data (js "price_data") = Some (JObj price_data) ->
    numeric_section (lookup (js "regional") price_data) = true ->
    named_section (lookup (js "regional") price_data) = true ->
    numeric_section (lookup (js "national") price_data) = true ->
    update_prices (Some (js "gas-prices")) data w
    = (Normal tt,
       mkWorld
         (update_element (js "gas-prices")
            (set_innerHTML
               (if is_empty
                     (numeric_columns
                        (region_name (lookup (js "regional") price_data))
                        (lookup (js "regional") price_data)
                        (lookup (js "national") price_data))
                then js "<p>Prezzi non disponibili.</p>"
                else prices_container
                       (numeric_columns
                          (region_name (lookup (js "regional") price_data))
                          (lookup (js "regional") price_data)
                          (lookup (js "national") price_data))))
            (document w))
         (events w)).
Proof.
  intros w data price_data Hpd Hreg Hname Hnat.
  destruct data; cbn [member] in Hpd; try discriminate.
  unfold update_prices. run. cbn [get member]. rewrite Hpd.
  cbn [truthy]. rewrite (price_columns_numeric price_data Hreg Hname Hnat).
  run.
  destruct (is_empty _); reflexivity.
Qed.

(** X26.  From the request to the page: an ok response whose location has a
    city, with text for its other fields, and whose [price_data] sections
    carry a number, [null] or nothing under each known fuel key leaves the
    dashboard shown, the location as "city, region (country)", the price
    display with the regional and the national column in their container,
    each with one row per known fuel whose price is strictly greater than
    zero, one request sent and nothing logged. *)
Theorem fetchFuelPrice_success :
  forall (w : World) (dashboard location prices : Element) (r : Response)
         (data place : json) (city : jsstring)
         (price_data : list (jsstring * json)),
    find_element (js "dashboard-section") (document w) = Some dashboard ->
    find_element (js "user-location") (document w) = Some location ->
    find_element (js "gas-prices") (document w) = Some prices ->
    network fuel_price_request = Normal r ->
    ok r = true ->
    parsed r = Normal data ->
    member data (js "location") = Some place ->
    member place (js "city") = Some (JStr city) ->
    is_empty city = false ->
    text_or_absent place (js "regionName") = true ->
    text_or_absent place (js "region") = true ->
    text_or_absent place (js "countryCode") = true ->
    member data (js "price_data") = Some (JObj price_data) ->
    priced_section (lookup (js "regional") price_data) = true ->
    named_section (lookup (js "regional") price_data) = true ->
    priced_section (lookup (js "national") price_data) = true ->
    let columns :=
      expected_columns (region_name (lookup (js "regional") price_data))
        (lookup (js "regional") price_data)
        (lookup (js "national") price_data) in
    fst (fetchFuelPrice network w) = Normal tt
    /\ option_map classList
         (find_element (js "dashboard-section")
            (document (snd (fetchFuelPrice network w))))
       = Some (remove_class (js "dashboard-hidden") dashboard).(classList)
    /\ shown_text "user-location" (snd (fetchFuelPrice network w))
       = Some (city ++ js ", " ++ region_text place
               ++ js " (" ++ country_text place ++ js ")")
    /\ rendered "gas-prices" (snd (fetchFuelPrice network w))
       = Some (if is_empty columns
               then js "<p>Prezzi non disponibili.</p>"
               else expected_container columns)
    /\ events (snd (fetchFuelPrice network w))
       = events w ++ [Requested fuel_price_request].
Proof.
  intros w dashboard location prices r data place city price_data
         Hd Hl Hp Hnet Hok Hbody Hplace Hcity Hne Hname Hregion Hcountry
         Hpd Hreg Hnamed Hnat columns.
  unfold columns. clear columns.
  rewrite <- numeric_columns_written, <- prices_container_written.
  rewrite <- numeric_section_written in Hreg, Hnat.
  set (columns :=
         numeric_columns (region_name (lookup (js "regional") price_data))
           (lookup (js "regional") price_data)
           (lookup (js "national") price_data)).
  rewrite (fetchFuelPrice_started network w dashboard location prices
             Hd Hl Hp).
  destruct (loading_dashboard_elements w location prices Hl Hp)
    as (Hl' & Hp').
  unfold try_catch, fetchFuelPrice_try. run. rewrite Hnet. run.
  rewrite (ok_is_not_forbidden r Hok), Hok. cbn [negb].
  rewrite Hbody. run.
  unfold updateDashboardUI. run. rewrite Hl', Hp'.
  rewrite (update_location_city _ data place city
             Hplace Hcity Hne Hname Hregion Hcountry).
  rewrite (update_prices_columns_run _ data price_data Hpd Hreg Hnamed Hnat).
  fold columns. cbn [fst snd document events].
  unfold shown_text, rendered, loading_dashboard. cbn [document].
  find_elements. rewrite Hd, Hl, Hp. repeat split.
Qed.

(** X27.  The older page from the request to the page: an ok response whose
    location has a city, with text for its other fields, and whose
    [gas_price] carries a number, [null] or nothing under each known fuel
    key leaves the location as "city, region (country)" and the price
    display with the label "Prezzo Medio" and one row per known fuel whose
    price is strictly greater than zero; one request is sent and nothing is
    logged. *)
Theorem fetchGasPrice_success :
  forall (w : World) (dashboard location prices : Element) (r : Response)
         (data place gas_price : json) (city : jsstring),
    find_element (js "dashboard-section") (document w) = Some dashboard ->
    find_element (js "user-location") (document w) = Some location ->
    find_element (js "gas-prices") (document w) = Some prices ->
    network Earlier.gas_price_request = Normal r ->
    ok r = true ->
    parsed r = Normal data ->
    member data (js "location") = Some place ->
    member place (js "city") = Some (JStr city) ->
    is_empty city = false ->
    text_or_absent place (js "regionName") = true ->
    text_or_absent place (js "region") = true ->
    text_or_absent place (js "countryCode") = true ->
    member data (js "gas_price") = Some gas_price ->
    truthy (Some gas_price) = true ->
    numbers_or_absent gas_price = true ->
    fst (Earlier.fetchGasPrice network w) = Normal tt
    /\ shown_text "user-location" (snd (Earlier.fetchGasPrice network w))
       = Some (city ++ js ", " ++ region_text place
               ++ js " (" ++ country_text place ++ js ")")
    /\ rendered "gas-prices" (snd (Earlier.fetchGasPrice network w))
       = Some (expected_single_list 24 (positive_prices gas_price))
    /\ events (snd (Earlier.fetchGasPrice network w))
       = events w ++ [Requested Earlier.gas_price_request].
Proof.
  intros w dashboard location prices r data place gas_price city
         Hd Hl Hp Hnet Hok Hbody Hplace Hcity Hne Hname Hregion Hcountry
         Hgas Htruthy Htyped.
  rewrite <- numeric_prices_written in Htyped.
  rewrite <- shown_prices_written, <- single_list_written.
  unfold Earlier.fetchGasPrice. run. rewrite Hd, Hl, Hp.
  unfold try_catch, Earlier.fetchGasPrice_try. run. rewrite Hnet. run.
  rewrite (ok_is_not_forbidden r Hok), Hok. cbn [negb].
  rewrite Hbody. run.
  rewrite (update_location_city _ data place city
             Hplace Hcity Hne Hname Hregion Hcountry).
  unfold Earlier.update_gas_prices. run.
  destruct data; cbn [member] in Hgas; try discriminate.
  cbn [get member]. rewrite Hgas, Htruthy.
  rewrite (price_rows_numeric 24 fuelMapping gas_price _ false);
    [| now destruct gas_price | exact Htyped].
  run.
  unfold shown_text, rendered. cbn [document]. find_elements.
  rewrite Hl, Hp. repeat split.
Qed.

End DashboardSuccess.

(* ================================================================== *)
(** ** The further properties on the sample page *)

(** " Fiat Panda " typed and the network down: one request, for the trimmed
    query. *)
Lemma handleSearch_sends_one_request_witness :
  requests (events (snd (@handleSearch reference_engine unreachable
                           (sample_world (js " Fiat Panda ")))))
  = [chat_request (js "Fiat Panda")].
Proof.
  destruct (@handleSearch_sends_one_request reference_engine unreachable
              (sample_world (js " Fiat Panda ")) _ _ _
              eq_refl eq_refl eq_refl eq_refl)
    as (_ & Hsent & _).
  exact Hsent.
Defined.

(** The sample page without its results content. *)
Lemma handleSearch_missing_element_witness :
  requests
    (events
       (snd (@handleSearch reference_engine unreachable
               (mkWorld (without (js "results-content")
                           (sample_page (js "Fiat Panda"))) []))))
  = [].
Proof.
  destruct (@handleSearch_missing_element reference_engine unreachable
              (mkWorld (without (js "results-content")
                          (sample_page (js "Fiat Panda"))) [])
              (or_intror (or_intror eq_refl)))
    as (Hsent & _).
  exact Hsent.
Defined.

(** An answer with status 500 and an empty object. *)
Lemma handleSearch_always_answers_witness :
  exists html,
    rendered "results-content"
      (snd (@handleSearch reference_engine (answering 500 (JObj []))
              (sample_world (js "Fiat Panda"))))
    = Some html
    /\ html <> loading_spinner
    /\ (html = no_data_markup
        \/ (exists heading text, html = results_markup heading text)
        \/ exists msg, html = error_markup msg).
Proof.
  exact (proj2 (@handleSearch_always_answers reference_engine
                  (answering 500 (JObj []))
                  (sample_world (js "Fiat Panda")) _ _ _
                  eq_refl eq_refl eq_refl eq_refl)).
Defined.

(** The network down. *)
Lemma handleSearch_shows_caught_error_witness :
  rendered "results-content"
    (snd (@handleSearch reference_engine unreachable
            (sample_world (js "Fiat Panda"))))
  = Some (error_markup (js "Failed to fetch")).
Proof.
  destruct (@handleSearch_shows_caught_error reference_engine unreachable
              (sample_world (js "Fiat Panda")) _ _ _
              (mkExn (js "TypeError") (js "Failed to fetch"))
              eq_refl eq_refl eq_refl eq_refl (or_introl eq_refl))
    as (Hshown & _).
  exact Hshown.
Defined.

(** A [car] that is [true]. *)
Lemma handleSearch_car_without_replace_witness :
  rendered "results-content"
    (snd (@handleSearch reference_engine
            (answering 200 (JObj [(js "car", JBool true)]))
            (sample_world (js "Fiat Panda"))))
  = Some (error_markup (js "resultText.replace is not a function")).
Proof.
  refine (@handleSearch_car_without_replace reference_engine
            (answering 200 (JObj [(js "car", JBool true)]))
            (sample_world (js "Fiat Panda")) _ _ _
            (mkResponse 200 (Normal (JObj [(js "car", JBool true)])))
            (JObj [(js "car", JBool true)]) (JBool true)
            eq_refl eq_refl eq_refl eq_refl eq_refl eq_refl eq_refl eq_refl
            eq_refl _).
  intros s H. discriminate H.
Defined.

(** An agent that is available. *)
Lemma checkAgentStatus_available_witness :
  @checkAgentStatus reference_engine
    (answering 200 (JObj [(js "available", JBool true)])) (sample_world [])
  = (Normal tt, mkWorld (sample_page []) [Requested status_request]).
Proof.
  exact (@checkAgentStatus_available reference_engine
           (answering 200 (JObj [(js "available", JBool true)]))
           (sample_world [])
           (mkResponse 200 (Normal (JObj [(js "available", JBool true)])))
           (JObj [(js "available", JBool true)])
           eq_refl eq_refl eq_refl).
Defined.

(** A status body that is [null]. *)
Lemma checkAgentStatus_null_body_witness :
  document
    (snd (@checkAgentStatus reference_engine (answering 200 JNull)
            (sample_world [])))
  = sample_page [].
Proof.
  exact (f_equal (fun result => document (snd result))
           (@checkAgentStatus_null_body reference_engine
              (answering 200 JNull) (sample_world [])
              (mkResponse 200 (Normal JNull)) eq_refl eq_refl)).
Defined.

(** The sample page without the location. *)
Lemma fetchFuelPrice_missing_element_witness :
  @fetchFuelPrice reference_engine unreachable
    (mkWorld (without (js "user-location") (sample_page [])) [])
  = (Normal tt, mkWorld (without (js "user-location") (sample_page [])) []).
Proof.
  exact (@fetchFuelPrice_missing_element reference_engine unreachable
           (mkWorld (without (js "user-location") (sample_page [])) [])
           eq_refl).
Defined.

(** The network down. *)
Lemma fetchFuelPrice_generic_failure_witness :
  shown_text "user-location"
    (snd (@fetchFuelPrice reference_engine unreachable (sample_world [])))
  = Some (js "Location Unavailable")
  /\ rendered "gas-prices"
       (snd (@fetchFuelPrice reference_engine unreachable (sample_world [])))
     = Some (js "<p>Could not load prices</p>").
Proof.
  destruct (@fetchFuelPrice_generic_failure reference_engine unreachable
              (sample_world []) _ _ _
              (mkExn (js "TypeError") (js "Failed to fetch"))
              eq_refl eq_refl eq_refl
              (fuel_rejected unreachable _ eq_refl))
    as (_ & Htext & Hshown & _).
  split; [exact Htext | exact Hshown].
Defined.

(** Rome, and a regional section with its region and no prices. *)
Lemma fetchFuelPrice_prices_missing_witness :
  shown_text "user-location"
    (snd (@fetchFuelPrice reference_engine
            (answering 200
               (JObj [ (js "location", JObj [(js "city", JStr (js "Rome"))]);
                       (js "price_data",
                        JObj [(js "regional",
                               JObj [(js "region", JStr (js "Lazio"))])]) ]))
            (sample_world [])))
  = Some (js "Location Unavailable").
Proof.
  destruct (@fetchFuelPrice_prices_missing reference_engine
              (answering 200
                 (JObj [ (js "location",
                          JObj [(js "city", JStr (js "Rome"))]);
                         (js "price_data",
                          JObj [(js "regional",
                                 JObj [(js "region", JStr (js "Lazio"))])]) ]))
              (sample_world []) _ _ _ _ _
              (JObj [(js "regional", JObj [(js "region", JStr (js "Lazio"))])])
              (JObj [(js "region", JStr (js "Lazio"))])
              eq_refl eq_refl eq_refl eq_refl eq_refl eq_refl eq_refl eq_refl
              eq_refl (or_introl eq_refl))
    as (_ & Htext & _).
  exact Htext.
Defined.

(** A body that is [null] under status 200. *)
Lemma fetchFuelPrice_leaves_loading_state_witness :
  shown_text "user-location"
    (snd (@fetchFuelPrice reference_engine (answering 200 JNull)
            (sample_world [])))
  <> Some (js "Info loading...")
  /\ rendered "gas-prices"
       (snd (@fetchFuelPrice reference_engine (answering 200 JNull)
               (sample_world [])))
     <> Some mini_spinner.
Proof.
  exact (@fetchFuelPrice_leaves_loading_state reference_engine
           (answering 200 JNull) (sample_world []) _ _ _
           eq_refl eq_refl eq_refl).
Defined.

(** The example response for Lazio: one column, with Benzina at 1.8. *)
Lemma update_prices_two_columns_witness :
  rendered "gas-prices"
    (snd (@update_prices reference_engine (Some (js "gas-prices"))
            (example_fuel_response (js "Lazio")) (sample_world [])))
  = Some (js "<div class=" ++ dquote ++ js "prices-container" ++ dquote
          ++ js " style=" ++ dquote ++ js "display: flex; gap: 2rem;" ++ dquote
          ++ js "><div class=" ++ dquote ++ js "price-column" ++ dquote
          ++ js "><h4>Media Lazio</h4>"
          ++ [10] ++ repeat 32 24
          ++ js "<div class=" ++ dquote ++ js "fuel-item" ++ dquote ++ js ">"
          ++ [10] ++ repeat 32 28
          ++ js "<span class=" ++ dquote ++ js "fuel-type" ++ dquote
          ++ js ">Benzina</span>"
          ++ [10] ++ repeat 32 28
          ++ js "<span class=" ++ dquote ++ js "fuel-price" ++ dquote
          ++ js ">" ++ [8364] ++ js "1.8</span>"
          ++ [10] ++ repeat 32 24 ++ js "</div>"
          ++ [10] ++ repeat 32 20
          ++ js "</div></div>").
Proof.
  exact (@update_prices_two_columns reference_engine (sample_world []) _
           (example_fuel_response (js "Lazio")) _
           eq_refl eq_refl eq_refl eq_refl eq_refl).
Defined.

(** A response that is an empty object. *)
Lemma update_prices_unavailable_witness :
  rendered "gas-prices"
    (snd (@update_prices reference_engine (Some (js "gas-prices"))
            (JObj []) (sample_world [])))
  = Some (js "<p>Prices unavailable</p>").
Proof.
  refine (@update_prices_unavailable reference_engine (sample_world []) _
            (JObj []) eq_refl _ eq_refl eq_refl).
  intros H. discriminate H.
Defined.

(** An answer with a [car] and no [source]. *)
Lemma handleSearch_heading_of_any_source_witness :
  rendered "results-content"
    (snd (@handleSearch reference_engine
            (answering 200 (JObj [(js "car", JStr (js "A sturdy car."))]))
            (sample_world (js "Fiat Panda"))))
  = Some (results_markup (js "undefined") (js "A sturdy car.")).
Proof.
  destruct (@handleSearch_heading_of_any_source reference_engine
              (answering 200 (JObj [(js "car", JStr (js "A sturdy car."))]))
              (sample_world (js "Fiat Panda")) _ _ _
              (mkResponse 200
                 (Normal (JObj [(js "car", JStr (js "A sturdy car."))])))
              (JObj [(js "car", JStr (js "A sturdy car."))])
              (js "A sturdy car.") (js "undefined")
              eq_refl eq_refl eq_refl eq_refl eq_refl eq_refl eq_refl eq_refl
              eq_refl eq_refl)
    as (Hshown & _).
  exact Hshown.
Defined.

(** Three spaces typed on the older page. *)
Lemma searchClick_blank_query_witness :
  @Earlier.searchClick reference_engine (Some (js "car-search"))
    (Some (js "results-section")) (Some (js "results-content"))
    (sample_world (js "   "))
  = (Normal tt,
     mkWorld (sample_page (js "   "))
       [Alerted (js "Please enter a car to analyze.")]).
Proof.
  exact (@searchClick_blank_query reference_engine
           (sample_world (js "   ")) _
           (Some (js "results-section")) (Some (js "results-content"))
           eq_refl eq_refl).
Defined.

(** " Fiat Panda " typed on the older page. *)
Lemma searchClick_mock_results_witness :
  rendered "results-content"
    (snd (@Earlier.searchClick reference_engine (Some (js "car-search"))
            (Some (js "results-section")) (Some (js "results-content"))
            (sample_world (js " Fiat Panda "))))
  = Some ([10] ++ repeat 32 12
          ++ js "<h3>Results for " ++ dquote ++ js "Fiat Panda" ++ dquote
          ++ js "</h3>"
          ++ [10] ++ repeat 32 12
          ++ js "<p><strong>Estimated Cost:</strong> $12,500 - $15,000</p>"
          ++ [10] ++ repeat 32 12
          ++ js "<p><strong>Maintenance Score:</strong> High</p>"
          ++ [10] ++ repeat 32 12
          ++ js "<p><strong>Reliability:</strong> Average</p>"
          ++ [10] ++ repeat 32 8)
  /\ events
       (snd (@Earlier.searchClick reference_engine (Some (js "car-search"))
               (Some (js "results-section")) (Some (js "results-content"))
               (sample_world (js " Fiat Panda "))))
     = [].
Proof.
  destruct (@searchClick_mock_results reference_engine
              (sample_world (js " Fiat Panda ")) _ _ _
              eq_refl eq_refl eq_refl eq_refl)
    as (_ & Hshown & _ & Hevents).
  split; [exact Hshown | exact Hevents].
Defined.

(** Status 403 with a detail, on the older page. *)
Lemma fetchGasPrice_forbidden_witness :
  rendered "gas-prices"
    (snd (@Earlier.fetchGasPrice reference_engine
            (answering 403
               (JObj [(js "detail", JStr (js "Location access denied"))]))
            (sample_world [])))
  = Some (js "<p class=" ++ dquote ++ js "error-message" ++ dquote
          ++ js ">Location access denied</p>").
Proof.
  destruct (@fetchGasPrice_forbidden reference_engine
              (answering 403
                 (JObj [(js "detail", JStr (js "Location access denied"))]))
              (sample_world []) _ _ _
              (mkResponse 403
                 (Normal (JObj [(js "detail",
                                 JStr (js "Location access denied"))])))
              (JObj [(js "detail", JStr (js "Location access denied"))])
              (js "Location access denied")
              eq_refl eq_refl eq_refl eq_refl eq_refl eq_refl eq_refl)
    as (_ & _ & Hshown & _).
  exact Hshown.
Defined.

(** The sample page without its dashboard section, on the older code. *)
Lemma fetchGasPrice_without_dashboard_witness :
  requests
    (events
       (snd (@Earlier.fetchGasPrice reference_engine unreachable
               (mkWorld (without (js "dashboard-section") (sample_page []))
                  []))))
  = []
  /\ rendered "gas-prices"
       (snd (@Earlier.fetchGasPrice reference_engine unreachable
               (mkWorld (without (js "dashboard-section") (sample_page []))
                  [])))
     = Some (js "<p>Could not load prices</p>").
Proof.
  destruct (@fetchGasPrice_without_dashboard reference_engine unreachable
              (mkWorld (without (js "dashboard-section") (sample_page [])) [])
              _ _ eq_refl eq_refl eq_refl)
    as (_ & Hevents & _ & Hshown).
  split; [|exact Hshown].
  exact (f_equal requests Hevents).
Defined.

(** The sample page without its search button, on the older code. *)
Lemma onLoad_without_button_witness :
  fst (@Earlier.onLoad reference_engine unreachable
         (mkWorld (without (js "search-btn") (sample_page [])) []))
  = Throw (@TypeError reference_engine
             (ReadOfNullish (Some JNull) (js "addEventListener"))).
Proof.
  exact (proj1 (@onLoad_without_button reference_engine unreachable
                  (mkWorld (without (js "search-btn") (sample_page [])) [])
                  eq_refl)).
Defined.

(** Status 429 with a [detail] that is an object. *)
Lemma handleSearch_detail_without_includes_witness :
  rendered "results-content"
    (snd (@handleSearch reference_engine
            (answering 429 (JObj [(js "detail", JObj [])]))
            (sample_world (js "Fiat Panda"))))
  = Some (error_markup (js "errorData.detail.includes is not a function")).
Proof.
  refine (@handleSearch_detail_without_includes reference_engine
            (answering 429 (JObj [(js "detail", JObj [])]))
            (sample_world (js "Fiat Panda")) _ _ _
            (mkResponse 429 (Normal (JObj [(js "detail", JObj [])])))
            [(js "detail", JObj [])] (JObj [])
            eq_refl eq_refl eq_refl eq_refl eq_refl (or_introl eq_refl)
            eq_refl eq_refl eq_refl _ _).
  - intros s H. discriminate H.
  - intros items H. discriminate H.
Defined.

(** Status 403 with a body that is not JSON. *)
Lemma fetchFuelPrice_forbidden_unparseable_witness :
  rendered "gas-prices"
    (snd (@fetchFuelPrice reference_engine (answering_garbage 403)
            (sample_world [])))
  = Some (js "<p>Could not load prices</p>").
Proof.
  exact (proj1 (@fetchFuelPrice_forbidden_unparseable reference_engine
                  (answering_garbage 403) (sample_world []) _ _ _ _ _
                  eq_refl eq_refl eq_refl eq_refl eq_refl eq_refl)).
Defined.

(** The example prices as the older single list. *)
Lemma update_prices_single_list_witness :
  rendered "gas-prices"
    (snd (@update_prices reference_engine (Some (js "gas-prices"))
            (JObj [(js "fuel_price", example_prices)]) (sample_world [])))
  = Some (js "<div class=" ++ dquote ++ js "price-label" ++ dquote
          ++ js ">Prezzo Medio</div>"
          ++ [10] ++ repeat 32 20
          ++ js "<div class=" ++ dquote ++ js "fuel-item" ++ dquote ++ js ">"
          ++ [10] ++ repeat 32 24
          ++ js "<span class=" ++ dquote ++ js "fuel-type" ++ dquote
          ++ js ">Benzina</span>"
          ++ [10] ++ repeat 32 24
          ++ js "<span class=" ++ dquote ++ js "fuel-price" ++ dquote
          ++ js ">" ++ [8364] ++ js "1.8</span>"
          ++ [10] ++ repeat 32 20 ++ js "</div>"
          ++ [10] ++ repeat 32 16).
Proof.
  exact (@update_prices_single_list reference_engine (sample_world []) _
           (JObj [(js "fuel_price", example_prices)]) example_prices
           eq_refl eq_refl eq_refl eq_refl eq_refl).
Defined.

(** Rome in Lazio with the example prices for the region. *)
Lemma fetchFuelPrice_success_witness :
  shown_text "user-location"
    (snd (@fetchFuelPrice reference_engine
            (answering 200
               (JObj [ (js "location",
                        JObj [ (js "city", JStr (js "Rome"));
                               (js "region", JStr (js "Lazio")) ]);
                       (js "price_data",
                        JObj [ (js "regional",
                                JObj [ (js "region", JStr (js "Lazio"));
                                       (js "prices", example_prices) ]) ]) ]))
            (sample_world [])))
  = Some (js "Rome, Lazio (IT)")
  /\ rendered "gas-prices"
       (snd (@fetchFuelPrice reference_engine
               (answering 200
                  (JObj [ (js "location",
                           JObj [ (js "city", JStr (js "Rome"));
                                  (js "region", JStr (js "Lazio")) ]);
                          (js "price_data",
                           JObj [ (js "regional",
                                   JObj [ (js "region", JStr (js "Lazio"));
                                          (js "prices", example_prices) ]) ]) ]))
               (sample_world [])))
     = Some (js "<div class=" ++ dquote ++ js "prices-container" ++ dquote
             ++ js " style=" ++ dquote ++ js "display: flex; gap: 2rem;" ++ dquote
             ++ js "><div class=" ++ dquote ++ js "price-column" ++ dquote
             ++ js "><h4>Media Lazio</h4>"
             ++ [10] ++ repeat 32 24
             ++ js "<div class=" ++ dquote ++ js "fuel-item" ++ dquote ++ js ">"
             ++ [10] ++ repeat 32 28
             ++ js "<span class=" ++ dquote ++ js "fuel-type" ++ dquote
             ++ js ">Benzina</span>"
             ++ [10] ++ repeat 32 28
             ++ js "<span class=" ++ dquote ++ js "fuel-price" ++ dquote
             ++ js ">" ++ [8364] ++ js "1.8</span>"
             ++ [10] ++ repeat 32 24 ++ js "</div>"
             ++ [10] ++ repeat 32 20
             ++ js "</div></div>").
Proof.
  destruct (@fetchFuelPrice_success reference_engine
              (answering 200
                 (JObj [ (js "location",
                          JObj [ (js "city", JStr (js "Rome"));
                                 (js "region", JStr (js "Lazio")) ]);
                         (js "price_data",
                          JObj [ (js "regional",
                                  JObj [ (js "region", JStr (js "Lazio"));
                                         (js "prices", example_prices) ]) ]) ]))
              (sample_world []) _ _ _ _ _
              (JObj [ (js "city", JStr (js "Rome"));
                      (js "region", JStr (js "Lazio")) ])
              (js "Rome")
              [ (js "regional",
                 JObj [ (js "region", JStr (js "Lazio"));
                        (js "prices", example_prices) ]) ]
              eq_refl eq_refl eq_refl eq_refl eq_refl eq_refl eq_refl eq_refl
              eq_refl eq_refl eq_refl eq_refl eq_refl eq_refl eq_refl eq_refl)
    as (_ & _ & Htext & Hshown & _).
  split; [exact Htext | exact Hshown].
Defined.

(** Rome in Lazio with the example prices, on the older page. *)
Lemma fetchGasPrice_success_witness :
  shown_text "user-location"
    (snd (@Earlier.fetchGasPrice reference_engine
            (answering 200
               (JObj [ (js "location",
                        JObj [ (js "city", JStr (js "Rome"));
                               (js "region", JStr (js "Lazio")) ]);
                       (js "gas_price", example_prices) ]))
            (sample_world [])))
  = Some (js "Rome, Lazio (IT)")
  /\ rendered "gas-prices"
       (snd (@Earlier.fetchGasPrice reference_engine
               (answering 200
                  (JObj [ (js "location",
                           JObj [ (js "city", JStr (js "Rome"));
                                  (js "region", JStr (js "Lazio")) ]);
                          (js "gas_price", example_prices) ]))
               (sample_world [])))
     = Some (js "<div class=" ++ dquote ++ js "price-label" ++ dquote
             ++ js ">Prezzo Medio</div>"
             ++ [10] ++ repeat 32 28
             ++ js "<div class=" ++ dquote ++ js "fuel-item" ++ dquote ++ js ">"
             ++ [10] ++ repeat 32 32
             ++ js "<span class=" ++ dquote ++ js "fuel-type" ++ dquote
             ++ js ">Benzina</span>"
             ++ [10] ++ repeat 32 32
             ++ js "<span class=" ++ dquote ++ js "fuel-price" ++ dquote
             ++ js ">" ++ [8364] ++ js "1.8</span>"
             ++ [10] ++ repeat 32 28 ++ js "</div>"
             ++ [10] ++ repeat 32 24).
Proof.
  destruct (@fetchGasPrice_success reference_engine
              (answering 200
                 (JObj [ (js "location",
                          JObj [ (js "city", JStr (js "Rome"));
                                 (js "region", JStr (js "Lazio")) ]);
                         (js "gas_price", example_prices) ]))
              (sample_world []) _ _ _ _ _
              (JObj [ (js "city", JStr (js "Rome"));
                      (js "region", JStr (js "Lazio")) ])
              example_prices (js "Rome")
              eq_refl eq_refl eq_refl eq_refl eq_refl eq_refl eq_refl eq_refl
              eq_refl eq_refl eq_refl eq_refl eq_refl eq_refl eq_refl)
    as (_ & Htext & Hshown & _).
  split; [exact Htext | exact Hshown].
Defined.
